(** * The file-based command bus of the Fusion 360 MCP add-in

    A shallow embedding of [MCPserve/commands/MCPServerCommand.py]: the
    block layout of the poller's source text, the string operations that
    derive file names, the workspace resolver, the command-file poller
    with its directory store, and the start/stop lifecycle built on the
    module-level flag [server_running].

    Conventions.
    - A directory entry is addressed by the pair (directory, name) that
      the source hands to [os.path.join].
    - Everything the source prints, writes, renames or asks of the host
      application is recorded, in order, in the [log] of the world.
    - Python exceptions are values of [exn]; a computation either returns
      or raises, and [try_catch] is the [try]/[except Exception] block.
    - The poller is embedded twice.  [Poller] runs on a file system on
      which every read and write succeeds.  [Strict] adds the ways in
      which the file system and the codecs fail; what depends on a file
      being read, written or renamed is proved there. *)

From Stdlib Require Import String Ascii.
From stdpp Require Import gmap strings list fin_maps pretty.

Local Open Scope string_scope.
Local Open Scope list_scope.

(* ===================================================================== *)
(** ** Block layout of the source text *)
(* ===================================================================== *)

Module Layout.

(** A logical line: where it starts in the file, the column of its first
    character, and whether it is a compound-statement header, that is,
    whether it ends in a colon and so must be followed by an indented
    block.  Blank lines, comment lines and the continuation lines of a
    bracketed expression are not logical lines. *)
Record logical_line := Line {
  lineno : nat;
  indent : nat;
  opens_block : bool
}.

Inductive layout_error :=
| UnexpectedIndent
| ExpectedIndentedBlock
| InconsistentDedent.

Inductive verdict :=
| Accept
| Reject (line : nat) (why : layout_error).

(** Pop every indentation level larger than [n]. *)
Fixpoint pop_to (n : nat) (stack : list nat) : list nat :=
  match stack with
  | [] => []
  | top :: below => if (n <? top)%nat then pop_to n below else stack
  end.

(** Python's layout rule (Language Reference, Indentation): the
    indentation of each logical line is compared to the top of the
    stack.  Larger: INDENT, which the grammar admits only as the start
    of the block of the header just read.  Equal: nothing, but a header
    must have got its block.  Smaller: the level must be on the stack,
    and the levels above it are popped. *)
Fixpoint check_layout (stack : list nat) (after_header : bool)
         (ls : list logical_line) : verdict :=
  match ls with
  | [] => Accept
  | l :: rest =>
      let top := hd 0%nat stack in
      if (top <? indent l)%nat then
        if after_header
        then check_layout (indent l :: stack) (opens_block l) rest
        else Reject (lineno l) UnexpectedIndent
      else if after_header then Reject (lineno l) ExpectedIndentedBlock
      else if (indent l =? top)%nat then check_layout stack (opens_block l) rest
      else
        let stack' := pop_to (indent l) stack in
        if (hd 0%nat stack' =? indent l)%nat
        then check_layout stack' (opens_block l) rest
        else Reject (lineno l) InconsistentDedent
  end.

(** The logical lines 587 to 646 of MCPServerCommand.py: the loop over
    the command files up to the [message_box] branch. *)
Definition poller_lines : list logical_line :=
  [ Line 587 28 true   (* for file in os.listdir(comm_dir): *)
  ; Line 588 32 true   (* if file.startswith(..) and file.endswith(..): *)
  ; Line 589 36 false  (* command_file = ... *)
  ; Line 590 36 true   (* try: *)
  ; Line 592 40 false  (* command_id = ... *)
  ; Line 595 40 false  (* processed_file = ... *)
  ; Line 596 40 false  (* response_file = ... *)
  ; Line 598 40 true   (* if os.path.exists(..) or os.path.exists(..): *)
  ; Line 599 44 false  (* continue *)
  ; Line 601 40 false  (* print(..) *)
  ; Line 604 40 true   (* try: *)
  ; Line 605 44 true   (* with open(command_file, ..) as f: *)
  ; Line 606 48 false  (* command_data = json.load(f) *)
  ; Line 608 44 false  (* command = ... *)
  ; Line 609 44 false  (* params = ... *)
  ; Line 611 44 false  (* print(..) *)
  ; Line 613 44 false  (* result = None *)
  ; Line 616 44 true   (* if command == ..: *)
  ; Line 618 48 false  (* resources = [ .. ] *)
  ; Line 623 48 false  (* result = resources *)
  ; Line 624 44 true   (* elif command == ..: *)
  ; Line 626 48 false  (* tools = [ .. ] *)
  ; Line 631 48 false  (* result = tools *)
  ; Line 632 44 true   (* elif command == ..: *)
  ; Line 634 48 false  (* prompts = [ .. ] *)
  ; Line 638 48 false  (* result = prompts *)
  ; Line 639 44 true   (* elif command == ..: *)
  ; Line 641 48 false  (* message = params.get(..) *)
  ; Line 644 36 false  (* debug_file = os.path.join(..) *)
  ; Line 645 48 true   (* with open(debug_file, ..) as f: *)
  ; Line 646 52 false  (* f.write(..) *)
  ].

(** The indentation stack when line 587 is reached: the module level,
    [def run_mcp_server] and its [try], [def file_monitor_thread] and
    its [try], the [while], the [for] over the directories and its
    [try], whose body starts in column 28. *)
Definition stack_at_587 : list nat := [28; 24; 20; 16; 12; 8; 4; 0].

(** The same lines with line 644 moved to the column of its neighbours. *)
Definition reindent_644 (l : logical_line) : logical_line :=
  if (lineno l =? 644)%nat then Line 644 48 (opens_block l) else l.

End Layout.

(* ===================================================================== *)
(** ** Python string operations used on file names *)
(* ===================================================================== *)

Module PyStr.

(** [s.split(sep)] for a one-character separator: never empty, one more
    piece than there are separators. *)
Fixpoint split (sep : ascii) (s : string) : list string :=
  match s with
  | EmptyString => [EmptyString]
  | String c s' =>
      if Ascii.eqb c sep then EmptyString :: split sep s'
      else match split sep s' with
           | [] => [String c EmptyString]
           | w :: ws => String c w :: ws
           end
  end.

(** [s.startswith(p)] *)
Definition startswith (s p : string) : bool := String.prefix p s.

(** [s.endswith(suf)]: some tail of [s] is [suf]. *)
Fixpoint endswith (s suf : string) : bool :=
  if String.eqb s suf then true
  else match s with
       | EmptyString => false
       | String _ s' => endswith s' suf
       end.

(** The text of [s] before the first occurrence of [sep]. *)
Fixpoint before (sep : ascii) (s : string) : string :=
  match s with
  | EmptyString => EmptyString
  | String c s' => if Ascii.eqb c sep then EmptyString else String c (before sep s')
  end.


End PyStr.

(* ===================================================================== *)
(** ** File names of the command protocol *)
(* ===================================================================== *)

Module Names.
Import PyStr.

(** [file.split("_")[1].split(".")[0]]; [None] is the IndexError of an
    index out of range. *)
Definition extract_command_id (file : string) : option string :=
  match split "_" file !! 1%nat with
  | Some piece => split "." piece !! 0%nat
  | None => None
  end.

Definition command_name (id : string) : string := "command_" +:+ id +:+ ".json".
Definition response_name (id : string) : string := "response_" +:+ id +:+ ".json".
Definition processed_name (id : string) : string :=
  "processed_command_" +:+ id +:+ ".json".

(** The filter of the poller's loop. *)
Definition is_command_file (file : string) : bool :=
  startswith file "command_" && endswith file ".json".


End Names.

(* ===================================================================== *)
(** ** Values, exceptions and the world the poller runs in *)
(* ===================================================================== *)

Module Py.

(** What [json.load] produces and [json.dump] accepts.  An object is the
    list of the items of the Python dict, whose keys are distinct; the
    numbers are the integers. *)
#[local] Unset Elimination Schemes.
Inductive json :=
| JNull
| JBool (b : bool)
| JNum (n : Z)
| JStr (s : string)
| JArr (items : list json)
| JObj (fields : list (string * json)).
#[local] Set Elimination Schemes.

Definition type_name (v : json) : string :=
  match v with
  | JNull => "NoneType"
  | JBool _ => "bool"
  | JNum _ => "int"
  | JStr _ => "str"
  | JArr _ => "list"
  | JObj _ => "dict"
  end.

Inductive exn_class :=
| JSONDecodeError
| AttributeError
| FileNotFoundError
| FileExistsError
| IndexError
| OSError
| UnicodeDecodeError
| UnicodeEncodeError.

(** An exception: its class and [str(e)]. *)
Record exn := Exn { exn_kind : exn_class; exn_str : string }.

Inductive outcome (A : Type) :=
| Ret (a : A)
| Raise (e : exn).
Arguments Ret {A} a.
Arguments Raise {A} e.

(** A directory entry: the two arguments of [os.path.join]. *)
Abbreviation path := (string * string)%type.

Definition path_str (p : path) : string := p.1 +:+ "/" +:+ p.2.

Inductive event :=
| Print (text : string)                    (* print(..) *)
| Traceback (e : exn)                      (* traceback.print_exc() *)
| Dump (p : path) (doc : json)             (* open(p, "w"); json.dump(doc, f, indent=2) *)
| Write (p : path) (text : string)         (* open(p, "w"); f.write(text) *)
| Append (p : path) (text : string)        (* open(p, "a"); f.write(text) *)
| Rename (src dst : path)                  (* os.rename(src, dst) *)
| Host (call : string) (args : list json). (* a call into the host application *)

(** The parts of the platform the poller calls but does not define: the
    JSON codec, [repr], the clock, and the host application behind the
    [adsk] API, whose state is [H]. *)
Class Platform (H : Type) := {
  json_loads : string -> outcome json;
  json_dumps : json -> string;
  py_repr : json -> string;
  time_time : H -> Z;               (* int(time.time()) *)
  time_millis : H -> Z;             (* int(time.time() * 1000) *)
  time_ctime : H -> string;         (* time.ctime() *)
  format_exc : exn -> string;       (* traceback.format_exc() *)
  (* lines 1119-1138: define the one-shot command and hook its handler *)
  ui_define_message_command : json -> H -> outcome unit * H;
  (* line 1144: cmdDef.execute() *)
  ui_execute_message_command : H -> outcome unit * H;
  (* lines 261-312: the body of the tool, which catches what it raises *)
  host_create_new_sketch : json -> H -> json * H;
  (* lines 315-352 *)
  host_create_parameter : json -> json -> json -> json -> H -> json * H;
  (* lines 673-684, 686-710, 712-737: what the branch leaves in [result] *)
  host_active_document_info : H -> json * H;
  host_design_structure : H -> json * H;
  host_parameters : H -> json * H
}.

Record world (H : Type) := World {
  files : gmap path string;
  host : H;
  log : list event
}.
Arguments World {H} files host log.
Arguments files {H} w.
Arguments host {H} w.
Arguments log {H} w.

(** The effect of one logged event on the directory store. *)
Definition apply_event `{Platform H} (fs : gmap path string) (ev : event)
  : gmap path string :=
  match ev with
  | Dump p doc => <[p := json_dumps doc]> fs
  | Write p text => <[p := text]> fs
  | Append p text => <[p := default "" (fs !! p) +:+ text]> fs
  | Rename src dst =>
      match fs !! src with
      | Some body => <[dst := body]> (delete src fs)
      | None => fs
      end
  | Print _ | Traceback _ | Host _ _ => fs
  end.

Definition replay `{Platform H} (fs : gmap path string) (evs : list event)
  : gmap path string :=
  foldl apply_event fs evs.

(** Every store the directory goes through while [evs] happen. *)
Fixpoint states_along `{Platform H} (fs : gmap path string) (evs : list event)
  : list (gmap path string) :=
  match evs with
  | [] => [fs]
  | ev :: rest => fs :: states_along (apply_event fs ev) rest
  end.

(** State and exceptions. *)
Definition M (H A : Type) : Type := world H -> outcome A * world H.

Section Monad.
Context `{Platform H}.
#[local] Abbreviation M := (M H).

Definition ret {A} (a : A) : M A := fun w => (Ret a, w).

Definition raise {A} (e : exn) : M A := fun w => (Raise e, w).

Definition bind {A B} (m : M A) (k : A -> M B) : M B :=
  fun w =>
    match m w with
    | (Ret a, w') => k a w'
    | (Raise e, w') => (Raise e, w')
    end.

(** [try: m  except Exception as e: handler e] *)
Definition try_catch {A} (m : M A) (handler : exn -> M A) : M A :=
  fun w =>
    match m w with
    | (Ret a, w') => (Ret a, w')
    | (Raise e, w') => handler e w'
    end.

(** [try: m  except json.JSONDecodeError as e: handler e] *)
Definition try_catch_json {A} (m : M A) (handler : exn -> M A) : M A :=
  fun w =>
    match m w with
    | (Raise (Exn JSONDecodeError msg), w') =>
        handler (Exn JSONDecodeError msg) w'
    | r => r
    end.

Definition lift {A} (o : outcome A) : M A := fun w => (o, w).

Definition emit (ev : event) : M unit :=
  fun w => (Ret tt, World (apply_event (files w) ev) (host w) (log w ++ [ev])).

Definition print (text : string) : M unit := emit (Print text).

Definition print_exc (e : exn) : M unit := emit (Traceback e).

(** [os.path.exists(p)] *)
Definition path_exists (p : path) : M bool :=
  fun w => (Ret (bool_decide (is_Some (files w !! p))), w).

(** [with open(p, "r") as f: f.read()], of a file that can be opened and
    whose bytes are its text; [Strict.read_file] has the failures. *)
Definition read_file (p : path) : M string :=
  fun w =>
    match files w !! p with
    | Some body => (Ret body, w)
    | None =>
        (Raise (Exn FileNotFoundError
                  ("[Errno 2] No such file or directory: " +:+ path_str p)), w)
    end.

(** [with open(p, "w") as f: json.dump(doc, f, indent=2)], of a file that
    can be created; [Strict.dump_file] has the failure of the [open]. *)
Definition dump_file (p : path) (doc : json) : M unit := emit (Dump p doc).

(** [with open(p, "a") as f: f.write(text)], of a file that can be opened
    and takes the text; [Strict.append_file] has the failures. *)
Definition append_file (p : path) (text : string) : M unit :=
  emit (Append p text).

(** [os.rename(src, dst)], replacing [dst] as on POSIX, to a name that
    can be created; [Strict.rename] has the failures. *)
Definition rename (src dst : path) : M unit :=
  fun w =>
    match files w !! src with
    | Some _ => emit (Rename src dst) w
    | None =>
        (Raise (Exn FileNotFoundError
                  ("[Errno 2] No such file or directory: " +:+ path_str src)), w)
    end.

(** A call into the host that may raise. *)
Definition host_try (call : string) (args : list json)
           (f : H -> outcome unit * H) : M unit :=
  fun w =>
    let '(o, h) := f (host w) in
    (o, World (files w) h (log w ++ [Host call args])).

(** A call into the host that returns a value. *)
Definition host_call (call : string) (args : list json)
           (f : H -> json * H) : M json :=
  fun w =>
    let '(v, h) := f (host w) in
    (Ret v, World (files w) h (log w ++ [Host call args])).

Definition ctime : M string := fun w => (Ret (time_ctime (host w)), w).

Definition now : M Z := fun w => (Ret (time_time (host w)), w).

Definition now_millis : M Z := fun w => (Ret (time_millis (host w)), w).

End Monad.

#[global] Instance M_ret {H} : MRet (M H) := @ret H.
#[global] Instance M_bind {H} : MBind (M H) := fun A B k m => bind m k.

End Py.

(* ===================================================================== *)
(** ** The directory poller *)
(* ===================================================================== *)

Module Poller.
Import PyStr Names Py.

Definition nl : string := String "010"%char EmptyString.

(** The double quote. *)
Definition dq : string := String "034"%char EmptyString.

(** [str(v)], as an f-string formats a value. *)
Definition py_str `{Platform H} (v : json) : string :=
  match v with
  | JStr s => s
  | _ => py_repr v
  end.

(** [d.get(key, default)] on the items of a dict. *)
Fixpoint dict_get (fields : list (string * json)) (key : string)
         (default : json) : json :=
  match fields with
  | [] => default
  | (k, v) :: rest => if String.eqb k key then v else dict_get rest key default
  end.

Definition has_key (doc : json) (key : string) : bool :=
  match doc with
  | JObj fields => existsb (fun kv => String.eqb kv.1 key) fields
  | _ => false
  end.

Definition is_str (v : json) (s : string) : bool :=
  match v with
  | JStr t => String.eqb t s
  | _ => false
  end.

(** [s.strip()], for the white space of ASCII; [Strict.strip] takes the
    white space of Unicode as well. *)
Definition is_space (c : ascii) : bool :=
  existsb (Ascii.eqb c)
          [" "; "009"; "010"; "011"; "012"; "013"; "028"; "029"; "030"; "031"]%char.

Fixpoint lstrip (s : string) : string :=
  match s with
  | String c s' => if is_space c then lstrip s' else s
  | EmptyString => EmptyString
  end.

Definition strip (s : string) : string :=
  String.rev (lstrip (String.rev (lstrip s))).

Fixpoint for_each {H A} (xs : list A) (body : A -> M H unit) : M H unit :=
  match xs with
  | [] => mret tt
  | x :: rest => body x;; for_each rest body
  end.

(** [os.listdir(d)]: the names under [d], in the order of the store. *)
Definition listdir (d : string) (fs : gmap path string) : list string :=
  omap (fun entry : path * string =>
          if decide (entry.1.1 = d) then Some entry.1.2 else None)
       (map_to_list fs).

Section WithWorkspace.
Context `{Platform H}.
(** The communication directory that [get_workspace_paths] resolved
    when the server started (line 84). *)
Variable workspace_comm_dir : string.
#[local] Abbreviation M := (M H).

(** [v.get(key, default)]: only a dict has the method. *)
Definition py_get (v : json) (key : string) (default : json) : M json :=
  match v with
  | JObj fields => mret (dict_get fields key default)
  | _ =>
      raise (Exn AttributeError
               ("'" +:+ type_name v +:+ "' object has no attribute 'get'"))
  end.

(** Lines 1111-1157.  [get_workspace_paths] is taken to resolve as it
    did at start-up. *)
Definition create_message_box_command (message : json) : M bool :=
  let debug_file : path := (workspace_comm_dir, "message_command_debug.txt") in
  try_catch
    (t ← ctime;
     append_file debug_file
       (nl +:+ "Creating message box command for: " +:+ py_str message
           +:+ " at " +:+ t +:+ nl);;
     ms ← now_millis;
     let command_id := "MCPMessageBox_" +:+ pretty ms in
     host_try "commandDefinitions.addButtonDefinition" [JStr command_id; message]
              (ui_define_message_command message);;
     t ← ctime;
     append_file debug_file
       ("Command definition created with ID: " +:+ command_id
          +:+ " at " +:+ t +:+ nl);;
     host_try "cmdDef.execute" [] ui_execute_message_command;;
     t ← ctime;
     append_file debug_file ("Command execution triggered at " +:+ t +:+ nl);;
     mret true)
    (fun e =>
       try_catch
         (t ← ctime;
          append_file debug_file
            ("Error creating message box command: " +:+ exn_str e
                +:+ " at " +:+ t +:+ nl +:+ format_exc e))
         (fun _ => mret tt);;
       mret false).

Definition list_resources_result : json :=
  JArr [ JStr "fusion://active-document-info"
       ; JStr "fusion://design-structure"
       ; JStr "fusion://parameters" ].

Definition described (name description : string) : json :=
  JObj [("name", JStr name); ("description", JStr description)].

Definition list_tools_result : json :=
  JArr [ described "message_box" "Display a message box in Fusion 360"
       ; described "create_new_sketch"
                   "Create a new sketch on the specified plane"
       ; described "create_parameter"
                   "Create a new parameter in the active design" ].

Definition list_prompts_result : json :=
  JArr [ described "create_sketch_prompt"
           "Create a prompt for creating a sketch based on a description"
       ; described "parameter_setup_prompt"
           "Create a prompt for setting up parameters based on a description" ].

Definition prompt_messages (system user : string) : json :=
  JObj [("messages",
         JArr [ JObj [("role", JStr "system"); ("content", JStr system)]
              ; JObj [("role", JStr "user"); ("content", JStr user)] ])].

Definition error_value (text : string) : json := JObj [("error", JStr text)].

(** Lines 639-657, with line 644 read at the indentation of the lines
    around it. *)
Definition handle_message_box (params : json) : M json :=
  message ← py_get params "message" (JStr "");
  let debug_file : path := (workspace_comm_dir, "command_message_debug.txt") in
  t ← ctime;
  append_file debug_file
    ("Processing message_box command with: " +:+ py_str message
       +:+ " at " +:+ t +:+ nl);;
  try_catch
    (create_message_box_command message;;
     t ← ctime;
     append_file debug_file ("Command-based display triggered at " +:+ t +:+ nl))
    (fun e =>
       append_file debug_file
         ("Command-based display attempt failed: " +:+ exn_str e +:+ nl));;
  mret (JStr "Message processed successfully").

(** Lines 669-739. *)
Definition handle_read_resource (params : json) : M json :=
  uri ← py_get params "uri" (JStr "");
  if is_str uri "fusion://active-document-info" then
    host_call "activeDocument" [] host_active_document_info
  else if is_str uri "fusion://design-structure" then
    host_call "rootComponent" [] host_design_structure
  else if is_str uri "fusion://parameters" then
    host_call "allParameters" [] host_parameters
  else mret (error_value ("Unknown resource URI: " +:+ py_str uri)).

(** Lines 740-774. *)
Definition handle_get_prompt (params : json) : M json :=
  prompt_name ← py_get params "name" (JStr "");
  prompt_args ← py_get params "args" (JObj []);
  if is_str prompt_name "create_sketch_prompt" then
    description ← py_get prompt_args "description" (JStr "Default sketch");
    mret (prompt_messages
            ("You are an expert in Fusion 360 CAD modeling. Your task is to help the user create sketches based on their descriptions."
               +:+ nl +:+ nl
               +:+ "Be very specific about what planes to use and what sketch entities to create.")
            ("I want to create a sketch with these requirements: "
               +:+ py_str description +:+ nl +:+ nl
               +:+ "Please provide step-by-step instructions for creating this sketch in Fusion 360."))
  else if is_str prompt_name "parameter_setup_prompt" then
    description ← py_get prompt_args "description" (JStr "Default parameters");
    mret (prompt_messages
            ("You are an expert in Fusion 360 parametric design. Your task is to help the user set up parameters for their design."
               +:+ nl +:+ nl
               +:+ "Suggest appropriate parameters, their values, units, and purposes based on the user's description.")
            ("I want to set up parameters for: "
               +:+ py_str description +:+ nl +:+ nl
               +:+ "What parameters should I create, and what values, units, and comments should they have?"))
  else mret (error_value ("Unknown prompt: " +:+ py_str prompt_name)).


(** Lines 613-776: the value left in [result]. *)
Definition handle_command (command params : json) : M json :=
  if is_str command "list_resources" then mret list_resources_result
  else if is_str command "list_tools" then mret list_tools_result
  else if is_str command "list_prompts" then mret list_prompts_result
  else if is_str command "message_box" then handle_message_box params
  else if is_str command "create_new_sketch" then
    plane_name ← py_get params "plane_name" (JStr "XY");
    host_call "create_new_sketch" [plane_name] (host_create_new_sketch plane_name)
  else if is_str command "create_parameter" then
    t ← now;
    name ← py_get params "name" (JStr ("Param_" +:+ pretty (t `mod` 10000)%Z));
    expression ← py_get params "expression" (JStr "10");
    unit ← py_get params "unit" (JStr "mm");
    comment ← py_get params "comment" (JStr "");
    host_call "create_parameter" [name; expression; unit; comment]
              (host_create_parameter name expression unit comment)
  else if is_str command "read_resource" then handle_read_resource params
  else if is_str command "get_prompt" then handle_get_prompt params
  else mret (JStr ("Unknown command: " +:+ py_str command)).

(** Lines 605-776: read and decode the command file and compute the
    value of [result]. *)
Definition compute_result (command_file : path) (command_id : string) : M json :=
  text ← read_file command_file;
  command_data ← lift (json_loads text);
  command ← py_get command_data "command" JNull;
  params ← py_get command_data "params" (JObj []);
  print ("Processing command " +:+ command_id +:+ ": " +:+ py_str command
           +:+ " with params " +:+ py_str params);;
  handle_command command params.

(** Lines 604-783: the body of the inner [try]. *)
Definition dispatch (command_file processed_file response_file : path)
           (command_id : string) : M unit :=
  result ← compute_result command_file command_id;
  dump_file response_file (JObj [("result", result)]);;
  rename command_file processed_file.

(** Lines 588-798: the body of the loop over the directory listing. *)
Definition visit (comm_dir file : string) : M unit :=
  if is_command_file file then
    let command_file : path := (comm_dir, file) in
    match extract_command_id file with
    | None =>
        (* the IndexError leaves [command_id] unbound, and the NameError
           of the handler's own f-string is swallowed *)
        let e := Exn IndexError "list index out of range" in
        print ("Error processing command file " +:+ path_str command_file
                 +:+ ": " +:+ exn_str e);;
        print_exc e
    | Some command_id =>
        let processed_file : path := (comm_dir, processed_name command_id) in
        let response_file : path := (comm_dir, response_name command_id) in
        try_catch
          (done_before ← path_exists processed_file;
           answered ← path_exists response_file;
           if done_before || answered then mret tt
           else
             print ("Processing command file: " +:+ path_str command_file);;
             try_catch_json
               (dispatch command_file processed_file response_file command_id)
               (fun e =>
                  print ("Error parsing JSON in " +:+ path_str command_file
                           +:+ ": " +:+ exn_str e);;
                  dump_file response_file
                    (JObj [("error", JStr ("Invalid JSON format: " +:+ exn_str e))])))
          (fun e =>
             print ("Error processing command file " +:+ path_str command_file
                      +:+ ": " +:+ exn_str e);;
             print_exc e;;
             try_catch
               (dump_file (comm_dir, response_name command_id)
                          (JObj [("error", JStr (exn_str e))]))
               (fun _ => mret tt))
    end
  else mret tt.

(** Lines 587-798 over a given listing. *)
Definition scan (comm_dir : string) (listing : list string) : M unit :=
  for_each listing (visit comm_dir).

(** Lines 531-584: the fire-and-forget signal file. *)
Definition poll_signal (comm_dir : string) : M unit :=
  let message_file : path := (comm_dir, "message_box.txt") in
  let debug_file : path := (workspace_comm_dir, "message_box_processing.txt") in
  found ← path_exists message_file;
  if (found : bool) then
    try_catch
      (t ← ctime;
       append_file debug_file
         (nl +:+ "--- Found message_box.txt at " +:+ t +:+ " ---" +:+ nl);;
       text ← read_file message_file;
       let message := strip text in
       append_file debug_file ("Message content: " +:+ message +:+ nl);;
       print ("Displaying message box: " +:+ message);;
       append_file debug_file
         ("Message being processed via command approach" +:+ nl);;
       try_catch
         (create_message_box_command (JStr message);;
          append_file debug_file ("Command-based display triggered" +:+ nl))
         (fun e =>
            append_file debug_file
              ("Command-based display attempt failed: " +:+ exn_str e +:+ nl));;
       t ← now;
       let processed_file : path :=
         (comm_dir, "processed_message_" +:+ pretty t +:+ ".txt") in
       append_file debug_file
         ("Renaming file to: " +:+ path_str processed_file +:+ nl);;
       rename message_file processed_file;;
       append_file debug_file ("File renamed successfully" +:+ nl))
      (fun e =>
         print ("Error processing message file " +:+ path_str message_file
                  +:+ ": " +:+ exn_str e);;
         try_catch
           (append_file debug_file
              ("ERROR processing message file: " +:+ exn_str e +:+ nl
                 +:+ format_exc e))
           (fun _ => mret tt))
  else mret tt.

Definition os_listdir (comm_dir : string) : M (list string) :=
  fun w => (Ret (listdir comm_dir (files w)), w).

(** Lines 527-803: one directory of one pass.  The watched directories
    are taken to exist, so that [os.makedirs(comm_dir, exist_ok=True)]
    does nothing. *)
Definition poll_dir (comm_dir : string) : M unit :=
  try_catch
    (poll_signal comm_dir;;
     listing ← os_listdir comm_dir;
     scan comm_dir listing)
    (fun e =>
       print ("Error processing directory " +:+ comm_dir +:+ ": " +:+ exn_str e);;
       emit (Write (workspace_comm_dir, "error.txt")
                   ("Error in file monitor for directory " +:+ comm_dir
                      +:+ ": " +:+ exn_str e +:+ nl +:+ nl +:+ format_exc e))).

(** Lines 526-803: one pass over the watched directories. *)
Definition poll_pass (comm_dirs : list string) : M unit :=
  for_each comm_dirs poll_dir.

(** Lines 524-806: the loop; [flags] are the values of the global
    [server_running] that successive tests of the loop condition see. *)
Fixpoint monitor_loop (comm_dirs : list string) (flags : list bool) : M unit :=
  match flags with
  | [] => mret tt
  | running :: later =>
      if running
      then poll_pass comm_dirs;; monitor_loop comm_dirs later
      else mret tt
  end.

(** Lines 515-811. *)
Definition file_monitor_thread (comm_dirs : list string) (flags : list bool)
  : M unit :=
  try_catch
    (print "Starting file monitor thread...";;
     t ← ctime;
     emit (Write (workspace_comm_dir, "file_monitor_status.txt")
                 ("File monitor thread started at " +:+ t +:+ nl));;
     monitor_loop comm_dirs flags)
    (fun e =>
       print ("Error in file monitor thread: " +:+ exn_str e);;
       emit (Write (workspace_comm_dir, "error.txt")
                   ("File Monitor Error: " +:+ exn_str e
                      +:+ nl +:+ nl +:+ format_exc e))).

End WithWorkspace.

End Poller.

(* ===================================================================== *)
(** ** What the protocol says about logs and directories *)
(* ===================================================================== *)

Module Protocol.
Import Names Py Poller.

(** The world [w'] is [w] after the events [evs]: they were appended to
    the log, and the directory store is what they make of it. *)
Definition journal `{Platform H} (w w' : world H) (evs : list event) : Prop :=
  log w' = log w ++ evs /\ files w' = replay (files w) evs.

(** The debug logs a command handler appends to. *)
Definition is_log_name (name : string) : bool :=
  String.eqb name "command_message_debug.txt"
  || String.eqb name "message_command_debug.txt".

(** Events that touch no file of the protocol: output, calls into the
    host, and lines appended to a debug log. *)
Definition quiet (ev : event) : Prop :=
  match ev with
  | Print _ | Traceback _ | Host _ _ => True
  | Append p _ => is_log_name p.2 = true
  | Dump _ _ | Write _ _ | Rename _ _ => False
  end.

(** A computation whose only effects are quiet events. *)
Definition quietly `{Platform H} {A} (m : M H A) : Prop :=
  forall w, exists evs, journal w (m w).2 evs /\ Forall quiet evs.

(** No tombstone without a response: in every directory, for every id. *)
Definition tombstones_answered (fs : gmap path string) : Prop :=
  forall dir id,
    is_Some (fs !! (dir, processed_name id)) -> is_Some (fs !! (dir, response_name id)).

(** A response document carries exactly one of [result] and [error]. *)
Definition exactly_one_of_result_error (doc : json) : bool :=
  xorb (has_key doc "result") (has_key doc "error").

(** The documents a stretch of the log wrote with [json.dump]. *)
Definition response_documents (evs : list event) : list json :=
  omap (fun ev => match ev with Dump _ doc => Some doc | _ => None end) evs.

(** Has the request [id] of directory [dir] been marked as handled? *)
Definition marked (fs : gmap path string) (dir id : string) : Prop :=
  is_Some (fs !! (dir, processed_name id)) \/ is_Some (fs !! (dir, response_name id)).

(** The response that ends the handling of a request: the result with
    the rename, or an error. *)
Inductive closing (dir file id : string) : list event -> Prop :=
| closing_result (result : json) :
    closing dir file id
      [ Dump (dir, response_name id) (JObj [("result", result)])
      ; Rename (dir, file) (dir, processed_name id) ]
| closing_error (text : string) :
    closing dir file id
      [ Dump (dir, response_name id) (JObj [("error", JStr text)]) ].

End Protocol.

(* ===================================================================== *)
(** ** The workspace resolver *)
(* ===================================================================== *)

Module Resolver.
Import Py.

(** What [get_workspace_paths] asks of the operating system. *)
Record os_env := OsEnv {
  getenv_workspace : option string;  (* os.getenv("FUSION_MCP_WORKSPACE") *)
  isdir : string -> bool;            (* os.path.isdir *)
  abspath : string -> string;        (* os.path.abspath *)
  makedirs_ok : string -> bool;      (* does os.makedirs(p, exist_ok=True) return? *)
  addon_path : string                (* os.path.dirname(os.path.dirname(__file__)) *)
}.

Definition join (a b : string) : string := a +:+ "/" +:+ b.

Definition pardir : string := "..".

Definition makedirs (e : os_env) (p : string) : outcome unit :=
  if makedirs_ok e p then Ret tt
  else Raise (Exn OSError ("[Errno 13] Permission denied: '" +:+ p +:+ "'")).

(** Lines 20-27: the workspace the [try] block settles on. *)
Definition choose_workspace (e : os_env) : string :=
  let derived :=
    let candidate := abspath e (join (addon_path e) pardir) in
    if isdir e candidate then candidate else addon_path e in
  match getenv_workspace e with
  | Some env_path =>
      if negb (String.eqb env_path "") && isdir e env_path
      then abspath e env_path
      else derived
  | None => derived
  end.

(** Lines 17-38. *)
Definition get_workspace_paths (e : os_env) : outcome (string * string) :=
  let attempt :=
    let workspace_path := choose_workspace e in
    let workspace_comm_dir := join workspace_path "mcp_comm" in
    match makedirs e workspace_comm_dir with
    | Ret _ => Ret (workspace_path, workspace_comm_dir)
    | Raise x => Raise x
    end in
  match attempt with
  | Ret paths => Ret paths
  | Raise _ =>
      let workspace_path := addon_path e in
      let workspace_comm_dir := join (addon_path e) "mcp_comm" in
      match makedirs e workspace_comm_dir with
      | Ret _ => Ret (workspace_path, workspace_comm_dir)
      | Raise x => Raise x
      end
  end.

(** An installation on a volume where no directory can be created. *)
Definition read_only_env : os_env :=
  OsEnv None (fun _ => true) (fun p => p) (fun _ => false) "/addins/MCPserve".

(** An installation where everything works and no override is set. *)
Definition plain_env : os_env :=
  OsEnv None (fun _ => true) (fun p => p) (fun _ => true) "/addins/MCPserve".

End Resolver.

(* ===================================================================== *)
(** ** Start and stop of the server *)
(* ===================================================================== *)

Module Lifecycle.

Inductive thread_name :=
| ServerThread        (* threading.Thread(target=server_thread_func), line 886 *)
| UvicornThread       (* line 508 *)
| FileMonitorThread.  (* the poller, line 814 *)

#[global] Instance thread_name_eq_dec : EqDecision thread_name.
Proof. solve_decision. Defined.

Inductive pyval :=
| VNone
| VBool (b : bool)
| VThread (t : thread_name).

(** Truth value of a Python object. *)
Definition truthy (v : option pyval) : bool :=
  match v with
  | Some (VBool b) => b
  | Some (VThread _) => true
  | Some VNone | None => false
  end.

Abbreviation namespace := (gmap string pyval).

(** How [run_mcp_server] ends. *)
Inductive run_result :=
| ReturnsTrue
| ReturnsFalse
| Raises (msg : string).

(** A thread that runs has a time left to run, in milliseconds ([None]:
    it never ends), and a way its body ends. *)
Inductive status :=
| NotStarted
| Running (remaining : option nat) (ending : run_result)
| Finished.

Definition is_alive (s : status) : bool :=
  match s with
  | Running _ _ => true
  | _ => false
  end.

Inductive action :=
| Say (text : string)                       (* print(..) *)
| MessageBox (text : string)                (* ui.messageBox(..) *)
| WriteFile (name : string)                 (* open(.., "w") *)
| Start (t : thread_name)                   (* t.start() *)
| Sleep (ms : nat)                          (* time.sleep(..) *)
| Join (t : thread_name) (timeout_ms : nat). (* t.join(timeout=..) *)

Record process := Process {
  globals : namespace;                 (* the module's global names *)
  threads : thread_name -> status;
  clock : nat;                         (* milliseconds *)
  trace : list action
}.

(** [name = v] in a function body whose [global] statements declare
    [declared_global]: the name is bound in the module only if it is
    declared, and in the frame of the call otherwise. *)
Definition store (declared_global : list string) (name : string) (v : pyval)
           (scopes : namespace * namespace) : namespace * namespace :=
  let '(module_names, frame) := scopes in
  if bool_decide (name ∈ declared_global)
  then (<[name := v]> module_names, frame)
  else (module_names, <[name := v]> frame).

(** Lines 872-884: the body of the server thread, given how
    [run_mcp_server] ends; the function has no [global] statement. *)
Definition server_thread_func (ending : run_result) (module_names : namespace)
  : namespace * namespace * list action :=
  let declared_global : list string := [] in
  match ending with
  | ReturnsTrue =>
      let '(g, l) := store declared_global "success" (VBool true) (module_names, ∅) in
      (g, l, [])
  | ReturnsFalse =>
      let '(g, l) := store declared_global "success" (VBool false) (module_names, ∅) in
      let '(g, l) := store declared_global "server_running" (VBool false) (g, l) in
      (g, l, [ Say "Failed to start MCP server"
             ; MessageBox "Failed to start MCP server. See error log for details." ])
  | Raises msg =>
      let '(g, l) := store declared_global "server_running" (VBool false) (module_names, ∅) in
      (g, l, [ Say ("Error in server thread: " +:+ msg)
             ; WriteFile "mcp_server_error.txt" ])
  end.

(** What the end of a thread's body does to the module. *)
Definition thread_exit (t : thread_name) (ending : run_result) (p : process)
  : process :=
  match t with
  | ServerThread =>
      let '(g, _, acts) := server_thread_func ending (globals p) in
      Process g (threads p) (clock p) (trace p ++ acts)
  | _ => p
  end.

(** Let [ms] milliseconds pass for thread [t]. *)
Definition age_thread (ms : nat) (t : thread_name) (p : process) : process :=
  match threads p t with
  | Running (Some todo) ending =>
      if (todo <=? ms)%nat
      then
        let p' := thread_exit t ending p in
        Process (globals p')
                (fun u => if decide (u = t) then Finished else threads p' u)
                (clock p') (trace p')
      else
        Process (globals p)
                (fun u => if decide (u = t)
                          then Running (Some (todo - ms)%nat) ending
                          else threads p u)
                (clock p) (trace p)
  | _ => p
  end.

(** Let [ms] milliseconds pass. *)
Definition advance (ms : nat) (p : process) : process :=
  let p := age_thread ms ServerThread p in
  let p := age_thread ms UvicornThread p in
  let p := age_thread ms FileMonitorThread p in
  Process (globals p) (threads p) (clock p + ms)%nat (trace p).

Definition act (a : action) (p : process) : process :=
  Process (globals p) (threads p) (clock p) (trace p ++ [a]).

Definition set_global (name : string) (v : pyval) (p : process) : process :=
  Process (<[name := v]> (globals p)) (threads p) (clock p) (trace p).

(** [time.sleep(ms / 1000)] *)
Definition sleep (ms : nat) (p : process) : process :=
  advance ms (act (Sleep ms) p).

(** [t.join(timeout=ms / 1000)]: wait until the thread ends, but no
    longer than the timeout. *)
Definition join (t : thread_name) (timeout_ms : nat) (p : process) : process :=
  let waited :=
    match threads p t with
    | Running (Some todo) _ => Nat.min todo timeout_ms
    | Running None _ => timeout_ms
    | _ => 0%nat
    end in
  advance waited (act (Join t timeout_ms) p).

(** The thread object the global [server_thread] names, if any. *)
Definition server_thread_alive (p : process) : bool :=
  match globals p !! "server_thread" with
  | Some (VThread t) => is_alive (threads p t)
  | _ => false
  end.

(** Lines 857-902 of [start_server], which declares [server_thread] and
    [server_running] global.  [mcp_installed] is what
    [check_mcp_installed] returns and [spawned] how the new thread will
    behave.  The log file of lines 848-855 and the lines that
    [check_mcp_installed] prints are left out; [Startup.start_server]
    has them. *)
Definition start_server (mcp_installed : bool) (spawned : status) (p : process)
  : bool * process :=
  let p := act (Say "Starting MCP server...") p in
  if negb mcp_installed then
    let p := act (Say "Required packages not installed. Cannot start server.") p in
    let p := act (MessageBox
                    ("Required packages are not installed. Please install them with:"
                       +:+ Poller.nl +:+ "pip install " +:+ Poller.dq +:+ "mcp[cli]"
                       +:+ Poller.dq +:+ " uvicorn")) p in
    (false, p)
  else if truthy (globals p !! "server_running")
          && truthy (globals p !! "server_thread")
          && server_thread_alive p then
    (true, act (Say "MCP server is already running") p)
  else
    let p := set_global "server_running" (VBool true) p in
    let p := set_global "server_thread" (VThread ServerThread) p in
    let p := Process (globals p)
                     (fun u => if decide (u = ServerThread) then spawned
                               else threads p u)
                     (clock p) (trace p ++ [Start ServerThread]) in
    let p := act (Say "MCP server thread started") p in
    let p := sleep 1000 p in
    if negb (server_thread_alive p) then
      let p := act (Say "MCP server thread stopped unexpectedly") p in
      (false, set_global "server_running" (VBool false) p)
    else (true, act (Say "MCP server started successfully") p).

(** Lines 905-919 of [stop_server], which declares [server_running]
    global. *)
Definition stop_server (p : process) : process :=
  if negb (truthy (globals p !! "server_running")) then
    act (Say "MCP server is not running") p
  else
    let p := set_global "server_running" (VBool false) p in
    let p :=
      if truthy (globals p !! "server_thread") && server_thread_alive p
      then join ServerThread 2000 p
      else p in
    act (Say "MCP server stopped") p.

(** The threads a stretch of the trace waits for. *)
Definition joined (acts : list action) : list thread_name :=
  omap (fun a => match a with Join t _ => Some t | _ => None end) acts.

(** A started server whose threads never end by themselves. *)
Definition busy_process : process :=
  Process (<["server_running" := VBool true]>
             (<["server_thread" := VThread ServerThread]> ∅))
          (fun _ => Running None ReturnsTrue)
          0 [].

(** The module as it is loaded (lines 43-44). *)
Definition fresh_process : process :=
  Process (<["server_running" := VBool false]>
             (<["server_thread" := VNone]> ∅))
          (fun _ => NotStarted)
          0 [].

End Lifecycle.

(* ===================================================================== *)
(** ** A small concrete platform, for closed examples *)
(* ===================================================================== *)

Module Fixture.
Import Names Py Poller.

(** A decoder that knows three texts. *)
Definition loads (text : string) : outcome json :=
  if String.eqb text "unknown" then
    Ret (JObj [("command", JStr "does_not_exist")])
  else if String.eqb text "tools" then
    Ret (JObj [("command", JStr "list_tools"); ("params", JObj [])])
  else if String.eqb text "array" then
    Ret (JArr [])
  else Raise (Exn JSONDecodeError "Expecting value: line 1 column 1 (char 0)").

Definition dumps (doc : json) : string :=
  match doc with
  | JObj ((key, _) :: _) => key
  | _ => "null"
  end.

#[global] Instance platform : Platform unit := {|
  json_loads := loads;
  json_dumps := dumps;
  py_repr := type_name;
  time_time := fun _ => 1700000000%Z;
  time_millis := fun _ => 1700000000000%Z;
  time_ctime := fun _ => "Tue Nov 14 22:13:20 2023";
  format_exc := fun e => "Traceback (most recent call last): " +:+ exn_str e;
  ui_define_message_command := fun _ h => (Ret tt, h);
  ui_execute_message_command := fun h => (Ret tt, h);
  host_create_new_sketch := fun _ h => (JStr "No active document", h);
  host_create_parameter := fun _ _ _ _ h => (JStr "No active document", h);
  host_active_document_info := fun h => (error_value "No active document", h);
  host_design_structure := fun h => (error_value "No active document", h);
  host_parameters := fun h => (error_value "No active document", h)
|}.

Definition dir : string := "mcp_comm".

Definition world_with (entries : list (path * string)) : world unit :=
  World (list_to_map entries) tt [].

(** One pending request with a known command. *)
Definition pending_tools : world unit :=
  world_with [((dir, "command_7.json"), "tools")].

(** One pending request whose body does not decode. *)
Definition pending_broken : world unit :=
  world_with [((dir, "command_7.json"), "broken")].

(** One pending request with a command that is not registered. *)
Definition pending_unknown : world unit :=
  world_with [((dir, "command_7.json"), "unknown")].

End Fixture.

(* ===================================================================== *)
(** ** Stopping with the add-in *)
(* ===================================================================== *)

Module AddIn.
Import Py Lifecycle.

(** Lines 1018-1041 of [stop_server_on_stop], which declares
    [server_running] global.  [e] is what [get_workspace_paths] finds,
    [can_write] tells whether a file can be opened for writing,
    [format_exc] is [traceback.format_exc()], and [dismissed_after] is
    the time in milliseconds that the message box of line 1041 stays
    open: the call returns when the user has dismissed it, and the
    threads run on in the meantime.  The module's [ui] is taken to be
    there. *)
Definition stop_server_on_stop (format_exc : exn -> string)
           (e : Resolver.os_env) (can_write : string -> bool)
           (dismissed_after : nat) (p : process)
  : process :=
  if truthy (globals p !! "server_running") then
    let p := act (Say "Stopping MCP server...") p in
    let p := set_global "server_running" (VBool false) p in
    let attempt : outcome process :=
      match Resolver.get_workspace_paths e with
      | Raise x => Raise x
      | Ret (_, workspace_comm_dir) =>
          match Resolver.makedirs e workspace_comm_dir with
          | Raise x => Raise x
          | Ret _ =>
              let shutdown_log_file :=
                Resolver.join workspace_comm_dir "mcp_server_shutdown_log.txt" in
              if can_write shutdown_log_file then
                let p := act (WriteFile "mcp_server_shutdown_log.txt") p in
                let p :=
                  if truthy (globals p !! "server_thread") && server_thread_alive p
                  then join ServerThread 2000 p
                  else p in
                Ret (act (Say "MCP server stopped") p)
              else
                Raise (Exn OSError
                         ("[Errno 13] Permission denied: '" +:+ shutdown_log_file +:+ "'"))
          end
      end in
    match attempt with
    | Ret p' => p'
    | Raise x =>
        advance dismissed_after
                (act (MessageBox ("Failed:" +:+ Poller.nl +:+ format_exc x)) p)
    end
  else p.

(** Will a thread spawned as [spawned] be alive one second later? *)
Definition survives_grace (spawned : status) : bool :=
  match spawned with
  | Running (Some todo) _ => (1000 <? todo)%nat
  | Running None _ => true
  | NotStarted | Finished => false
  end.

End AddIn.

(* ===================================================================== *)
(** ** The resolver without an override *)
(* ===================================================================== *)

Module ResolverMore.
Import Resolver.

(** The same installation with [FUSION_MCP_WORKSPACE] unset. *)
Definition without_override (e : os_env) : os_env :=
  OsEnv None (isdir e) (abspath e) (makedirs_ok e) (addon_path e).

(** Does the override name something the resolver accepts? *)
Definition override_accepted (e : os_env) : bool :=
  match getenv_workspace e with
  | Some env_path => negb (String.eqb env_path "") && isdir e env_path
  | None => false
  end.

(** An override that names a directory that is not there. *)
Definition stale_override_env : os_env :=
  OsEnv (Some "/gone") (fun p => negb (String.eqb p "/gone")) (fun p => p)
        (fun _ => true) "/addins/MCPserve".

End ResolverMore.

(* ===================================================================== *)
(** ** The installer script *)
(* ===================================================================== *)

Module Installer.

(** A process that ran to its end. *)
Record completed := Completed {
  returncode : Z;
  stdout : string;
  stderr : string
}.

(** What launching a command leads to: the process ends, or it cannot be
    started at all (an OSError of [subprocess.run]). *)
Inductive launch :=
| Exited (c : completed)
| CannotStart (msg : string).

Definition command : Type := list string.

(** The machine the script runs on: what a command does, given the
    commands launched before it and how they went. *)
Definition machine : Type := list (command * launch) -> command -> launch.

Inductive failure :=
| CalledProcessError (out err : option string)  (* with e.stdout and e.stderr *)
| OtherError (msg : string).                    (* with str(e) *)

Record state := State {
  ran : list (command * launch);   (* the commands launched, in order *)
  printed : list string;           (* the lines printed *)
  stdin : list string              (* the lines still to be read *)
}.

(** State and exceptions. *)
Definition R (A : Type) : Type := state -> (A + failure) * state.

#[global] Instance R_ret : MRet R := fun A a st => (inl a, st).
#[global] Instance R_bind : MBind R := fun A B k m st =>
  match m st with
  | (inl a, st') => k a st'
  | (inr e, st') => (inr e, st')
  end.

Definition throw {A} (e : failure) : R A := fun st => (inr e, st).

(** [try: m  except subprocess.CalledProcessError as e: handler e] *)
Definition except_called {A} (m : R A) (handler : option string -> option string -> R A)
  : R A :=
  fun st =>
    match m st with
    | (inr (CalledProcessError out err), st') => handler out err st'
    | r => r
    end.

Definition print (line : string) : R unit :=
  fun st => (inl tt, State (ran st) (printed st ++ [line]) (stdin st)).

(** [print(x)] for an [x] that may be None. *)
Definition print_opt (x : option string) : R unit := print (default "None" x).

(** [input(prompt)]: the prompt is printed, a line is read; at the end
    of the input it raises EOFError. *)
Definition input (prompt : string) : R string :=
  fun st =>
    match stdin st with
    | line :: rest => (inl line, State (ran st) (printed st ++ [prompt]) rest)
    | [] =>
        (inr (OtherError "EOF when reading a line"),
         State (ran st) (printed st ++ [prompt]) [])
    end.

(** [subprocess.run(cmd, check=.., capture_output=..)] *)
Definition run (m : machine) (cmd : command) (check capture : bool) : R completed :=
  fun st =>
    let o := m (ran st) cmd in
    let st' := State (ran st ++ [(cmd, o)]) (printed st) (stdin st) in
    match o with
    | CannotStart msg => (inr (OtherError msg), st')
    | Exited c =>
        if check && negb (returncode c =? 0)%Z
        then (inr (CalledProcessError
                     (if capture then Some (stdout c) else None)
                     (if capture then Some (stderr c) else None)), st')
        else (inl c, st')
    end.

Definition nonempty (s : string) : bool := negb (String.eqb s "").

Definition pip_version_cmd (python_path : string) : command :=
  [python_path; "-m"; "pip"; "--version"].
Definition ensurepip_cmd (python_path : string) : command :=
  [python_path; "-m"; "ensurepip"; "--upgrade"].
Definition install_mcp_cmd (python_path : string) : command :=
  [python_path; "-m"; "pip"; "install"; "mcp[cli]"].
Definition install_uvicorn_cmd (python_path : string) : command :=
  [python_path; "-m"; "pip"; "install"; "uvicorn"].
Definition verify_cmd (python_path : string) : command :=
  [python_path; "-c";
   "import mcp, uvicorn; print('MCP and uvicorn installed successfully!')"].

(** Lines 89-93: make sure pip is there. *)
Definition ensure_pip (m : machine) (python_path : string) : R unit :=
  except_called
    (run m (pip_version_cmd python_path) true true;; mret tt)
    (fun _ _ =>
       print "Pip not available. Attempting to install pip first...";;
       run m (ensurepip_cmd python_path) true false;; mret tt).

(** Lines 111-126: uvicorn, whose failure is only reported. *)
Definition install_uvicorn (m : machine) (python_path : string) : R unit :=
  except_called
    (result_uvicorn ← run m (install_uvicorn_cmd python_path) true true;
     print "uvicorn installation output:";;
     print (stdout result_uvicorn);;
     if nonempty (stderr result_uvicorn)
     then print "uvicorn Errors/Warnings:";; print (stderr result_uvicorn)
     else mret tt)
    (fun out err =>
       print "Warning: Failed to install uvicorn. The add-in may not start the HTTP server.";;
       print_opt out;;
       print_opt err).

(** Lines 129-142: import both packages and report. *)
Definition verify_install (m : machine) (python_path : string) : R bool :=
  verify ← run m (verify_cmd python_path) false true;
  if (returncode verify =? 0)%Z
  then print "Verification output:";; print (stdout verify);; mret true
  else print "Verification failed:";; print (stderr verify);; mret false.

(** Lines 96-142: from the install of the package on. *)
Definition install_packages (m : machine) (python_path : string) : R bool :=
  result ← run m (install_mcp_cmd python_path) true true;
  print "Installation output:";;
  print (stdout result);;
  (if nonempty (stderr result)
   then print "Errors/Warnings:";; print (stderr result)
   else mret tt);;
  install_uvicorn m python_path;;
  verify_install m python_path.

(** Lines 86-142: the body of the [try] of [install_mcp]. *)
Definition install_mcp_body (m : machine) (python_path : string) : R bool :=
  print (Poller.nl +:+ "Attempting to install MCP using: " +:+ python_path);;
  ensure_pip m python_path;;
  install_packages m python_path.

(** Lines 83-151. *)
Definition install_mcp (m : machine) (python_path : string) (st : state)
  : bool * state :=
  match install_mcp_body m python_path st with
  | (inl success, st') => (success, st')
  | (inr (CalledProcessError out err), st') =>
      let '(_, st') :=
        (print "Error during installation:";; print_opt out;; print_opt err) st' in
      (false, st')
  | (inr (OtherError msg), st') =>
      let '(_, st') := print ("Error: " +:+ msg) st' in
      (false, st')
  end.

(** [s.lower()] on the letters A to Z. *)
Definition lower_char (c : ascii) : ascii :=
  let n := nat_of_ascii c in
  if (65 <=? n)%nat && (n <=? 90)%nat then ascii_of_nat (n + 32) else c.

Fixpoint lower (s : string) : string :=
  match s with
  | EmptyString => EmptyString
  | String c s' => String (lower_char c) (lower s')
  end.

(** Lines 195-202: the loop over the interpreters, with its two
    counters. *)
Fixpoint install_all (m : machine) (python_paths : list string)
         (successful_installs failed_installs : nat) (st : state)
  : nat * nat * state :=
  match python_paths with
  | [] => (successful_installs, failed_installs, st)
  | python_path :: rest =>
      let '(success, st) := install_mcp m python_path st in
      if success then
        let '(_, st) :=
          print (Poller.nl +:+ "✓ Successfully installed MCP for: " +:+ python_path) st in
        install_all m rest (S successful_installs) failed_installs st
      else
        let '(_, st) :=
          print (Poller.nl +:+ "✗ Failed to install MCP for: " +:+ python_path) st in
        install_all m rest successful_installs (S failed_installs) st
  end.

(** Lines 179-180: the numbered list of the interpreters. *)
Fixpoint print_numbered (i : nat) (python_paths : list string) : R unit :=
  match python_paths with
  | [] => mret tt
  | path :: rest => print (pretty (i + 1)%nat +:+ ". " +:+ path);; print_numbered (S i) rest
  end.

(** What [main] finds around it: the machine, whether the user is an
    administrator, what [find_fusion_python_paths] returned, and
    [os.path.exists]. *)
Record surroundings := Surroundings {
  the_machine : machine;
  is_admin : bool;
  found_paths : list string;
  path_exists : string -> bool
}.

(** Lines 177-218: [main] from the list of interpreters on. *)
Definition main_install (env : surroundings) (python_paths : list string) : R unit :=
  let n := pretty (length python_paths) in
  print (Poller.nl +:+ "Found " +:+ n +:+ " potential Fusion 360 Python installation(s):");;
  print_numbered 0 python_paths;;
  print (Poller.nl +:+ "This will install MCP with CLI extras for ALL " +:+ n
           +:+ " Python installations.");;
  print "Using package specification: mcp[cli]";;
  confirm ← input "Proceed with installation for all installations? (y/n): ";
  if negb (String.eqb (lower confirm) "y") then print "Installation cancelled."
  else
    counted ← (fun st =>
                 let '(successful, failed, st) :=
                   install_all (the_machine env) python_paths 0 0 st in
                 (inl (successful, failed), st));
    let '(successful_installs, failed_installs) := counted in
    print (Poller.nl +:+ "=== Installation Summary ===");;
    print ("Total Fusion 360 Python installations found: " +:+ n);;
    print ("Successful installations: " +:+ pretty successful_installs);;
    print ("Failed installations: " +:+ pretty failed_installs);;
    (if (0 <? successful_installs)%nat
     then print (Poller.nl +:+ "You can now run the MCP Server Script in Fusion 360.")
     else mret tt);;
    (if (0 <? failed_installs)%nat
     then
       print (Poller.nl +:+ "For failed installations, you may need to try manually:");;
       print "  1. Run this script as administrator";;
       print ("  2. Or install manually with: '[Python Path]' -m pip install "
                +:+ Poller.dq +:+ "mcp[cli]" +:+ Poller.dq)
     else mret tt);;
    input (Poller.nl +:+ "Press Enter to exit...");; mret tt.

(** Lines 153-218. *)
Definition main (env : surroundings) : R unit :=
  print "=== MCP Installer for Fusion 360 ===";;
  print "This script will install the MCP package for ALL detected Fusion 360 Python environments.";;
  (if negb (is_admin env)
   then
     print "Note: Some installation paths may require administrator privileges.";;
     print "If installation fails, try running this script as administrator."
   else mret tt);;
  print (Poller.nl +:+ "Searching for Fusion 360 Python installations...");;
  match found_paths env with
  | [] =>
      print "No Fusion 360 Python installations found automatically.";;
      custom_path ← input (Poller.nl
                             +:+ "Enter the full path to Fusion 360's python.exe (or press Enter to exit): ");
      if nonempty custom_path && path_exists env custom_path
      then main_install env [custom_path]
      else
        (if nonempty custom_path
         then print ("Path does not exist: " +:+ custom_path)
         else mret tt);;
        print (Poller.nl +:+ "Exiting without installation.")
  | python_paths => main_install env python_paths
  end.

(** A machine on which every command behaves the same whenever it is
    launched. *)
Definition steady (f : command -> launch) : machine := fun _ cmd => f cmd.

Definition exits_zero (o : launch) : bool :=
  match o with
  | Exited c => (returncode c =? 0)%Z
  | CannotStart _ => false
  end.

Definition exits_nonzero (o : launch) : bool :=
  match o with
  | Exited c => negb (returncode c =? 0)%Z
  | CannotStart _ => false
  end.

Definition starts (o : launch) : bool :=
  match o with
  | Exited _ => true
  | CannotStart _ => false
  end.

(** A machine where everything succeeds silently. *)
Definition obliging : machine := steady (fun _ => Exited (Completed 0 "" "")).

(** A machine where no command can be started. *)
Definition broken : machine := steady (fun _ => CannotStart "[WinError 2]").

Definition fresh_state (lines : list string) : state := State [] [] lines.

(** What a computation does to the record of launches: it appends
    [new], and it reads nothing. *)
Definition appends {A} (c : state -> A * state) (st : state)
           (new : list (command * launch)) : Prop :=
  ran (c st).2 = ran st ++ new /\ stdin (c st).2 = stdin st.

(** How lines 96-142 can go after the launches [h]: the value that
    [install_mcp] will return and the launches they add. *)
Inductive packages_course (m : machine) (python_path : string)
          (h : list (command * launch)) : bool -> list (command * launch) -> Prop :=
| mcp_failed :
    exits_zero (m h (install_mcp_cmd python_path)) = false ->
    packages_course m python_path h false
      [(install_mcp_cmd python_path, m h (install_mcp_cmd python_path))]
| uvicorn_not_started mcp_run o_uvicorn :
    m h (install_mcp_cmd python_path) = Exited mcp_run ->
    returncode mcp_run = 0%Z ->
    m (h ++ [(install_mcp_cmd python_path, Exited mcp_run)])
      (install_uvicorn_cmd python_path) = o_uvicorn ->
    starts o_uvicorn = false ->
    packages_course m python_path h false
      [ (install_mcp_cmd python_path, Exited mcp_run)
      ; (install_uvicorn_cmd python_path, o_uvicorn) ]
| verification_ran mcp_run o_uvicorn o_verify :
    m h (install_mcp_cmd python_path) = Exited mcp_run ->
    returncode mcp_run = 0%Z ->
    m (h ++ [(install_mcp_cmd python_path, Exited mcp_run)])
      (install_uvicorn_cmd python_path) = o_uvicorn ->
    starts o_uvicorn = true ->
    m (h ++ [ (install_mcp_cmd python_path, Exited mcp_run)
            ; (install_uvicorn_cmd python_path, o_uvicorn) ])
      (verify_cmd python_path) = o_verify ->
    packages_course m python_path h (exits_zero o_verify)
      [ (install_mcp_cmd python_path, Exited mcp_run)
      ; (install_uvicorn_cmd python_path, o_uvicorn)
      ; (verify_cmd python_path, o_verify) ].

(** The value [install_mcp] makes of what its body returns. *)
Definition verdict (r : bool + failure) : bool :=
  match r with
  | inl success => success
  | inr _ => false
  end.

(** Does the value stand for a normal return? *)
Definition returns {A} (r : A + failure) : bool :=
  match r with
  | inl _ => true
  | inr _ => false
  end.

(** Is the command the check for pip, [<python> -m pip --version]? *)
Definition is_pip_check (cmd : command) : bool :=
  match cmd with
  | [_; a; b; c] => String.eqb a "-m" && String.eqb b "pip" && String.eqb c "--version"
  | _ => false
  end.

(** The commands [install_mcp] may launch after the check for pip. *)
Definition later_commands (python_path : string) : list command :=
  [ ensurepip_cmd python_path; install_mcp_cmd python_path
  ; install_uvicorn_cmd python_path; verify_cmd python_path ].

(** The checks for pip among the launches, in order. *)
Definition pip_checks (launches : list (command * launch)) : list command :=
  filter (fun cmd => is_pip_check cmd = true) (map fst launches).

(** Whether pip is there for the later commands: the check exited
    with 0, or it exited with another status and [ensurepip], launched
    next, exited with 0. *)
Definition pip_ready (o_check o_ensure : launch) : bool :=
  exits_zero o_check || exits_nonzero o_check && exits_zero o_ensure.

(** A machine without a network: [pip install] exits with 1, every
    other command with 0. *)
Definition offline : machine :=
  steady (fun cmd =>
            match cmd with
            | [_; "-m"; "pip"; "install"; _] =>
                Exited (Completed 1 "" "ERROR: No matching distribution found")
            | _ => Exited (Completed 0 "" "")
            end).

End Installer.

(* ===================================================================== *)
(** ** Reading the poller's effects *)
(* ===================================================================== *)

Module Effects.
Import PyStr Names Py Poller Protocol.

(** Did the call return, rather than raise? *)
Definition returned {A} (o : outcome A) : bool :=
  match o with
  | Ret _ => true
  | Raise _ => false
  end.

Definition items_of (v : json) : list json :=
  match v with
  | JArr items => items
  | _ => []
  end.

(** The URIs that [list_resources] answers with. *)
Definition listed_resources : list json := items_of list_resources_result.

(** The names of the prompts that [list_prompts] answers with. *)
Definition listed_prompts : list json :=
  map (fun entry => match entry with
                    | JObj fields => dict_get fields "name" JNull
                    | _ => JNull
                    end)
      (items_of list_prompts_result).

(** The commands whose branch reads [params]. *)
Definition commands_with_params : list string :=
  [ "message_box"; "create_new_sketch"; "create_parameter"
  ; "read_resource"; "get_prompt" ].

(** The names of the files the poller works on: the debug logs, the
    command files with their responses and tombstones, the signal file
    with its log and its archives, and the poller's two files of its
    own. *)
Definition is_poller_name (name : string) : bool :=
  is_log_name name
  || is_command_file name
  || startswith name "response_"
  || startswith name "processed_"
  || String.eqb name "message_box.txt"
  || String.eqb name "message_box_processing.txt"
  || String.eqb name "error.txt"
  || String.eqb name "file_monitor_status.txt".

(** An event that writes, appends to or renames only files that
    satisfy [P]. *)
Definition touching (P : path -> bool) (ev : event) : Prop :=
  match ev with
  | Print _ | Traceback _ | Host _ _ => True
  | Dump p _ | Write p _ | Append p _ => P p = true
  | Rename src dst => P src = true /\ P dst = true
  end.

(** A computation all of whose events are such. *)
Definition within `{Platform H} {A} (P : path -> bool) (m : M H A) : Prop :=
  forall w, exists evs, journal w (m w).2 evs /\ Forall (touching P) evs.

(** A computation that leaves the file [p] as it is when it holds
    [body]. *)
Definition preserves `{Platform H} {A} (p : path) (body : string) (m : M H A) : Prop :=
  forall w, files w !! p = Some body -> files (m w).2 !! p = Some body.

(** The files of the poller, by their names. *)
Definition poller_file (p : path) : bool := is_poller_name p.2.

(** The files a visit of [file] in [dir] with the id [id] works on. *)
Definition visit_file (dir file id : string) (p : path) : bool :=
  is_log_name p.2
  || bool_decide (p = (dir, file))
  || bool_decide (p = (dir, response_name id))
  || bool_decide (p = (dir, processed_name id)).

(** The files the signal step works on. *)
Definition signal_file (p : path) : bool :=
  is_log_name p.2
  || String.eqb p.2 "message_box.txt"
  || String.eqb p.2 "message_box_processing.txt"
  || startswith p.2 "processed_message_".

(** The poller's two files of its own. *)
Definition status_file (p : path) : bool :=
  String.eqb p.2 "error.txt" || String.eqb p.2 "file_monitor_status.txt".

(** One pending request whose body decodes to a list. *)
Definition pending_array : world unit :=
  Fixture.world_with [((Fixture.dir, "command_7.json"), "array")].


End Effects.

(* ===================================================================== *)
(** ** The body of the server thread *)
(* ===================================================================== *)

Module Server.
Import Py Resolver Lifecycle.

(** The two kinds of object that can stand left of the [/] of line 452:
    a [str] and a [pathlib] path. *)
Inductive pathlike :=
| Str (s : string)
| PurePath (s : string).

(** [str(v)] *)
Definition to_str (v : pathlike) : string :=
  match v with
  | Str s | PurePath s => s
  end.

(** [a / b]: a path defines the operator on either side, [str] on
    neither.  The left value of the sum is [str(e)] of the TypeError. *)
Definition truediv (a b : pathlike) : string + pathlike :=
  match a, b with
  | Str _, Str _ => inl "unsupported operand type(s) for /: 'str' and 'str'"
  | _, _ => inr (PurePath (Resolver.join (to_str a) (to_str b)))
  end.

(** What [run_mcp_server] meets on its way.  An exception is given by
    its [str(e)], the only thing the handler of line 826 reads. *)
Record conditions := Conditions {
  os : os_env;                      (* for [get_workspace_paths] *)
  imports : option string;          (* lines 78-81: what the imports raise, if anything *)
  setup : option string;            (* lines 86-446: what they raise, if anything *)
  serving : option string;          (* lines 467-487: the same *)
  os_path_exists : string -> bool;  (* os.path.exists *)
  desktop : string;                 (* os.path.expanduser("~/Desktop/mcp_server_ready.txt") *)
  dirname : string -> string;       (* os.path.dirname *)
  this_file : string;               (* __file__ *)
  flags : list bool                 (* the values of [server_running] that line 819 sees *)
}.

(** Lines 448-453.  [get_workspace_paths] builds its two results with
    [os.path.join], so that both are [str]. *)
Definition ready_files (c : conditions) (workspace_path workspace_comm_dir : string)
  : string + list string :=
  let first := desktop c in
  let second := Resolver.join (dirname c (dirname c (this_file c))) "mcp_server_ready.txt" in
  let third :=
    Resolver.join (dirname c (dirname c (dirname c (this_file c)))) "mcp_server_ready.txt" in
  let fourth := Resolver.join workspace_path "mcp_server_ready.txt" in
  match truediv (Str workspace_comm_dir) (Str "mcp_server_ready.txt") with
  | inl type_error => inl type_error
  | inr fifth => inr [first; second; third; fourth; to_str fifth]
  end.

(** Lines 819-820: [while server_running: time.sleep(1)]. *)
Fixpoint keep_running (flags : list bool) : list action :=
  match flags with
  | true :: later => Sleep 1000 :: keep_running later
  | _ => []
  end.

(** Lines 826-839: the handler of the function's [try]. *)
Definition on_error (c : conditions) (message : string) (done : list action)
  : run_result * list action :=
  let done := done ++ [Say ("Error in MCP server: " +:+ message)] in
  match get_workspace_paths (os c) with
  | Raise x => (Raises (exn_str x), done)
  | Ret (workspace_path, workspace_comm_dir) =>
      if os_path_exists c workspace_path then
        match makedirs (os c) workspace_comm_dir with
        | Raise x => (Raises (exn_str x), done)
        | Ret _ => (ReturnsFalse, done ++ [WriteFile "mcp_server_error.txt"])
        end
      else (ReturnsFalse, done)
  end.

(** Lines 75-839: how the function ends and what it does that others
    can see.  The timer and the files of lines 86-446 are left out. *)
Definition run_mcp_server (c : conditions) : run_result * list action :=
  match imports c with
  | Some message => on_error c message []
  | None =>
      match get_workspace_paths (os c) with
      | Raise x => on_error c (exn_str x) []
      | Ret (workspace_path, workspace_comm_dir) =>
          match setup c with
          | Some message => on_error c message []
          | None =>
              match ready_files c workspace_path workspace_comm_dir with
              | inl type_error => on_error c type_error []
              | inr files =>
                  let done :=
                    flat_map (fun ready_file =>
                                [ WriteFile ready_file
                                ; Say ("Created ready file: " +:+ ready_file) ])
                             files
                    ++ [Say "Starting MCP server using FastMCP with uvicorn"] in
                  match serving c with
                  | Some message => on_error c message done
                  | None =>
                      (ReturnsTrue,
                       done
                         ++ [ Start UvicornThread
                            ; Say "MCP server started at http://127.0.0.1:3000/sse"
                            ; Start FileMonitorThread ]
                         ++ keep_running (flags c)
                         ++ [Say "Shutting down server..."])
                  end
              end
          end
      end
  end.

(** An installation where nothing else goes wrong. *)
Definition healthy : conditions :=
  Conditions plain_env None None None (fun _ => true)
             "/home/user/Desktop/mcp_server_ready.txt" (fun p => p)
             "/addins/MCPserve/commands/MCPServerCommand.py" [true; false].

End Server.

(* ===================================================================== *)
(** ** The whole of [start_server] *)
(* ===================================================================== *)

Module Startup.
Import Py Lifecycle.

(** How an [import] statement ends: with the [__file__] of the package,
    with an ImportError, or with another exception. *)
Inductive imported :=
| Found (file : string)
| NotFound (msg : string)
| Broken (e : exn).

(** What [start_server] finds around it. *)
Record site := Site {
  os : Resolver.os_env;
  os_path_exists : string -> bool;   (* os.path.exists *)
  can_write : string -> bool;        (* can the file be opened for writing? *)
  import_mcp : imported;             (* import mcp *)
  import_uvicorn : imported;         (* import uvicorn *)
  dismissed_after : nat              (* milliseconds a message box stays open *)
}.

(** Lines 54-59 and 61-66: one [try: import ..] block. *)
Definition try_import (found failed package : string) (i : imported)
           (missing_packages : list string) (p : process)
  : outcome (list string) * process :=
  match i with
  | Found file => (Ret missing_packages, act (Say (found +:+ file)) p)
  | NotFound msg =>
      (Ret (missing_packages ++ [package]), act (Say (failed +:+ msg)) p)
  | Broken e => (Raise e, p)
  end.

(** Lines 51-72. *)
Definition check_mcp_installed (s : site) (p : process) : outcome bool * process :=
  let missing_packages : list string := [] in
  match try_import "Found MCP package at: " "Error importing MCP package: " "mcp[cli]"
                   (import_mcp s) missing_packages p with
  | (Raise e, p) => (Raise e, p)
  | (Ret missing_packages, p) =>
      match try_import "Found uvicorn package at: " "Error importing uvicorn package: "
                       "uvicorn" (import_uvicorn s) missing_packages p with
      | (Raise e, p) => (Raise e, p)
      | (Ret missing_packages, p) =>
          match missing_packages with
          | [] => (Ret true, p)
          | _ :: _ =>
              (Ret false,
               act (Say ("Missing required packages: "
                           +:+ String.concat ", " missing_packages)) p)
          end
      end
  end.

(** Lines 848-855: the log file of the start. *)
Definition write_start_log (s : site) (p : process) : outcome unit * process :=
  match Resolver.get_workspace_paths (os s) with
  | Raise e => (Raise e, p)
  | Ret (workspace_path, workspace_comm_dir) =>
      if os_path_exists s workspace_path then
        match Resolver.makedirs (os s) workspace_comm_dir with
        | Raise e => (Raise e, p)
        | Ret _ =>
            let log_file := Resolver.join workspace_comm_dir "mcp_server_log.txt" in
            if can_write s log_file
            then (Ret tt, act (WriteFile "mcp_server_log.txt") p)
            else (Raise (Exn OSError
                           ("[Errno 13] Permission denied: '" +:+ log_file +:+ "'")), p)
        end
      else (Ret tt, p)
  end.

(** Lines 842-902 of [start_server], which declares [server_thread] and
    [server_running] global; [spawned] is how the new thread will
    behave.  The message box of line 860 returns when it is
    dismissed. *)
Definition start_server (s : site) (spawned : status) (p : process)
  : outcome bool * process :=
  let p := act (Say "Starting MCP server...") p in
  match write_start_log s p with
  | (Raise e, p) => (Raise e, p)
  | (Ret _, p) =>
      match check_mcp_installed s p with
      | (Raise e, p) => (Raise e, p)
      | (Ret false, p) =>
          let p := act (Say "Required packages not installed. Cannot start server.") p in
          let p := act (MessageBox
                          ("Required packages are not installed. Please install them with:"
                             +:+ Poller.nl +:+ "pip install " +:+ Poller.dq +:+ "mcp[cli]"
                             +:+ Poller.dq +:+ " uvicorn")) p in
          (Ret false, advance (dismissed_after s) p)
      | (Ret true, p) =>
          if truthy (globals p !! "server_running")
             && truthy (globals p !! "server_thread")
             && server_thread_alive p then
            (Ret true, act (Say "MCP server is already running") p)
          else
            let p := set_global "server_running" (VBool true) p in
            let p := set_global "server_thread" (VThread ServerThread) p in
            let p := Process (globals p)
                             (fun u => if decide (u = ServerThread) then spawned
                                       else threads p u)
                             (clock p) (trace p ++ [Start ServerThread]) in
            let p := act (Say "MCP server thread started") p in
            let p := sleep 1000 p in
            if negb (server_thread_alive p) then
              let p := act (Say "MCP server thread stopped unexpectedly") p in
              (Ret false, set_global "server_running" (VBool false) p)
            else (Ret true, act (Say "MCP server started successfully") p)
      end
  end.

(** Does an action start a thread or wait? *)
Definition starts_or_waits (a : action) : bool :=
  match a with
  | Start _ | Sleep _ | Join _ _ => true
  | _ => false
  end.

(** A site where everything is in its place. *)
Definition plain_site : site :=
  Site Resolver.plain_env (fun _ => true) (fun _ => true)
       (Found "/lib/mcp/__init__.py") (Found "/lib/uvicorn/__init__.py") 3000.

(** The same site after the volume was made read-only. *)
Definition read_only_site : site :=
  Site Resolver.read_only_env (fun _ => true) (fun _ => false)
       (Found "/lib/mcp/__init__.py") (Found "/lib/uvicorn/__init__.py") 3000.

End Startup.

(* ===================================================================== *)
(** ** The poller on a file system with limits *)
(* ===================================================================== *)

(** The poller once more, with what [Poller] leaves out: a file that
    cannot be created, opened, renamed, decoded or encoded, and a
    directory that cannot be made or listed.  [print], the clock and
    [json.dump] of a value that was computed are taken to succeed. *)
Module Strict.
Import PyStr Names Py Poller.

(** What the file system and the codecs do to the poller, beyond the
    files that are there.  A failure is given by its [str(e)].  The
    store holds the bytes of the files; a text is held as its UTF-8
    bytes. *)
Record limits := Limits {
  (* [open(p, "w")] and [open(p, "a")]: the OSError, if any *)
  name_error : path -> option string;
  (* [open(p, "r")] of a file that is there: the OSError, if any *)
  open_error : path -> option string;
  (* [f.read()] and [json.load(f)] on the bytes of a file: the
     UnicodeDecodeError, or the text *)
  decode : string -> string + string;
  (* [f.write(..)] of a value on a log: the UnicodeEncodeError, if the
     encoding of the log lacks one of its characters *)
  encode_error : string -> option string;
  (* [os.rename(src, dst)] of a file that is there: the OSError, if
     any *)
  rename_error : path -> path -> option string;
  (* [os.rename] onto a file that is there replaces it (POSIX) or
     raises FileExistsError (Windows) *)
  rename_replaces : bool;
  (* [os.makedirs(comm_dir, exist_ok=True)]: the OSError, if any *)
  makedirs_error : string -> option string;
  (* [os.listdir(comm_dir)]: the OSError, if any *)
  listdir_error : string -> option string
}.

(** The string of the bytes with the given codes. *)
Definition bytes (codes : list nat) : string :=
  string_of_list_ascii (map ascii_of_nat codes).

(** The white space of [str.strip]: the characters for which
    [str.isspace] holds (U+0009 to U+000D, U+001C to U+0020, U+0085,
    U+00A0, U+1680, U+2000 to U+200A, U+2028, U+2029, U+202F, U+205F,
    U+3000), each in UTF-8. *)
Definition spaces : list string :=
  map bytes
      [ [9]; [10]; [11]; [12]; [13]; [28]; [29]; [30]; [31]; [32]
      ; [194; 133]; [194; 160]; [225; 154; 128]
      ; [226; 128; 128]; [226; 128; 129]; [226; 128; 130]; [226; 128; 131]
      ; [226; 128; 132]; [226; 128; 133]; [226; 128; 134]; [226; 128; 135]
      ; [226; 128; 136]; [226; 128; 137]; [226; 128; 138]
      ; [226; 128; 168]; [226; 128; 169]; [226; 128; 175]; [226; 129; 159]
      ; [227; 128; 128] ]%nat.

Definition drop_prefix (prefixes : list string) (s : string) : option string :=
  match filter (fun p => String.prefix p s = true) prefixes with
  | p :: _ => Some (String.substring (String.length p) (String.length s - String.length p) s)
  | [] => None
  end.

Fixpoint lstrip_with (prefixes : list string) (fuel : nat) (s : string) : string :=
  match fuel with
  | O => s
  | S fuel' =>
      match drop_prefix prefixes s with
      | Some rest => lstrip_with prefixes fuel' rest
      | None => s
      end
  end.

(** [s.strip()] *)
Definition strip (s : string) : string :=
  let left := lstrip_with spaces (String.length s) s in
  String.rev (lstrip_with (map String.rev spaces) (String.length left) (String.rev left)).

Section WithLimits.
Context `{Platform H}.
Variable L : limits.
(** The communication directory that [get_workspace_paths] resolved
    when the server started (line 84). *)
Variable workspace_comm_dir : string.
#[local] Abbreviation M := (M H).

(** Opening [p] for writing or appending. *)
Definition create (p : path) : M unit :=
  match name_error L p with
  | Some msg => raise (Exn OSError msg)
  | None => mret tt
  end.

(** [with open(p, "w") as f: json.dump(doc, f, indent=2)]; the encoder
    writes ASCII only. *)
Definition dump_file (p : path) (doc : json) : M unit :=
  create p;; emit (Dump p doc).

(** The first of the values that the encoding cannot take. *)
Fixpoint first_error (values : list string) : option string :=
  match values with
  | [] => None
  | v :: rest =>
      match encode_error L v with
      | Some msg => Some msg
      | None => first_error rest
      end
  end.

(** [f.write(text)] on a file opened for appending; [values] are the
    parts of [text] that come from outside, the rest of it is ASCII. *)
Definition write_text (p : path) (text : string) (values : list string) : M unit :=
  match first_error values with
  | Some msg => raise (Exn UnicodeEncodeError msg)
  | None => emit (Append p text)
  end.

(** [with open(p, "a") as f: <writes>]; the open creates the file. *)
Definition append_file (p : path) (writes : M unit) : M unit :=
  create p;; emit (Append p "");; writes.

(** [with open(p, "w") as f: f.write(text)]; the open empties the
    file. *)
Definition write_file (p : path) (text : string) (values : list string) : M unit :=
  create p;;
  emit (Write p "");;
  match first_error values with
  | Some msg => raise (Exn UnicodeEncodeError msg)
  | None => emit (Write p text)
  end.

(** [os.rename(src, dst)] *)
Definition rename (src dst : path) : M unit :=
  fun w =>
    match files w !! src with
    | None =>
        (Raise (Exn FileNotFoundError
                  ("[Errno 2] No such file or directory: " +:+ path_str src)), w)
    | Some _ =>
        match rename_error L src dst with
        | Some msg => (Raise (Exn OSError msg), w)
        | None =>
            if bool_decide (is_Some (files w !! dst)) && negb (rename_replaces L)
            then (Raise (Exn FileExistsError
                           ("[WinError 183] Cannot create a file when that file already exists: "
                              +:+ path_str src)), w)
            else emit (Rename src dst) w
        end
    end.

(** What reading the file [p] with the bytes [body] gives: the text,
    or the exception of the [open] or of the decoder. *)
Definition read_result (p : path) (body : string) : exn + string :=
  match open_error L p with
  | Some msg => inl (Exn OSError msg)
  | None =>
      match decode L body with
      | inl msg => inl (Exn UnicodeDecodeError msg)
      | inr text => inr text
      end
  end.

(** [with open(p, "r") as f: f.read()] *)
Definition read_file (p : path) : M string :=
  fun w =>
    match files w !! p with
    | None =>
        (Raise (Exn FileNotFoundError
                  ("[Errno 2] No such file or directory: " +:+ path_str p)), w)
    | Some body =>
        match read_result p body with
        | inl e => (Raise e, w)
        | inr text => (Ret text, w)
        end
    end.

(** Lines 1111-1157.  [get_workspace_paths] is taken to resolve as it
    did at start-up. *)
Definition create_message_box_command (message : json) : M bool :=
  let debug_file : path := (workspace_comm_dir, "message_command_debug.txt") in
  try_catch
    (append_file debug_file
       (t ← ctime;
        write_text debug_file
          (nl +:+ "Creating message box command for: " +:+ py_str message
              +:+ " at " +:+ t +:+ nl)
          [py_str message]);;
     ms ← now_millis;
     let command_id := "MCPMessageBox_" +:+ pretty ms in
     host_try "commandDefinitions.addButtonDefinition" [JStr command_id; message]
              (ui_define_message_command message);;
     append_file debug_file
       (t ← ctime;
        write_text debug_file
          ("Command definition created with ID: " +:+ command_id
             +:+ " at " +:+ t +:+ nl) []);;
     host_try "cmdDef.execute" [] ui_execute_message_command;;
     append_file debug_file
       (t ← ctime;
        write_text debug_file ("Command execution triggered at " +:+ t +:+ nl) []);;
     mret true)
    (fun e =>
       try_catch
         (append_file debug_file
            (t ← ctime;
             write_text debug_file
               ("Error creating message box command: " +:+ exn_str e
                   +:+ " at " +:+ t +:+ nl)
               [exn_str e];;
             write_text debug_file (format_exc e) [format_exc e]))
         (fun _ => mret tt);;
       mret false).

(** Lines 639-657, with line 644 read at the indentation of the lines
    around it. *)
Definition handle_message_box (params : json) : M json :=
  message ← py_get params "message" (JStr "");
  let debug_file : path := (workspace_comm_dir, "command_message_debug.txt") in
  append_file debug_file
    (t ← ctime;
     write_text debug_file
       ("Processing message_box command with: " +:+ py_str message
          +:+ " at " +:+ t +:+ nl)
       [py_str message]);;
  try_catch
    (create_message_box_command message;;
     append_file debug_file
       (t ← ctime;
        write_text debug_file
          ("Command-based display triggered at " +:+ t +:+ nl) []))
    (fun e =>
       append_file debug_file
         (write_text debug_file
            ("Command-based display attempt failed: " +:+ exn_str e +:+ nl)
            [exn_str e]));;
  mret (JStr "Message processed successfully").

(** Lines 613-776: the value left in [result]. *)
Definition handle_command (command params : json) : M json :=
  if is_str command "list_resources" then mret list_resources_result
  else if is_str command "list_tools" then mret list_tools_result
  else if is_str command "list_prompts" then mret list_prompts_result
  else if is_str command "message_box" then handle_message_box params
  else if is_str command "create_new_sketch" then
    plane_name ← py_get params "plane_name" (JStr "XY");
    host_call "create_new_sketch" [plane_name] (host_create_new_sketch plane_name)
  else if is_str command "create_parameter" then
    t ← now;
    name ← py_get params "name" (JStr ("Param_" +:+ pretty (t `mod` 10000)%Z));
    expression ← py_get params "expression" (JStr "10");
    unit ← py_get params "unit" (JStr "mm");
    comment ← py_get params "comment" (JStr "");
    host_call "create_parameter" [name; expression; unit; comment]
              (host_create_parameter name expression unit comment)
  else if is_str command "read_resource" then handle_read_resource params
  else if is_str command "get_prompt" then handle_get_prompt params
  else mret (JStr ("Unknown command: " +:+ py_str command)).

(** Lines 604-606: [json.load] of the command file. *)
Definition load_command (command_file : path) : M json :=
  text ← read_file command_file;
  lift (json_loads text).

(** Lines 604-776: read and decode the command file and compute the
    value of [result]. *)
Definition compute_result (command_file : path) (command_id : string) : M json :=
  command_data ← load_command command_file;
  command ← py_get command_data "command" JNull;
  params ← py_get command_data "params" (JObj []);
  print ("Processing command " +:+ command_id +:+ ": " +:+ py_str command
           +:+ " with params " +:+ py_str params);;
  handle_command command params.

(** Lines 604-783: the body of the inner [try]. *)
Definition dispatch (command_file processed_file response_file : path)
           (command_id : string) : M unit :=
  result ← compute_result command_file command_id;
  dump_file response_file (JObj [("result", result)]);;
  rename command_file processed_file.

(** Lines 588-798: the body of the loop over the directory listing. *)
Definition visit (comm_dir file : string) : M unit :=
  if is_command_file file then
    let command_file : path := (comm_dir, file) in
    match extract_command_id file with
    | None =>
        (* the IndexError leaves [command_id] unbound, and the NameError
           of the handler's own f-string is swallowed *)
        let e := Exn IndexError "list index out of range" in
        print ("Error processing command file " +:+ path_str command_file
                 +:+ ": " +:+ exn_str e);;
        print_exc e
    | Some command_id =>
        let processed_file : path := (comm_dir, processed_name command_id) in
        let response_file : path := (comm_dir, response_name command_id) in
        try_catch
          (done_before ← path_exists processed_file;
           answered ← path_exists response_file;
           if done_before || answered then mret tt
           else
             print ("Processing command file: " +:+ path_str command_file);;
             try_catch_json
               (dispatch command_file processed_file response_file command_id)
               (fun e =>
                  print ("Error parsing JSON in " +:+ path_str command_file
                           +:+ ": " +:+ exn_str e);;
                  dump_file response_file
                    (JObj [("error", JStr ("Invalid JSON format: " +:+ exn_str e))])))
          (fun e =>
             print ("Error processing command file " +:+ path_str command_file
                      +:+ ": " +:+ exn_str e);;
             print_exc e;;
             try_catch
               (dump_file (comm_dir, response_name command_id)
                          (JObj [("error", JStr (exn_str e))]))
               (fun _ => mret tt))
    end
  else mret tt.

(** Lines 587-798 over a given listing. *)
Definition scan (comm_dir : string) (listing : list string) : M unit :=
  for_each listing (visit comm_dir).

(** Lines 531-584: the fire-and-forget signal file. *)
Definition poll_signal (comm_dir : string) : M unit :=
  let message_file : path := (comm_dir, "message_box.txt") in
  let debug_file : path := (workspace_comm_dir, "message_box_processing.txt") in
  found ← path_exists message_file;
  if (found : bool) then
    try_catch
      (append_file debug_file
         (t ← ctime;
          write_text debug_file
            (nl +:+ "--- Found message_box.txt at " +:+ t +:+ " ---" +:+ nl) []);;
       text ← read_file message_file;
       let message := strip text in
       append_file debug_file
         (write_text debug_file ("Message content: " +:+ message +:+ nl) [message]);;
       print ("Displaying message box: " +:+ message);;
       append_file debug_file
         (write_text debug_file
            ("Message being processed via command approach" +:+ nl) []);;
       try_catch
         (create_message_box_command (JStr message);;
          append_file debug_file
            (write_text debug_file ("Command-based display triggered" +:+ nl) []))
         (fun e =>
            append_file debug_file
              (write_text debug_file
                 ("Command-based display attempt failed: " +:+ exn_str e +:+ nl)
                 [exn_str e]));;
       t ← now;
       let processed_file : path :=
         (comm_dir, "processed_message_" +:+ pretty t +:+ ".txt") in
       append_file debug_file
         (write_text debug_file
            ("Renaming file to: " +:+ path_str processed_file +:+ nl)
            [path_str processed_file]);;
       rename message_file processed_file;;
       append_file debug_file
         (write_text debug_file ("File renamed successfully" +:+ nl) []))
      (fun e =>
         print ("Error processing message file " +:+ path_str message_file
                  +:+ ": " +:+ exn_str e);;
         try_catch
           (append_file debug_file
              (write_text debug_file
                 ("ERROR processing message file: " +:+ exn_str e +:+ nl)
                 [exn_str e];;
               write_text debug_file (format_exc e) [format_exc e]))
           (fun _ => mret tt))
  else mret tt.

(** [os.makedirs(comm_dir, exist_ok=True)] of line 527. *)
Definition os_makedirs (comm_dir : string) : M unit :=
  match makedirs_error L comm_dir with
  | Some msg => raise (Exn OSError msg)
  | None => mret tt
  end.

(** [os.listdir(comm_dir)] of line 587. *)
Definition os_listdir (comm_dir : string) : M (list string) :=
  match listdir_error L comm_dir with
  | Some msg => raise (Exn OSError msg)
  | None => Poller.os_listdir comm_dir
  end.

(** Lines 527-803: one directory of one pass. *)
Definition poll_dir (comm_dir : string) : M unit :=
  try_catch
    (os_makedirs comm_dir;;
     poll_signal comm_dir;;
     listing ← os_listdir comm_dir;
     scan comm_dir listing)
    (fun e =>
       print ("Error processing directory " +:+ comm_dir +:+ ": " +:+ exn_str e);;
       write_file (workspace_comm_dir, "error.txt")
                  ("Error in file monitor for directory " +:+ comm_dir
                     +:+ ": " +:+ exn_str e +:+ nl +:+ nl +:+ format_exc e)
                  [comm_dir; exn_str e; format_exc e]).

(** Lines 526-803: one pass over the watched directories. *)
Definition poll_pass (comm_dirs : list string) : M unit :=
  for_each comm_dirs poll_dir.

(** Lines 524-806: the loop; [flags] are the values of the global
    [server_running] that successive tests of the loop condition see.
    An exception that leaves a pass leaves the loop. *)
Fixpoint monitor_loop (comm_dirs : list string) (flags : list bool) : M unit :=
  match flags with
  | [] => mret tt
  | running :: later =>
      if running
      then poll_pass comm_dirs;; monitor_loop comm_dirs later
      else mret tt
  end.

End WithLimits.

(** A file system that takes every name, where every file decodes to
    its own bytes and every text can be written. *)
Definition roomy : limits :=
  Limits (fun _ => None) (fun _ => None) (fun body => inr body) (fun _ => None)
         (fun _ _ => None) true (fun _ => None) (fun _ => None).


(** A file system whose names have at most [n] characters. *)
Definition names_up_to (n : nat) : limits :=
  let too_long (p : path) :=
    if (n <? String.length p.2)%nat
    then Some ("[Errno 36] File name too long: '" +:+ path_str p +:+ "'")
    else None in
  Limits too_long (fun _ => None) (fun body => inr body) (fun _ => None)
         (fun _ dst => too_long dst) true (fun _ => None) (fun _ => None).

(** How the handling of a request ends, after the events that touch no
    protocol file: with nothing, when no response can be written; with
    the result and the rename; with the result and, the rename having
    failed, an error written over it; or with an error. *)
Inductive ending (dir file id : string) : list event -> Prop :=
| ending_unanswered :
    ending dir file id []
| ending_result (result : json) :
    ending dir file id
      [ Dump (dir, response_name id) (JObj [("result", result)])
      ; Rename (dir, file) (dir, processed_name id) ]
| ending_unclaimed (result : json) (e : exn) :
    ending dir file id
      [ Dump (dir, response_name id) (JObj [("result", result)])
      ; Print ("Error processing command file " +:+ path_str (dir, file)
                 +:+ ": " +:+ exn_str e)
      ; Traceback e
      ; Dump (dir, response_name id) (JObj [("error", JStr (exn_str e))]) ]
| ending_error (text : string) :
    ending dir file id
      [ Dump (dir, response_name id) (JObj [("error", JStr text)]) ].

(** The text before the message of the exception in an [error]
    response: line 788 has one, line 796 has none. *)
Definition error_prefix (e : exn) : string :=
  match exn_kind e with
  | JSONDecodeError => "Invalid JSON format: "
  | _ => ""
  end.

(** A file system that cannot decode the body [bytes]. *)
Definition picky : limits :=
  Limits (fun _ => None) (fun _ => None)
         (fun body => if String.eqb body "bytes"
                      then inl "'utf-8' codec can't decode byte 0xff in position 0: invalid start byte"
                      else inr body)
         (fun _ => None) (fun _ _ => None) true (fun _ => None) (fun _ => None).

(** A file system whose logs are written in an encoding that takes
    ASCII only. *)
Definition ascii_only : limits :=
  Limits (fun _ => None) (fun _ => None) (fun body => inr body)
         (fun text =>
            if forallb (fun c => (nat_of_ascii c <? 128)%nat) (list_ascii_of_string text)
            then None
            else Some "'ascii' codec can't encode characters: ordinal not in range(128)")
         (fun _ _ => None) true (fun _ => None) (fun _ => None).

(** A file system where no directory can be listed and no file can be
    created. *)
Definition locked : limits :=
  Limits (fun p => Some ("[Errno 13] Permission denied: '" +:+ path_str p +:+ "'"))
         (fun _ => None) (fun body => inr body) (fun _ => None) (fun _ _ => None) true
         (fun _ => None)
         (fun comm_dir => Some ("[Errno 13] Permission denied: '" +:+ comm_dir +:+ "'")).

(** The snowman U+2603, in UTF-8. *)
Definition snowman : string := bytes [226; 152; 131].

(** A request under the id [a_b] that was answered and claimed, and
    whose command file is there again. *)
Definition answered_a_b : world unit :=
  Fixture.world_with
    [ ((Fixture.dir, command_name "a_b"), "tools")
    ; ((Fixture.dir, response_name "a_b"), "earlier")
    ; ((Fixture.dir, processed_name "a_b"), "tools") ].

(** One pending request whose id has seven characters. *)
Definition pending_long : world unit :=
  Fixture.world_with [((Fixture.dir, command_name "1234567"), "tools")].

(** One pending request whose bytes do not decode. *)
Definition pending_bytes : world unit :=
  Fixture.world_with [((Fixture.dir, "command_7.json"), "bytes")].

End Strict.

(* ===================================================================== *)
(** ** Results: the layout of the source *)
(* ===================================================================== *)

Module LayoutFacts.
Import Layout.

(** Once a prefix of the lines is rejected, so is every continuation. *)
Lemma reject_extends ls more : forall stack after_header line why,
  check_layout stack after_header ls = Reject line why ->
  check_layout stack after_header (ls ++ more) = Reject line why.
Proof.
  induction ls as [|l ls IH]; intros stack after_header line why; simpl.
  - discriminate.
  - destruct (hd 0%nat stack <? indent l)%nat.
    + destruct after_header; [apply IH | trivial].
    + destruct after_header; [trivial |].
      destruct (indent l =? hd 0%nat stack)%nat; [apply IH |].
      destruct (hd 0%nat (pop_to (indent l) stack) =? indent l)%nat;
        [apply IH | trivial].
Qed.

(** The excerpt is laid out correctly as soon as line 644 stands in the
    column of the statements around it: the checker does not reject it
    for another reason. *)
Lemma reindented_lines_accepted :
  check_layout stack_at_587 false (map reindent_644 poller_lines) = Accept.
Proof. reflexivity. Qed.

(** C1.  The main source file is not valid Python.  In the [message_box]
    branch of the poller, line 644 is dedented to column 36, out of the
    blocks it belongs to, and line 645 returns to column 48 although the
    line before it opens no block: an unexpected indent.  This holds
    whatever encloses the loop and whatever follows line 646, so the
    module cannot be parsed, and nothing it defines can run as
    written. *)
Theorem poller_source_is_rejected (enclosing : list nat) (following : list logical_line) :
  check_layout (28 :: enclosing)%nat false (poller_lines ++ following)
  = Reject 645 UnexpectedIndent.
Proof.
  apply reject_extends.
  reflexivity.
Qed.

End LayoutFacts.

(* ===================================================================== *)
(** ** Results: the workspace resolver *)
(* ===================================================================== *)

Module ResolverFacts.
Import Py Resolver.

(** Where no directory can be created, the call raises: the handler of
    the first failure calls [os.makedirs] again, outside of any [try]. *)
Lemma get_workspace_paths_raises_on_read_only_volume :
  get_workspace_paths read_only_env
  = Raise (Exn OSError "[Errno 13] Permission denied: '/addins/MCPserve/mcp_comm'").
Proof. reflexivity. Qed.

(** With no override, the workspace is the parent of the add-in
    directory when that exists. *)
Lemma get_workspace_paths_of_plain_installation :
  get_workspace_paths plain_env
  = Ret ("/addins/MCPserve/..", "/addins/MCPserve/../mcp_comm").
Proof. reflexivity. Qed.

(** The order in which the workspace is chosen. *)
Lemma choose_workspace_order (e : os_env) :
  let candidate := abspath e (join (addon_path e) pardir) in
  let override_valid :=
    match getenv_workspace e with
    | Some env_path => negb (String.eqb env_path "") && isdir e env_path
    | None => false
    end in
  choose_workspace e =
    if override_valid then abspath e (default "" (getenv_workspace e))
    else if isdir e candidate then candidate
    else addon_path e.
Proof.
  unfold choose_workspace. simpl.
  destruct (getenv_workspace e) as [env_path|]; simpl; [|reflexivity].
  destruct (negb (String.eqb env_path "") && isdir e env_path); reflexivity.
Qed.

(** C7, amended.  The resolver takes the override if it names an
    existing directory, else the parent of the add-in directory if that
    exists, else the add-in directory.  If [mcp_comm] cannot be created
    there it falls back to the add-in directory; it raises exactly when
    [mcp_comm] cannot be created there either.  A pair it returns is
    usable: the second component is [mcp_comm] under the first, and
    creating it succeeded. *)
Theorem get_workspace_paths_amended (e : os_env) :
  let candidate := abspath e (join (addon_path e) pardir) in
  let override_valid :=
    match getenv_workspace e with
    | Some env_path => negb (String.eqb env_path "") && isdir e env_path
    | None => false
    end in
  let chosen :=
    if override_valid then abspath e (default "" (getenv_workspace e))
    else if isdir e candidate then candidate
    else addon_path e in
  let primary := join chosen "mcp_comm" in
  let fallback := join (addon_path e) "mcp_comm" in
  get_workspace_paths e =
    (if makedirs_ok e primary then Ret (chosen, primary)
     else if makedirs_ok e fallback then Ret (addon_path e, fallback)
     else Raise (Exn OSError ("[Errno 13] Permission denied: '" +:+ fallback +:+ "'")))
  /\ ((exists x, get_workspace_paths e = Raise x)
      <-> makedirs_ok e primary = false /\ makedirs_ok e fallback = false)
  /\ (forall workspace_path comm_dir,
        get_workspace_paths e = Ret (workspace_path, comm_dir) ->
        comm_dir = join workspace_path "mcp_comm" /\ makedirs_ok e comm_dir = true).
Proof.
  intros candidate override_valid chosen primary fallback.
  assert (Hchosen : choose_workspace e = chosen) by apply choose_workspace_order.
  assert (Heq : get_workspace_paths e =
    (if makedirs_ok e primary then Ret (chosen, primary)
     else if makedirs_ok e fallback then Ret (addon_path e, fallback)
     else Raise (Exn OSError ("[Errno 13] Permission denied: '" +:+ fallback +:+ "'")))).
  { unfold get_workspace_paths, makedirs. rewrite Hchosen. fold primary fallback.
    destruct (makedirs_ok e primary); [reflexivity|].
    destruct (makedirs_ok e fallback); reflexivity. }
  split; [exact Heq|]. rewrite Heq. split.
  - destruct (makedirs_ok e primary) eqn:Hp.
    { split; [intros [x Hx]; discriminate | intros [? _]; discriminate]. }
    destruct (makedirs_ok e fallback) eqn:Hf.
    { split; [intros [x Hx]; discriminate | intros [_ ?]; discriminate]. }
    split; [auto | eauto].
  - intros workspace_path comm_dir.
    destruct (makedirs_ok e primary) eqn:Hp.
    { intros [= <- <-]. auto. }
    destruct (makedirs_ok e fallback) eqn:Hf.
    { intros [= <- <-]. auto. }
    discriminate.
Qed.

End ResolverFacts.

(* ===================================================================== *)
(** ** Results: start and stop *)
(* ===================================================================== *)

Module LifecycleFacts.
Import Lifecycle.

(** The body of the server thread never rebinds a name of the module. *)
Lemma server_thread_func_keeps_module (ending : run_result) (g : namespace) :
  (server_thread_func ending g).1.1 = g.
Proof. destruct ending; reflexivity. Qed.

Lemma server_thread_func_never_joins (ending : run_result) (g : namespace) :
  joined (server_thread_func ending g).2 = [].
Proof. destruct ending; reflexivity. Qed.

Lemma thread_exit_globals t ending p : globals (thread_exit t ending p) = globals p.
Proof.
  destruct t; simpl; try reflexivity.
  pose proof (server_thread_func_keeps_module ending (globals p)) as Hg.
  destruct (server_thread_func ending (globals p)) as [[g l] acts]. exact Hg.
Qed.

Lemma thread_exit_clock t ending p : clock (thread_exit t ending p) = clock p.
Proof.
  destruct t; simpl; try reflexivity.
  destruct (server_thread_func ending (globals p)) as [[g l] acts]. reflexivity.
Qed.

Lemma thread_exit_threads t ending p : threads (thread_exit t ending p) = threads p.
Proof.
  destruct t; simpl; try reflexivity.
  destruct (server_thread_func ending (globals p)) as [[g l] acts]. reflexivity.
Qed.

Lemma thread_exit_trace t ending p :
  exists acts, trace (thread_exit t ending p) = trace p ++ acts /\ joined acts = [].
Proof.
  destruct t; simpl; try (exists []; split; [symmetry; apply app_nil_r | reflexivity]).
  pose proof (server_thread_func_never_joins ending (globals p)) as Hj.
  destruct (server_thread_func ending (globals p)) as [[g l] acts].
  exists acts. split; [reflexivity | exact Hj].
Qed.

Lemma age_thread_globals ms t p : globals (age_thread ms t p) = globals p.
Proof.
  unfold age_thread. destruct (threads p t) as [|[todo|] ending|]; try reflexivity.
  destruct (todo <=? ms)%nat; simpl; [apply thread_exit_globals | reflexivity].
Qed.

Lemma age_thread_clock ms t p : clock (age_thread ms t p) = clock p.
Proof.
  unfold age_thread. destruct (threads p t) as [|[todo|] ending|]; try reflexivity.
  destruct (todo <=? ms)%nat; simpl; [apply thread_exit_clock | reflexivity].
Qed.

Lemma age_thread_trace ms t p :
  exists acts, trace (age_thread ms t p) = trace p ++ acts /\ joined acts = [].
Proof.
  unfold age_thread.
  destruct (threads p t) as [|[todo|] ending|];
    try (exists []; split; [symmetry; apply app_nil_r | reflexivity]).
  destruct (todo <=? ms)%nat; simpl;
    [apply thread_exit_trace | exists []; split; [symmetry; apply app_nil_r | reflexivity]].
Qed.

Lemma joined_app (a b : list action) : joined (a ++ b) = joined a ++ joined b.
Proof. unfold joined. apply omap_app. Qed.

Lemma advance_globals ms p : globals (advance ms p) = globals p.
Proof. unfold advance; simpl. by rewrite !age_thread_globals. Qed.

Lemma advance_clock ms p : clock (advance ms p) = (clock p + ms)%nat.
Proof. unfold advance; simpl. by rewrite !age_thread_clock. Qed.

Lemma advance_trace ms p :
  exists acts, trace (advance ms p) = trace p ++ acts /\ joined acts = [].
Proof.
  unfold advance; simpl.
  destruct (age_thread_trace ms ServerThread p) as (a1 & E1 & J1).
  destruct (age_thread_trace ms UvicornThread (age_thread ms ServerThread p))
    as (a2 & E2 & J2).
  destruct (age_thread_trace ms FileMonitorThread
              (age_thread ms UvicornThread (age_thread ms ServerThread p)))
    as (a3 & E3 & J3).
  exists (a1 ++ a2 ++ a3). split.
  - rewrite E3, E2, E1. by rewrite <- !app_assoc.
  - by rewrite !joined_app, J1, J2, J3.
Qed.

(** The thread that [age_thread] does not age keeps its status. *)
Lemma age_thread_other ms t u p : u <> t -> threads (age_thread ms t p) u = threads p u.
Proof.
  intros Hne. unfold age_thread.
  destruct (threads p t) as [|[todo|] ending|]; try reflexivity.
  destruct (todo <=? ms)%nat; simpl; destruct (decide (u = t)); try congruence.
  by rewrite thread_exit_threads.
Qed.

Lemma age_thread_self ms t p :
  threads (age_thread ms t p) t =
    match threads p t with
    | Running (Some todo) ending =>
        if (todo <=? ms)%nat then Finished else Running (Some (todo - ms)%nat) ending
    | s => s
    end.
Proof.
  unfold age_thread.
  destruct (threads p t) as [|[todo|] ending|] eqn:E; try (by rewrite E).
  destruct (todo <=? ms)%nat; simpl; by destruct (decide (t = t)).
Qed.

Lemma advance_server_thread ms p :
  threads (advance ms p) ServerThread =
    match threads p ServerThread with
    | Running (Some todo) ending =>
        if (todo <=? ms)%nat then Finished else Running (Some (todo - ms)%nat) ending
    | s => s
    end.
Proof.
  unfold advance; simpl.
  rewrite !age_thread_other by discriminate. apply age_thread_self.
Qed.

Lemma server_thread_alive_set_flag v p :
  server_thread_alive (set_global "server_running" v p) = server_thread_alive p.
Proof.
  unfold server_thread_alive, set_global; simpl.
  by rewrite lookup_insert_ne.
Qed.

Lemma server_thread_alive_truthy p :
  server_thread_alive p = true -> truthy (globals p !! "server_thread") = true.
Proof.
  unfold server_thread_alive.
  destruct (globals p !! "server_thread") as [[| |t]|]; simpl; congruence.
Qed.

Lemma join_clock t timeout_ms p :
  (clock (join t timeout_ms p) <= clock p + timeout_ms)%nat.
Proof.
  unfold join. rewrite advance_clock. simpl.
  destruct (threads p t) as [|[todo|] ending|]; lia.
Qed.

(** C8, amended.  [stop_server] changes nothing when the flag is already
    false.  Otherwise it clears the flag and waits for the server thread
    alone, if the module has one that is alive, with a timeout of two
    seconds; the poller thread is not joined.  It returns at most two
    seconds later whether or not the thread has ended, and a thread
    that never ends is left running. *)
Theorem stop_server_amended (p : process) :
  let q := stop_server p in
  if truthy (globals p !! "server_running") then
    globals q !! "server_running" = Some (VBool false)
    /\ (exists thread_acts,
          joined thread_acts = []
          /\ trace q =
               trace p
               ++ (if server_thread_alive p
                   then Join ServerThread 2000 :: thread_acts else [])
               ++ [Say "MCP server stopped"])
    /\ (clock q <= clock p + 2000)%nat
    /\ match threads p ServerThread with
       | Running None ending => threads q ServerThread = Running None ending
       | _ => True
       end
  else
    globals q = globals p /\ threads q = threads p /\ clock q = clock p
    /\ trace q = trace p ++ [Say "MCP server is not running"].
Proof.
  intros q. subst q. unfold stop_server.
  destruct (truthy (globals p !! "server_running")) eqn:Hflag;
    cbn [negb]; [|by repeat split].
  rewrite server_thread_alive_set_flag.
  replace (globals (set_global "server_running" (VBool false) p) !! "server_thread")
    with (globals p !! "server_thread")
    by (unfold set_global; simpl; by rewrite lookup_insert_ne).
  set (p1 := set_global "server_running" (VBool false) p).
  assert (Hp1 : globals p1 !! "server_running" = Some (VBool false))
    by apply lookup_insert_eq.
  destruct (server_thread_alive p) eqn:Halive.
  - rewrite (server_thread_alive_truthy p Halive). cbn [andb].
    unfold join.
    set (waited := match threads p1 ServerThread with
                   | Running (Some todo) _ => Nat.min todo 2000
                   | Running None _ => 2000
                   | _ => 0
                   end).
    assert (Hwaited : (waited <= 2000)%nat)
      by (subst waited; destruct (threads p1 ServerThread) as [|[todo|] ?|]; lia).
    destruct (advance_trace waited (act (Join ServerThread 2000) p1))
      as (acts & Etrace & Hj).
    cbn [act globals threads clock trace].
    rewrite advance_globals, advance_clock, advance_server_thread, Etrace.
    cbn [act globals threads clock trace p1 set_global].
    repeat split.
    + exact Hp1.
    + exists acts. split; [exact Hj|]. by rewrite <- !app_assoc.
    + lia.
    + by destruct (threads p ServerThread) as [|[todo|] ending|].
  - rewrite andb_false_r. cbn [act globals threads clock trace p1 set_global].
    repeat split.
    + exact Hp1.
    + exists []. split; reflexivity.
    + lia.
    + by destruct (threads p ServerThread) as [|[todo|] ending|].
Qed.

Lemma server_thread_func_binds_frame (ending : run_result) (g : namespace) :
  ending <> ReturnsTrue ->
  (server_thread_func ending g).1.2 !! "server_running" = Some (VBool false).
Proof. destruct ending; [congruence | reflexivity | reflexivity]. Qed.

(** C10.  In [server_thread_func] the assignments [server_running =
    False] bind a name of the call's own frame, because the function has
    no [global] statement.  So when [run_mcp_server] returns False or
    raises after the one-second grace period of [start_server], which
    has by then reported success with the flag set, the flag of the
    module is still True once the server thread has ended. *)
Theorem server_thread_failure_leaves_flag_set
        (p : process) (todo later : nat) (ending : run_result) :
  ending <> ReturnsTrue ->
  server_thread_alive p = false ->
  (1000 < todo)%nat ->
  (todo - 1000 <= later)%nat ->
  let started := start_server true (Running (Some todo) ending) p in
  let after := advance later started.2 in
  (server_thread_func ending (globals started.2)).1.2 !! "server_running"
    = Some (VBool false)
  /\ (server_thread_func ending (globals started.2)).1.1 = globals started.2
  /\ started.1 = true
  /\ globals started.2 !! "server_running" = Some (VBool true)
  /\ is_alive (threads after ServerThread) = false
  /\ globals after !! "server_running" = Some (VBool true).
Proof.
  intros Hfail Hdead Hgrace Hlater started after.
  split; [by apply server_thread_func_binds_frame|].
  split; [apply server_thread_func_keeps_module|].
  subst after started. unfold start_server. cbn [negb].
  replace (server_thread_alive (act (Say "Starting MCP server...") p))
    with false by (symmetry; exact Hdead).
  rewrite andb_false_r.
  set (p1 := act (Say "MCP server thread started") _).
  assert (Hthread : threads (sleep 1000 p1) ServerThread
                    = Running (Some (todo - 1000)%nat) ending).
  { unfold sleep. rewrite advance_server_thread. subst p1. simpl.
    destruct (todo <=? 1000)%nat eqn:E; [apply Nat.leb_le in E; lia | reflexivity]. }
  assert (Hglobals : globals (sleep 1000 p1)
                     = <["server_thread" := VThread ServerThread]>
                         (<["server_running" := VBool true]> (globals p))).
  { unfold sleep. rewrite advance_globals. reflexivity. }
  assert (Halive : server_thread_alive (sleep 1000 p1) = true).
  { unfold server_thread_alive. rewrite Hglobals, lookup_insert_eq, Hthread.
    reflexivity. }
  rewrite Halive. cbn [negb fst snd].
  assert (Hflag : globals (sleep 1000 p1) !! "server_running" = Some (VBool true)).
  { rewrite Hglobals, lookup_insert_ne by discriminate. apply lookup_insert_eq. }
  repeat split.
  - exact Hflag.
  - rewrite advance_server_thread. cbn [act threads]. rewrite Hthread.
    destruct (todo - 1000 <=? later)%nat eqn:E; [reflexivity|].
    apply Nat.leb_gt in E. lia.
  - rewrite advance_globals. exact Hflag.
Qed.

(** The module as loaded, a server thread that fails five seconds after
    it was started, looked at four seconds after [start_server]
    returned. *)
Lemma server_thread_failure_example :
  let started := start_server true (Running (Some 5000%nat) ReturnsFalse) fresh_process in
  let after := advance 4000 started.2 in
  (server_thread_func ReturnsFalse (globals started.2)).1.2 !! "server_running"
    = Some (VBool false)
  /\ (server_thread_func ReturnsFalse (globals started.2)).1.1 = globals started.2
  /\ started.1 = true
  /\ globals started.2 !! "server_running" = Some (VBool true)
  /\ is_alive (threads after ServerThread) = false
  /\ globals after !! "server_running" = Some (VBool true).
Proof.
  apply (server_thread_failure_leaves_flag_set fresh_process 5000 4000 ReturnsFalse).
  - discriminate.
  - reflexivity.
  - lia.
  - lia.
Defined.

(** At a started server whose threads keep running, [stop_server] waits
    for the server thread only: the poller is not joined, and it is
    still alive when the call returns. *)
Lemma stop_server_leaves_poller_unjoined :
  joined (trace (stop_server busy_process)) = [ServerThread]
  /\ is_alive (threads (stop_server busy_process) FileMonitorThread) = true.
Proof. split; reflexivity. Qed.

End LifecycleFacts.


(* ===================================================================== *)
(** ** Results: file names and correlation ids *)
(* ===================================================================== *)

Module NameFacts.
Import PyStr Names.

Lemma split_nonempty sep s : split sep s <> [].
Proof.
  destruct s as [|c s]; simpl; [discriminate|].
  destruct (Ascii.eqb c sep); [discriminate|].
  destruct (split sep s); discriminate.
Qed.

(** The first piece of a split is the text before the first separator. *)
Lemma split_head sep s : split sep s !! 0%nat = Some (before sep s).
Proof.
  induction s as [|c s IH]; simpl; [reflexivity|].
  destruct (Ascii.eqb c sep); [reflexivity|].
  destruct (split sep s) as [|w ws]; simpl in *; [discriminate|].
  by injection IH as ->.
Qed.

Lemma startswith_command file :
  startswith file "command_" = true -> exists rest, file = "command_" +:+ rest.
Proof.
  unfold startswith. intros Hp.
  do 8 (destruct file as [|? file]; simpl in Hp; [discriminate|];
        match type of Hp with
        | (if ?c then _ else _) = true => destruct c as [<-|]; [|discriminate]
        end).
  by exists file.
Qed.

Lemma extract_command_id_prefixed rest :
  extract_command_id ("command_" +:+ rest) = Some (before "." (before "_" rest)).
Proof.
  unfold extract_command_id.
  change (split "_" ("command_" +:+ rest)) with ("command" :: split "_" rest).
  change (("command" :: split "_" rest) !! 1%nat) with (split "_" rest !! 0%nat).
  rewrite split_head. apply split_head.
Qed.

(** Every file the loop accepts has an id: the IndexError cannot occur. *)
Lemma command_file_has_id file :
  is_command_file file = true -> exists id, extract_command_id file = Some id.
Proof.
  unfold is_command_file. intros [Hs _]%andb_prop.
  destruct (startswith_command file Hs) as [rest ->].
  rewrite extract_command_id_prefixed. eauto.
Qed.







Lemma append_json_inj a b : a +:+ ".json" = b +:+ ".json" -> a = b.
Proof.
  revert b. induction a as [|c a IH]; intros [|d b]; simpl; intros Heq.
  - reflexivity.
  - exfalso. injection Heq as Hc Hrest.
    destruct b as [|? [|? [|? [|? [|? ?]]]]]; simpl in Hrest; discriminate.
  - exfalso. injection Heq as Hc Hrest.
    destruct a as [|? [|? [|? [|? [|? ?]]]]]; simpl in Hrest; discriminate.
  - injection Heq as -> Hrest. f_equal. by apply IH.
Qed.


Lemma processed_name_inj a b : processed_name a = processed_name b -> a = b.
Proof. unfold processed_name. intros [= Heq]. by apply append_json_inj. Qed.

Lemma response_not_processed a b : response_name a <> processed_name b.
Proof. discriminate. Qed.

Lemma command_file_not_response file id :
  is_command_file file = true -> file <> response_name id.
Proof.
  unfold is_command_file. intros [Hs _]%andb_prop.
  destruct (startswith_command file Hs) as [rest ->]. discriminate.
Qed.

Lemma command_file_not_processed file id :
  is_command_file file = true -> file <> processed_name id.
Proof.
  unfold is_command_file. intros [Hs _]%andb_prop.
  destruct (startswith_command file Hs) as [rest ->]. discriminate.
Qed.

Lemma log_name_cases name :
  Protocol.is_log_name name = true ->
  name = "command_message_debug.txt" \/ name = "message_command_debug.txt".
Proof.
  unfold Protocol.is_log_name. intros [E|E]%orb_prop; apply String.eqb_eq in E; auto.
Qed.

Lemma log_name_not_response name id :
  Protocol.is_log_name name = true -> name <> response_name id.
Proof. intros [-> | ->]%log_name_cases; discriminate. Qed.

Lemma log_name_not_processed name id :
  Protocol.is_log_name name = true -> name <> processed_name id.
Proof. intros [-> | ->]%log_name_cases; discriminate. Qed.

End NameFacts.


(* ===================================================================== *)
(** ** Results: the poller *)
(* ===================================================================== *)

Module PollerFacts.
Import PyStr Names Py Poller Protocol NameFacts.

Section Journal.
Context `{Platform H}.
Implicit Types (w : world H) (evs : list event) (fs : gmap path string).

Lemma replay_app fs evs1 evs2 :
  replay fs (evs1 ++ evs2) = replay (replay fs evs1) evs2.
Proof. apply foldl_app. Qed.

Lemma journal_refl w : journal w w [].
Proof. split; [by rewrite app_nil_r | reflexivity]. Qed.

Lemma journal_trans w1 w2 w3 evs1 evs2 :
  journal w1 w2 evs1 -> journal w2 w3 evs2 -> journal w1 w3 (evs1 ++ evs2).
Proof.
  intros [L1 F1] [L2 F2]. split.
  - by rewrite L2, L1, app_assoc.
  - by rewrite F2, F1, replay_app.
Qed.

Lemma journal_emit ev w : journal w (emit ev w).2 [ev].
Proof. by split. Qed.

Lemma quietly_ret {A} (a : A) : quietly (mret a : M H A).
Proof. intros w. exists []. split; [apply journal_refl | constructor]. Qed.

Lemma quietly_raise {A} (e : exn) : quietly (raise e : M H A).
Proof. intros w. exists []. split; [apply journal_refl | constructor]. Qed.

Lemma quietly_lift {A} (o : outcome A) : quietly (lift o : M H A).
Proof. intros w. exists []. split; [apply journal_refl | constructor]. Qed.

Lemma quietly_bind {A B} (m : M H A) (k : A -> M H B) :
  quietly m -> (forall a, quietly (k a)) -> quietly (m ≫= k).
Proof.
  intros Hm Hk w. destruct (Hm w) as (evs1 & J1 & Q1).
  unfold mbind, M_bind, bind. destruct (m w) as [[a|e] w1]; simpl in *.
  - destruct (Hk a w1) as (evs2 & J2 & Q2).
    exists (evs1 ++ evs2). split; [by eapply journal_trans | by apply Forall_app].
  - by exists evs1.
Qed.

Lemma quietly_try_catch {A} (m : M H A) (handler : exn -> M H A) :
  quietly m -> (forall e, quietly (handler e)) -> quietly (try_catch m handler).
Proof.
  intros Hm Hh w. destruct (Hm w) as (evs1 & J1 & Q1).
  unfold try_catch. destruct (m w) as [[a|e] w1]; simpl in *.
  - by exists evs1.
  - destruct (Hh e w1) as (evs2 & J2 & Q2).
    exists (evs1 ++ evs2). split; [by eapply journal_trans | by apply Forall_app].
Qed.

Lemma quietly_emit ev : quiet ev -> quietly (emit ev).
Proof.
  intros Hq w. exists [ev]. split; [apply journal_emit | by constructor].
Qed.

Lemma quietly_print text : quietly (print text).
Proof. by apply quietly_emit. Qed.

Lemma quietly_append dir name text :
  is_log_name name = true -> quietly (append_file (dir, name) text).
Proof. intros Hn. by apply quietly_emit. Qed.

Lemma quietly_host_try call args f : quietly (host_try call args f).
Proof.
  intros w. exists [Host call args]. unfold host_try.
  destruct (f (host w)) as [o h]. split; [by split | by constructor].
Qed.

Lemma quietly_host_call call args f : quietly (host_call call args f).
Proof.
  intros w. exists [Host call args]. unfold host_call.
  destruct (f (host w)) as [v h]. split; [by split | by constructor].
Qed.

Lemma quietly_ctime : quietly ctime.
Proof. intros w. exists []. split; [apply journal_refl | constructor]. Qed.

Lemma quietly_now : quietly now.
Proof. intros w. exists []. split; [apply journal_refl | constructor]. Qed.

Lemma quietly_now_millis : quietly now_millis.
Proof. intros w. exists []. split; [apply journal_refl | constructor]. Qed.

Lemma quietly_py_get v key default : quietly (py_get v key default).
Proof. destruct v; first [apply quietly_raise | apply quietly_ret]. Qed.

End Journal.

(** Break a computation into its steps, down to the primitives. *)
Ltac quiet_steps :=
  repeat first
    [ apply quietly_ret | apply quietly_raise | apply quietly_lift
    | apply quietly_print | apply quietly_ctime | apply quietly_now
    | apply quietly_now_millis
    | apply quietly_py_get | apply quietly_host_try | apply quietly_host_call
    | apply quietly_append; reflexivity
    | apply quietly_bind; [|intros ?]
    | apply quietly_try_catch; [|intros ?]
    | match goal with |- quietly (if ?b then _ else _) => destruct b end ].

Section Handlers.
Context `{Platform H}.
Variable workspace_comm_dir : string.

Lemma create_message_box_command_quiet message :
  quietly (create_message_box_command workspace_comm_dir message).
Proof. unfold create_message_box_command. quiet_steps. Qed.

Lemma handle_message_box_quiet params :
  quietly (handle_message_box workspace_comm_dir params).
Proof.
  unfold handle_message_box.
  pose proof create_message_box_command_quiet.
  quiet_steps; auto.
Qed.

Lemma handle_read_resource_quiet params : quietly (handle_read_resource params).
Proof. unfold handle_read_resource. quiet_steps. Qed.

Lemma handle_get_prompt_quiet params : quietly (handle_get_prompt params).
Proof. unfold handle_get_prompt. quiet_steps. Qed.

(** Whatever command is dispatched, the handler writes no protocol
    file, renames nothing and deletes nothing. *)
Lemma handle_command_quiet command params :
  quietly (handle_command workspace_comm_dir command params).
Proof.
  unfold handle_command.
  pose proof handle_message_box_quiet.
  pose proof handle_read_resource_quiet.
  pose proof handle_get_prompt_quiet.
  quiet_steps; auto.
Qed.

End Handlers.

Section Store.
Context `{Platform H}.
Implicit Types (w : world H) (evs : list event) (fs : gmap path string).

(** Quiet events delete nothing. *)
Lemma quiet_event_keeps_files fs ev p :
  quiet ev -> is_Some (fs !! p) -> is_Some (apply_event fs ev !! p).
Proof.
  destruct ev as [| | | |q text| |]; simpl; try done.
  intros _ Hp. destruct (decide (q = p)) as [->|Hne].
  - rewrite lookup_insert_eq. eauto.
  - by rewrite lookup_insert_ne.
Qed.

Lemma quiet_events_keep_files fs evs p :
  Forall quiet evs -> is_Some (fs !! p) -> is_Some (replay fs evs !! p).
Proof.
  intros Hq. revert fs. induction Hq as [|ev evs Hev _ IH]; intros fs Hp; [done|].
  apply IH. by apply quiet_event_keeps_files.
Qed.

(** Quiet events leave every file alone that is not a debug log. *)
Lemma quiet_event_frame fs ev dir name :
  quiet ev -> is_log_name name = false ->
  apply_event fs ev !! (dir, name) = fs !! (dir, name).
Proof.
  destruct ev as [| | | |q text| |]; simpl; try done.
  intros Hq Hn. apply lookup_insert_ne. intros ->. simpl in Hq. congruence.
Qed.

Lemma quiet_events_frame fs evs dir name :
  Forall quiet evs -> is_log_name name = false ->
  replay fs evs !! (dir, name) = fs !! (dir, name).
Proof.
  intros Hq Hn. revert fs. induction Hq as [|ev evs Hev _ IH]; intros fs; [done|].
  simpl. rewrite IH. by apply quiet_event_frame.
Qed.

Lemma path_ne (dir dir' a b : string) : a <> b -> (dir, a) <> (dir', b).
Proof. congruence. Qed.

Lemma response_name_not_log id : is_log_name (response_name id) = false.
Proof. reflexivity. Qed.

Lemma processed_name_not_log id : is_log_name (processed_name id) = false.
Proof. reflexivity. Qed.

Lemma quiet_event_keeps_answered fs ev :
  quiet ev -> tombstones_answered fs -> tombstones_answered (apply_event fs ev).
Proof.
  intros Hq Hinv dir id.
  rewrite (quiet_event_frame fs ev dir _ Hq (processed_name_not_log id)).
  rewrite (quiet_event_frame fs ev dir _ Hq (response_name_not_log id)).
  apply Hinv.
Qed.

Lemma states_along_app fs evs1 evs2 (P : gmap path string -> Prop) :
  Forall P (states_along fs evs1) ->
  Forall P (states_along (replay fs evs1) evs2) ->
  Forall P (states_along fs (evs1 ++ evs2)).
Proof.
  revert fs. induction evs1 as [|ev evs1 IH]; intros fs H1 H2; simpl in *.
  - exact H2.
  - inversion H1; subst. constructor; [done|]. by apply IH.
Qed.

Lemma states_along_quiet fs evs :
  Forall quiet evs -> tombstones_answered fs ->
  Forall tombstones_answered (states_along fs evs).
Proof.
  intros Hq. revert fs. induction Hq as [|ev evs Hev _ IH]; intros fs Hinv; simpl.
  - by constructor.
  - constructor; [done|]. apply IH. by apply quiet_event_keeps_answered.
Qed.

Lemma replay_quiet_keeps_answered fs evs :
  Forall quiet evs -> tombstones_answered fs -> tombstones_answered (replay fs evs).
Proof.
  intros Hq. revert fs. induction Hq as [|ev evs Hev _ IH]; intros fs Hinv; [done|].
  apply IH. by apply quiet_event_keeps_answered.
Qed.

(** Writing a response breaks nothing. *)
Lemma dump_response_keeps_answered fs dir id doc :
  tombstones_answered fs ->
  tombstones_answered (apply_event fs (Dump (dir, response_name id) doc)).
Proof.
  intros Hinv dir' id'. simpl.
  rewrite lookup_insert_ne by apply path_ne, response_not_processed.
  intros Hp. destruct (decide ((dir, response_name id) = (dir', response_name id'))) as [->|Hne].
  - rewrite lookup_insert_eq. eauto.
  - rewrite lookup_insert_ne by done. by apply (Hinv dir' id').
Qed.

(** Renaming a command file to its tombstone is safe once the response
    is there. *)
Lemma rename_keeps_answered fs dir file id :
  is_command_file file = true ->
  is_Some (fs !! (dir, response_name id)) ->
  tombstones_answered fs ->
  tombstones_answered
    (apply_event fs (Rename (dir, file) (dir, processed_name id))).
Proof.
  intros Hfile Hresp Hinv dir' id'. simpl.
  destruct (fs !! (dir, file)) as [body|] eqn:Hbody; [|exact (Hinv dir' id')].
  assert (Hkeep : forall d i,
             is_Some (fs !! (d, response_name i)) ->
             is_Some (<[(dir, processed_name id) := body]> (delete (dir, file) fs)
                        !! (d, response_name i))).
  { intros d i Hs.
    rewrite lookup_insert_ne
      by (apply path_ne; intros E; by destruct (response_not_processed i id)).
    rewrite lookup_delete_ne; [done|].
    by apply path_ne, command_file_not_response. }
  destruct (decide ((dir, processed_name id) = (dir', processed_name id'))) as [E|Hne].
  - apply pair_equal_spec in E as [<- E]. apply processed_name_inj in E as <-.
    intros _. by apply Hkeep.
  - rewrite lookup_insert_ne by done. intros Hp. apply Hkeep, (Hinv dir' id').
    by rewrite lookup_delete_ne in Hp
      by by apply path_ne, command_file_not_processed.
Qed.

End Store.

Section Visit.
Context `{Platform H}.
Variable workspace_comm_dir : string.
Implicit Types (w : world H) (evs : list event).

Lemma run_bind {A B} (m : M H A) (k : A -> M H B) w :
  (m ≫= k) w =
    match m w with
    | (Ret a, w') => k a w'
    | (Raise e, w') => (Raise e, w')
    end.
Proof. reflexivity. Qed.

Lemma run_ret {A} (a : A) w : (mret a : M H A) w = (Ret a, w).
Proof. reflexivity. Qed.

Lemma run_emit ev w : emit ev w = (Ret tt, (emit ev w).2).
Proof. reflexivity. Qed.

Lemma run_print text w : print text w = (Ret tt, (emit (Print text) w).2).
Proof. reflexivity. Qed.

Lemma run_print_exc e w : print_exc e w = (Ret tt, (emit (Traceback e) w).2).
Proof. reflexivity. Qed.

Lemma run_dump_file p doc w : dump_file p doc w = (Ret tt, (emit (Dump p doc) w).2).
Proof. reflexivity. Qed.

Lemma run_rename src dst w :
  is_Some (files w !! src) ->
  rename src dst w = (Ret tt, (emit (Rename src dst) w).2).
Proof. intros [body Hbody]. unfold rename. by rewrite Hbody. Qed.

Lemma run_path_exists_false p w :
  ~ is_Some (files w !! p) -> path_exists p w = (Ret false, w).
Proof. intros Hp. unfold path_exists. by rewrite (bool_decide_eq_false_2 _ Hp). Qed.


Lemma quietly_read_file p : quietly (read_file (H:=H) p).
Proof.
  intros w. exists []. unfold read_file.
  destruct (files w !! p); (split; [apply journal_refl | constructor]).
Qed.

Lemma compute_result_quiet command_file command_id :
  quietly (compute_result workspace_comm_dir command_file command_id).
Proof.
  unfold compute_result.
  pose proof quietly_read_file. pose proof (handle_command_quiet workspace_comm_dir).
  quiet_steps; auto.
Qed.

(** A result can only come from a file that was there to be read. *)
Lemma compute_result_reads command_file command_id w result :
  (compute_result workspace_comm_dir command_file command_id w).1 = Ret result ->
  is_Some (files w !! command_file).
Proof.
  unfold compute_result, mbind, M_bind, bind, read_file.
  destruct (files w !! command_file); [eauto | discriminate].
Qed.

(** A request that is marked is skipped, and nothing happens at all. *)
Lemma visit_marked dir file id w :
  is_command_file file = true ->
  extract_command_id file = Some id ->
  marked (files w) dir id ->
  visit workspace_comm_dir dir file w = (Ret tt, w).
Proof.
  intros Hfile Hid Hmarked. unfold visit. rewrite Hfile, Hid.
  unfold try_catch, mbind, M_bind, bind, path_exists.
  destruct Hmarked as [Hp|Hr].
  - by rewrite (bool_decide_eq_true_2 _ Hp).
  - rewrite (bool_decide_eq_true_2 _ Hr). by rewrite orb_true_r.
Qed.

(** A request that is not marked is handled: quiet events, then the
    closing response; and the visit returns. *)
Lemma visit_unmarked dir file id w :
  is_command_file file = true ->
  extract_command_id file = Some id ->
  ~ marked (files w) dir id ->
  exists quiet_evs close w',
    visit workspace_comm_dir dir file w = (Ret tt, w')
    /\ journal w w' (quiet_evs ++ close)
    /\ Forall quiet quiet_evs
    /\ closing dir file id close
    /\ (forall result w1,
          compute_result workspace_comm_dir (dir, file) id
            (emit (Print ("Processing command file: " +:+ path_str (dir, file))) w).2
          = (Ret result, w1) ->
          close = [ Dump (dir, response_name id) (JObj [("result", result)])
                  ; Rename (dir, file) (dir, processed_name id) ]).
Proof.
  intros Hfile Hid Hfree. unfold visit. rewrite Hfile, Hid.
  assert (Hp : ~ is_Some (files w !! (dir, processed_name id)))
    by (intros ?; apply Hfree; by left).
  assert (Hr : ~ is_Some (files w !! (dir, response_name id)))
    by (intros ?; apply Hfree; by right).
  unfold try_catch at 1.
  rewrite run_bind, (run_path_exists_false _ _ Hp).
  rewrite run_bind, (run_path_exists_false _ _ Hr). cbn [orb].
  rewrite run_bind, run_print.
  set (start := Print _). set (w0 := (emit start w).2).
  assert (J0 : journal w w0 [start]) by apply journal_emit.
  unfold try_catch_json, dispatch. rewrite run_bind.
  destruct (compute_result_quiet (dir, file) id w0) as (evs & J1 & Q1).
  pose proof (compute_result_reads (dir, file) id w0) as Hread.
  destruct (compute_result workspace_comm_dir (dir, file) id w0) as [[result|e] w1];
    simpl in J1, Hread.
  - (* a result: write it, then rename *)
    specialize (Hread result eq_refl).
    rewrite run_bind, run_dump_file.
    set (answer := Dump _ _). set (w2 := (emit answer w1).2).
    assert (Hthere : is_Some (files w2 !! (dir, file))).
    { subst w2 answer. simpl.
      rewrite lookup_insert_ne by (apply path_ne; intros E; symmetry in E;
                                   by destruct (command_file_not_response file id Hfile)).
      destruct J1 as [_ ->]. by apply quiet_events_keep_files. }
    rewrite (run_rename _ _ _ Hthere).
    set (claim := Rename _ _).
    exists (start :: evs), [answer; claim]; eexists. split; [reflexivity|]. split.
    + change (start :: evs) with ([start] ++ evs). rewrite <- app_assoc.
      eapply journal_trans; [exact J0|]. eapply journal_trans; [exact J1|].
      change [answer; claim] with ([answer] ++ [claim]).
      eapply journal_trans; apply journal_emit.
    + split; [by constructor|]. split; [constructor|].
      by intros result' w1' [= <- <-].
  - (* an exception *)
    destruct e as [[] msg].
    1: { (* json.JSONDecodeError: the handler of the inner try *)
      rewrite run_bind, run_print, run_dump_file.
      set (note := Print _). set (w2 := (emit note w1).2).
      exists (start :: evs ++ [note]), [Dump (dir, response_name id)
                 (JObj [("error", JStr ("Invalid JSON format: " +:+ msg))])].
      eexists. split; [reflexivity|]. split.
      * change (start :: evs ++ [note]) with ([start] ++ (evs ++ [note])).
        rewrite <- !app_assoc.
        eapply journal_trans; [exact J0|]. eapply journal_trans; [exact J1|].
        eapply journal_trans; apply journal_emit.
      * split; [|split; [constructor | discriminate]].
        constructor; [done|]. apply Forall_app. split; [done | by constructor]. }
    (* any other exception: the handler of the outer try *)
    all: rewrite run_bind, run_print, run_bind, run_print_exc;
        set (note := Print _); set (w2 := (emit note w1).2);
        set (tb := Traceback _); set (w3 := (emit tb w2).2);
        unfold try_catch; rewrite run_dump_file;
        exists (start :: evs ++ [note; tb]),
          [Dump (dir, response_name id) (JObj [("error", JStr msg)])];
        eexists; (split; [reflexivity|]); split;
        [ change (start :: evs ++ [note; tb]) with ([start] ++ (evs ++ [note] ++ [tb]));
          rewrite <- !app_assoc;
          eapply journal_trans; [exact J0|]; eapply journal_trans; [exact J1|];
          eapply journal_trans; [apply journal_emit|];
          eapply journal_trans; apply journal_emit
        | split; [|split; [constructor | discriminate]];
          constructor; [done|]; apply Forall_app; split; [done | by repeat constructor] ].
Qed.

End Visit.

Section Claims.
Context `{Platform H}.
Variable workspace_comm_dir : string.
Implicit Types (w : world H) (evs : list event).

(** The shape of every visit: it returns; it makes quiet events and then
    either nothing more, or the closing response of the request. *)
Lemma visit_shape dir file w :
  exists quiet_evs close w',
    visit workspace_comm_dir dir file w = (Ret tt, w')
    /\ journal w w' (quiet_evs ++ close)
    /\ Forall quiet quiet_evs
    /\ (close = []
        \/ exists id, is_command_file file = true
                      /\ extract_command_id file = Some id
                      /\ closing dir file id close)
    /\ (forall id result w1,
          is_command_file file = true ->
          extract_command_id file = Some id ->
          ~ marked (files w) dir id ->
          compute_result workspace_comm_dir (dir, file) id
            (emit (Print ("Processing command file: " +:+ path_str (dir, file))) w).2
          = (Ret result, w1) ->
          close = [ Dump (dir, response_name id) (JObj [("result", result)])
                  ; Rename (dir, file) (dir, processed_name id) ]).
Proof.
  destruct (is_command_file file) eqn:Hfile.
  2: { exists [], [], w. unfold visit. rewrite Hfile.
       split; [reflexivity|]. split; [apply journal_refl|]. split; [constructor|].
       split; [by left | discriminate]. }
  destruct (command_file_has_id file Hfile) as [id Hid].
  destruct (files w !! (dir, processed_name id)) as [done_before|] eqn:Hp.
  { exists [], [], w. split.
    { apply (visit_marked _ dir file id w Hfile Hid). left. by rewrite Hp. }
    split; [apply journal_refl|]. split; [constructor|]. split; [by left|].
    intros id' ? ? _ Hid' Hfree. exfalso. apply Hfree. left.
    replace id' with id by congruence. by rewrite Hp. }
  destruct (files w !! (dir, response_name id)) as [answered|] eqn:Hr.
  { exists [], [], w. split.
    { apply (visit_marked _ dir file id w Hfile Hid). right. by rewrite Hr. }
    split; [apply journal_refl|]. split; [constructor|]. split; [by left|].
    intros id' ? ? _ Hid' Hfree. exfalso. apply Hfree. right.
    replace id' with id by congruence. by rewrite Hr. }
  destruct (visit_unmarked workspace_comm_dir dir file id w Hfile Hid)
    as (quiet_evs & close & w' & Hrun & Hj & Hquiet & Hclose & Hresult).
  { intros [[? E]|[? E]]; congruence. }
  exists quiet_evs, close, w'.
  split; [done|]. split; [done|]. split; [done|]. split; [right; by exists id|].
  intros id' result w1 _ Hid' _. replace id' with id by congruence. apply Hresult.
Qed.



Lemma insert_keeps_file (fs : gmap path string) (p q : path) (body : string) :
  is_Some (fs !! p) -> is_Some (<[q := body]> fs !! p).
Proof.
  intros Hp. destruct (decide (q = p)) as [->|Hne].
  - rewrite lookup_insert_eq. eauto.
  - by rewrite lookup_insert_ne.
Qed.

(** The events that close a request delete nothing but its command
    file. *)
Lemma closing_keeps_files (fs : gmap path string) dir file id close name dir' :
  is_command_file file = true ->
  closing dir file id close ->
  is_command_file name = false ->
  is_Some (fs !! (dir', name)) -> is_Some (replay fs close !! (dir', name)).
Proof.
  intros Hfile Hclose Hname Hthere. destruct Hclose as [result|text]; simpl.
  - destruct (<[(dir, response_name id):=_]> fs !! (dir, file)) as [body|].
    + apply insert_keeps_file. rewrite lookup_delete_ne by (apply path_ne; congruence).
      by apply insert_keeps_file.
    + by apply insert_keeps_file.
  - by apply insert_keeps_file.
Qed.

Lemma response_name_not_command id : is_command_file (response_name id) = false.
Proof. reflexivity. Qed.

Lemma processed_name_not_command id : is_command_file (processed_name id) = false.
Proof. reflexivity. Qed.

(** A mark, once set, survives the visit of any file. *)
Lemma visit_keeps_marked dir id dir' file' w :
  marked (files w) dir id ->
  marked (files (visit workspace_comm_dir dir' file' w).2) dir id.
Proof.
  intros Hmarked.
  destruct (visit_shape dir' file' w)
    as (quiet_evs & close & w' & -> & [_ Hfiles] & Hquiet & Hclose & _).
  cbn [snd]. rewrite Hfiles, replay_app.
  assert (Hkeep : forall name,
             is_command_file name = false ->
             is_Some (files w !! (dir, name)) ->
             is_Some (replay (replay (files w) quiet_evs) close !! (dir, name))).
  { intros name Hname Hthere.
    pose proof (quiet_events_keep_files _ _ _ Hquiet Hthere) as Hthere'.
    destruct Hclose as [->|(id' & Hfile' & _ & Hclose)]; [exact Hthere'|].
    by eapply closing_keeps_files. }
  destruct Hmarked as [Hp|Hr]; [left | right]; by apply Hkeep.
Qed.

Lemma scan_cons dir file rest w :
  scan workspace_comm_dir dir (file :: rest) w
  = scan workspace_comm_dir dir rest (visit workspace_comm_dir dir file w).2.
Proof.
  unfold scan. cbn [for_each]. rewrite run_bind.
  destruct (visit_shape dir file w) as (? & ? & w' & -> & _). reflexivity.
Qed.

(** A mark survives the scan of any listing. *)
Lemma scan_keeps_marked dir id listing w :
  marked (files w) dir id ->
  marked (files (scan workspace_comm_dir dir listing w).2) dir id.
Proof.
  revert w. induction listing as [|file rest IH]; intros w Hmarked; [exact Hmarked|].
  rewrite scan_cons. by apply IH, visit_keeps_marked.
Qed.

Lemma quiet_events_dump_nothing evs :
  Forall quiet evs -> response_documents evs = [].
Proof.
  induction 1 as [|ev evs Hev _ IH]; [reflexivity|].
  unfold response_documents in *. cbn [omap list_omap]. rewrite IH.
  by destruct ev.
Qed.

(** C5.  The two effects of handling a command file come in one order.
    A visit makes events that touch no protocol file and then closes with
    the response alone or with the response followed by one rename of the
    command file to its tombstone; the rename is never the first of the
    two, and the tombstone comes from that one [os.rename], never from a
    delete and a create.  Whenever a result was computed for the request,
    the visit closes with exactly that pair.  And if no directory holds a
    tombstone without a response before the visit, none does in any state
    the directory goes through during it. *)
Theorem response_is_written_before_the_rename dir file w :
  tombstones_answered (files w) ->
  exists quiet_evs close w',
    visit workspace_comm_dir dir file w = (Ret tt, w')
    /\ journal w w' (quiet_evs ++ close)
    /\ Forall quiet quiet_evs
    /\ (close = []
        \/ exists id, extract_command_id file = Some id
                      /\ closing dir file id close)
    /\ (forall id result w1,
          is_command_file file = true ->
          extract_command_id file = Some id ->
          ~ marked (files w) dir id ->
          compute_result workspace_comm_dir (dir, file) id
            (emit (Print ("Processing command file: " +:+ path_str (dir, file))) w).2
          = (Ret result, w1) ->
          close = [ Dump (dir, response_name id) (JObj [("result", result)])
                  ; Rename (dir, file) (dir, processed_name id) ])
    /\ Forall tombstones_answered (states_along (files w) (quiet_evs ++ close)).
Proof.
  intros Hinv.
  destruct (visit_shape dir file w)
    as (quiet_evs & close & w' & Hrun & Hj & Hquiet & Hclose & Hresult).
  exists quiet_evs, close, w'.
  split; [done|]. split; [done|]. split; [done|]. split.
  { destruct Hclose as [->|(id & _ & Hid & Hclose)]; [by left | right; by exists id]. }
  split; [exact Hresult|].
  apply states_along_app; [by apply states_along_quiet|].
  pose proof (replay_quiet_keeps_answered _ _ Hquiet Hinv) as Hinv'.
  revert Hinv'. generalize (replay (files w) quiet_evs). intros fs Hinv'.
  destruct Hclose as [->|(id & Hfile & Hid & [result|text])]; cbn [states_along].
  - by repeat constructor.
  - pose proof (dump_response_keeps_answered fs dir id (JObj [("result", result)]) Hinv')
      as Hdump.
    repeat constructor; [done..|].
    apply rename_keeps_answered; [done| |done].
    cbn [apply_event]. rewrite lookup_insert_eq. eauto.
  - repeat constructor; [done|]. by apply dump_response_keeps_answered.
Qed.

(** C6.  Every response document a visit writes, on the success path, on
    the parse-failure path and on the path of any other exception, has
    exactly one of the keys [result] and [error]. *)
Theorem responses_carry_exactly_one_of_result_error dir file w :
  exists evs,
    log (visit workspace_comm_dir dir file w).2 = log w ++ evs
    /\ Forall (fun doc => exactly_one_of_result_error doc = true)
              (response_documents evs).
Proof.
  destruct (visit_shape dir file w)
    as (quiet_evs & close & w' & -> & [Hlog _] & Hquiet & Hclose & _).
  exists (quiet_evs ++ close). split; [exact Hlog|].
  unfold response_documents. rewrite omap_app.
  fold (response_documents quiet_evs). rewrite (quiet_events_dump_nothing _ Hquiet).
  destruct Hclose as [->|(id & _ & _ & [result|text])]; by repeat constructor.
Qed.


End Claims.

End PollerFacts.


(* ===================================================================== *)
(** ** Closed examples on the small platform *)
(* ===================================================================== *)

Module Examples.
Import Names Py Poller Protocol Fixture PollerFacts.

(** A directory that holds one command file holds no tombstone without
    a response. *)
Lemma single_command_answered text :
  tombstones_answered (files (world_with [((dir, "command_7.json"), text)])).
Proof.
  intros dir' id. unfold world_with. cbn [files list_to_map foldr uncurry fst snd].
  rewrite lookup_insert_ne by (apply path_ne; discriminate).
  rewrite lookup_empty. intros [? E]. discriminate.
Qed.

(** A pending request in a directory with no tombstone at all. *)
Lemma response_before_rename_example :
  exists quiet_evs close w',
    visit dir dir "command_7.json" pending_tools = (Ret tt, w')
    /\ journal pending_tools w' (quiet_evs ++ close)
    /\ Forall quiet quiet_evs
    /\ (close = []
        \/ exists id, extract_command_id "command_7.json" = Some id
                      /\ closing dir "command_7.json" id close)
    /\ (forall id result w1,
          is_command_file "command_7.json" = true ->
          extract_command_id "command_7.json" = Some id ->
          ~ marked (files pending_tools) dir id ->
          compute_result dir (dir, "command_7.json") id
            (emit (Print ("Processing command file: "
                            +:+ path_str (dir, "command_7.json"))) pending_tools).2
          = (Ret result, w1) ->
          close = [ Dump (dir, response_name id) (JObj [("result", result)])
                  ; Rename (dir, "command_7.json") (dir, processed_name id) ])
    /\ Forall tombstones_answered
              (states_along (files pending_tools) (quiet_evs ++ close)).
Proof.
  apply (response_is_written_before_the_rename dir dir "command_7.json" pending_tools).
  apply single_command_answered.
Defined.

(** The events of handling the pending request: the response, then the
    rename. *)
Lemma known_command_events :
  log (visit dir dir "command_7.json" pending_tools).2 =
  [ Print "Processing command file: mcp_comm/command_7.json"
  ; Print "Processing command 7: list_tools with params dict"
  ; Dump (dir, "response_7.json") (JObj [("result", list_tools_result)])
  ; Rename (dir, "command_7.json") (dir, "processed_command_7.json") ].
Proof. vm_compute. reflexivity. Qed.

End Examples.

(* ===================================================================== *)
(** ** More results: start and stop *)
(* ===================================================================== *)

Module LifecycleMore.
Import Py Lifecycle AddIn LifecycleFacts.

Lemma server_thread_alive_act a p : server_thread_alive (act a p) = server_thread_alive p.
Proof. reflexivity. Qed.

Lemma is_alive_after_grace spawned (p : process) :
  threads p ServerThread = spawned ->
  is_alive (threads (advance 1000 p) ServerThread) = survives_grace spawned.
Proof.
  intros <-. rewrite advance_server_thread. unfold survives_grace.
  destruct (threads p ServerThread) as [|[todo|] ending|]; try reflexivity.
  destruct (todo <=? 1000)%nat eqn:E; simpl.
  - apply Nat.leb_le in E. symmetry. apply Nat.ltb_ge. lia.
  - apply Nat.leb_gt in E. symmetry. apply Nat.ltb_lt. lia.
Qed.

(** What a start does when the module has no live server thread. *)
Lemma start_server_fresh p spawned :
  server_thread_alive p = false ->
  exists q,
    start_server true spawned p = (survives_grace spawned, q)
    /\ globals q !! "server_running" = Some (VBool (survives_grace spawned))
    /\ globals q !! "server_thread" = Some (VThread ServerThread)
    /\ is_alive (threads q ServerThread) = survives_grace spawned
    /\ In (Start ServerThread) (trace q).
Proof.
  intros Hdead. unfold start_server. cbn [negb].
  rewrite server_thread_alive_act, Hdead, andb_false_r.
  set (p1 := act (Say "MCP server thread started") _).
  assert (Hg1 : globals (sleep 1000 p1)
                = <["server_thread" := VThread ServerThread]>
                    (<["server_running" := VBool true]> (globals p))).
  { unfold sleep. rewrite advance_globals. reflexivity. }
  assert (Hlive : is_alive (threads (sleep 1000 p1) ServerThread) = survives_grace spawned).
  { unfold sleep. apply is_alive_after_grace. reflexivity. }
  assert (Halive : server_thread_alive (sleep 1000 p1) = survives_grace spawned).
  { unfold server_thread_alive. by rewrite Hg1, lookup_insert_eq. }
  assert (Hstart : In (Start ServerThread) (trace (sleep 1000 p1))).
  { unfold sleep. destruct (advance_trace 1000 (act (Sleep 1000) p1)) as (acts & -> & _).
    subst p1. cbn [act trace]. rewrite !in_app_iff. simpl. tauto. }
  rewrite Halive. destruct (survives_grace spawned); cbn [negb]; eexists; (split; [reflexivity|]).
  - cbn [act set_global globals threads trace]. rewrite Hg1.
    split; [rewrite lookup_insert_ne by discriminate; apply lookup_insert_eq|].
    split; [apply lookup_insert_eq|]. split; [done|].
    rewrite in_app_iff. by left.
  - cbn [act set_global globals threads trace]. rewrite Hg1.
    split; [apply lookup_insert_eq|].
    split; [rewrite lookup_insert_ne by discriminate; apply lookup_insert_eq|].
    split; [done|]. rewrite in_app_iff. by left.
Qed.

(** X1.  A start that finds no live server thread sets the flag, spawns
    the thread, waits one second, and then returns whether the thread is
    still alive; when it returns, the flag of the module equals the value
    returned.  So a thread that dies within the grace period leaves the
    server reported as not started and the flag cleared, and a flag left
    set by a thread that died later does not keep the server from being
    started again. *)
Theorem start_server_returns_liveness_and_sets_flag p spawned :
  server_thread_alive p = false ->
  (start_server true spawned p).1 = survives_grace spawned
  /\ globals (start_server true spawned p).2 !! "server_running"
     = Some (VBool (survives_grace spawned))
  /\ is_alive (threads (start_server true spawned p).2 ServerThread)
     = survives_grace spawned
  /\ In (Start ServerThread) (trace (start_server true spawned p).2).
Proof.
  intros Hdead.
  destruct (start_server_fresh p spawned Hdead) as (q & -> & Hflag & _ & Hlive & Hstart).
  by repeat split.
Qed.

(** The module as loaded; the thread dies half a second after its start. *)
Lemma start_server_thread_dies_in_grace_example :
  (start_server true (Running (Some 500%nat) ReturnsFalse) fresh_process).1
  = survives_grace (Running (Some 500%nat) ReturnsFalse)
  /\ globals (start_server true (Running (Some 500%nat) ReturnsFalse) fresh_process).2
       !! "server_running"
     = Some (VBool (survives_grace (Running (Some 500%nat) ReturnsFalse)))
  /\ is_alive (threads (start_server true (Running (Some 500%nat) ReturnsFalse)
                                      fresh_process).2 ServerThread)
     = survives_grace (Running (Some 500%nat) ReturnsFalse)
  /\ In (Start ServerThread)
        (trace (start_server true (Running (Some 500%nat) ReturnsFalse) fresh_process).2).
Proof.
  apply (start_server_returns_liveness_and_sets_flag fresh_process).
  reflexivity.
Defined.

Lemma stop_server_clears_flag p :
  truthy (globals (stop_server p) !! "server_running") = false.
Proof.
  unfold stop_server.
  destruct (truthy (globals p !! "server_running")) eqn:Hflag; cbn [negb].
  - assert (Hset : globals (set_global "server_running" (VBool false) p)
                     !! "server_running" = Some (VBool false)) by apply lookup_insert_eq.
    destruct (truthy _ && server_thread_alive _); cbn [act globals].
    + unfold join. rewrite advance_globals. cbn [act globals]. by rewrite Hset.
    + by rewrite Hset.
  - exact Hflag.
Qed.

(** X3.  Stopping twice.  Whatever the state, a second [stop_server]
    right after the first only prints that the server is not running: it
    waits for no thread and changes no name of the module. *)
Theorem stop_server_twice_is_one_stop p :
  stop_server (stop_server p)
  = act (Say "MCP server is not running") (stop_server p).
Proof.
  unfold stop_server at 1. by rewrite stop_server_clears_flag.
Qed.

(** What the bare [except] of [stop_server_on_stop] leaves: the message
    box, the time it stayed open, and no thread waited for. *)
Lemma message_box_course text ms p :
  let q := advance ms (act (MessageBox text) p) in
  globals q = globals p
  /\ clock q = (clock p + ms)%nat
  /\ (exists acts, trace q = trace p ++ MessageBox text :: acts /\ joined acts = []).
Proof.
  cbv zeta. rewrite advance_globals, advance_clock.
  split; [reflexivity|]. split; [reflexivity|].
  destruct (advance_trace ms (act (MessageBox text) p)) as (acts & -> & Hj).
  exists acts. split; [|exact Hj]. cbn [act trace]. by rewrite <- app_assoc.
Qed.

(** X4.  [stop_server_on_stop] never leaves the flag set.  Where the
    workspace resolves and the shutdown log can be written, it takes no
    more than the two seconds of its one join.  When the flag was set and
    the workspace cannot be resolved, or the shutdown log cannot be
    written, the flag is cleared all the same, but the function gives up
    with a message box before it reaches the join: the server thread is
    not waited for, and the call lasts as long as the message box stays
    open. *)
Theorem stop_server_on_stop_clears_flag_and_may_skip_join
        format_exc e can_write dismissed_after p :
  let q := stop_server_on_stop format_exc e can_write dismissed_after p in
  truthy (globals q !! "server_running") = false
  /\ (truthy (globals p !! "server_running") = false -> q = p)
  /\ (forall workspace comm,
        Resolver.get_workspace_paths e = Ret (workspace, comm) ->
        can_write (Resolver.join comm "mcp_server_shutdown_log.txt") = true ->
        (clock q <= clock p + 2000)%nat)
  /\ (forall x,
        truthy (globals p !! "server_running") = true ->
        Resolver.get_workspace_paths e = Raise x ->
        (exists acts,
           trace q = trace p ++ [ Say "Stopping MCP server..."
                                ; MessageBox ("Failed:" +:+ Poller.nl +:+ format_exc x) ]
                             ++ acts
           /\ joined acts = [])
        /\ joined (trace q) = joined (trace p)
        /\ clock q = (clock p + dismissed_after)%nat)
  /\ (forall workspace comm,
        truthy (globals p !! "server_running") = true ->
        Resolver.get_workspace_paths e = Ret (workspace, comm) ->
        can_write (Resolver.join comm "mcp_server_shutdown_log.txt") = false ->
        joined (trace q) = joined (trace p)
        /\ clock q = (clock p + dismissed_after)%nat).
Proof.
  intros q. subst q. unfold stop_server_on_stop.
  destruct (truthy (globals p !! "server_running")) eqn:Hflag.
  2: { split; [exact Hflag|]. split; [done|]. split; [intros; lia|].
       split; intros; discriminate. }
  set (p1 := set_global "server_running" (VBool false)
                        (act (Say "Stopping MCP server...") p)).
  assert (Hp1 : globals p1 !! "server_running" = Some (VBool false))
    by apply lookup_insert_eq.
  assert (Hgave_up : forall text,
            let q := advance dismissed_after (act (MessageBox text) p1) in
            truthy (globals q !! "server_running") = false
            /\ (exists acts,
                  trace q = trace p ++ [Say "Stopping MCP server..."; MessageBox text] ++ acts
                  /\ joined acts = [])
            /\ joined (trace q) = joined (trace p)
            /\ clock q = (clock p + dismissed_after)%nat).
  { intros text.
    destruct (message_box_course text dismissed_after p1) as (Hg & Hc & acts & Ht & Hj).
    cbv zeta. rewrite Hg, Hc, Ht, Hp1. split; [reflexivity|].
    subst p1. cbn [act set_global trace clock].
    split; [exists acts; split; [by rewrite <- !app_assoc | exact Hj]|].
    split; [|reflexivity].
    change (MessageBox text :: acts) with ([MessageBox text] ++ acts).
    rewrite !joined_app, Hj. cbn. by rewrite !app_nil_r. }
  destruct (Resolver.get_workspace_paths e) as [[workspace comm]|x] eqn:Hres.
  2: { destruct (Hgave_up ("Failed:" +:+ Poller.nl +:+ format_exc x))
         as (Hcleared & Htrace & Hjoined & Hclock).
       split; [exact Hcleared|]. split; [discriminate|].
       split; [intros; discriminate|]. split.
       - by intros x' _ [= <-].
       - intros ? ? _ ?. discriminate. }
  destruct (Resolver.makedirs e comm) as [[]|x] eqn:Hmk.
  2: { exfalso. unfold Resolver.get_workspace_paths, Resolver.makedirs in *.
       destruct (Resolver.makedirs_ok e (Resolver.join (Resolver.choose_workspace e) "mcp_comm")) eqn:E1.
       - injection Hres as <- <-. by rewrite E1 in Hmk.
       - destruct (Resolver.makedirs_ok e (Resolver.join (Resolver.addon_path e) "mcp_comm")) eqn:E2;
           [|discriminate].
         injection Hres as <- <-. by rewrite E2 in Hmk. }
  destruct (can_write (Resolver.join comm "mcp_server_shutdown_log.txt")) eqn:Hw.
  - set (p2 := act (WriteFile "mcp_server_shutdown_log.txt") p1).
    assert (Hfinal : forall p3, globals p3 !! "server_running" = Some (VBool false) ->
               truthy (globals (act (Say "MCP server stopped") p3) !! "server_running") = false).
    { intros p3 E. cbn [act globals]. by rewrite E. }
    split.
    { apply Hfinal. destruct (truthy _ && server_thread_alive p2).
      - unfold join. by rewrite advance_globals.
      - exact Hp1. }
    split; [discriminate|].
    split.
    { intros ? ? _ _. cbn [act clock]. destruct (truthy _ && server_thread_alive p2).
      - pose proof (join_clock ServerThread 2000 p2) as Hc.
        subst p2 p1. cbn [act set_global clock] in *. lia.
      - subst p2 p1. simpl. lia. }
    split; [intros; discriminate|].
    intros ? ? _ [= <- <-] ?. congruence.
  - destruct (Hgave_up ("Failed:" +:+ Poller.nl
                          +:+ format_exc
                                (Exn OSError
                                   ("[Errno 13] Permission denied: '"
                                      +:+ Resolver.join comm "mcp_server_shutdown_log.txt"
                                      +:+ "'"))))
      as (Hcleared & _ & Hjoined & Hclock).
    split; [exact Hcleared|]. split; [discriminate|].
    split; [intros ? ? [= <- <-] ?; congruence|].
    split; [intros; discriminate|].
    by intros ? ? _ _ _.
Qed.

(** A server that runs on a volume where no directory can be created:
    stopping with the add-in clears the flag and shows a message box,
    and the server thread is not waited for; the call returns when the
    box is dismissed, here after three seconds. *)
Lemma stop_server_on_stop_unresolved_example :
  let q := stop_server_on_stop exn_str Resolver.read_only_env (fun _ => true)
             3000 busy_process in
  truthy (globals q !! "server_running") = false
  /\ joined (trace q) = []
  /\ clock q = (clock busy_process + 3000)%nat.
Proof.
  destruct (stop_server_on_stop_clears_flag_and_may_skip_join
              exn_str Resolver.read_only_env (fun _ => true) 3000 busy_process)
    as (Hflag & _ & _ & Hraise & _).
  destruct (Hraise _ eq_refl eq_refl) as (_ & Hjoined & Hclock).
  split; [exact Hflag|]. split; [|exact Hclock].
  cbv zeta. rewrite Hjoined. reflexivity.
Defined.

End LifecycleMore.

(* ===================================================================== *)
(** ** More results: the workspace resolver *)
(* ===================================================================== *)

Module ResolverExtras.
Import Py Resolver ResolverMore.

(** X5.  An override that is empty or names no existing directory is
    ignored without a word: the resolver returns what it returns when the
    variable is not set at all. *)
Theorem rejected_override_is_ignored (e : os_env) :
  override_accepted e = false ->
  get_workspace_paths e = get_workspace_paths (without_override e).
Proof.
  unfold override_accepted. intros Hrej.
  assert (Hsame : choose_workspace e = choose_workspace (without_override e)).
  { unfold choose_workspace, without_override. cbn [getenv_workspace isdir abspath addon_path].
    destruct (getenv_workspace e) as [env_path|]; [|reflexivity].
    by rewrite Hrej. }
  unfold get_workspace_paths, makedirs. rewrite Hsame. reflexivity.
Qed.

Lemma rejected_override_example :
  get_workspace_paths stale_override_env
  = get_workspace_paths (without_override stale_override_env).
Proof. apply rejected_override_is_ignored. reflexivity. Defined.

End ResolverExtras.

(* ===================================================================== *)
(** ** More results: the installer *)
(* ===================================================================== *)

Module InstallerFacts.
Import Installer.

Lemma installer_bind {A B} (c : R A) (k : A -> R B) st :
  (c ≫= k) st =
    match c st with
    | (inl a, st') => k a st'
    | (inr e, st') => (inr e, st')
    end.
Proof. reflexivity. Qed.

Lemma appends_nil {A} (c : state -> A * state) st :
  ran (c st).2 = ran st -> stdin (c st).2 = stdin st -> appends c st [].
Proof. intros Hr Hs. split; [by rewrite app_nil_r | done]. Qed.

(** Printing launches nothing and reads nothing. *)
Lemma print_keeps line st :
  print line st = (inl tt, State (ran st) (printed st ++ [line]) (stdin st)).
Proof. reflexivity. Qed.

(** Lines 89-93 launch the check for pip and, when it exits with a
    status other than 0, [ensurepip]. *)
Lemma ensure_pip_launches m python_path st :
  let o := m (ran st) (pip_version_cmd python_path) in
  let o' := m (ran st ++ [(pip_version_cmd python_path, o)]) (ensurepip_cmd python_path) in
  appends (ensure_pip m python_path) st
          ((pip_version_cmd python_path, o)
             :: (if exits_nonzero o then [(ensurepip_cmd python_path, o')] else []))
  /\ returns (ensure_pip m python_path st).1 = pip_ready o o'.
Proof.
  cbv zeta.
  unfold appends, ensure_pip, except_called, run, print, pip_ready,
    mbind, R_bind, mret, R_ret.
  destruct (m (ran st) (pip_version_cmd python_path)) as [[rc out err]|msg] eqn:E1; cbn.
  - destruct (rc =? 0)%Z; cbn.
    + by repeat split.
    + match goal with
      | |- context [m ?h (ensurepip_cmd python_path)] =>
          destruct (m h (ensurepip_cmd python_path)) as [[rc2 out2 err2]|msg2]
      end; cbn; [destruct (rc2 =? 0)%Z; cbn|];
        (split; [split; [by rewrite <- app_assoc | reflexivity] | reflexivity]).
  - by repeat split.
Qed.

(** Lines 111-126 launch one command, and raise only when it cannot be
    started. *)
Lemma install_uvicorn_launches m python_path st :
  let o := m (ran st) (install_uvicorn_cmd python_path) in
  appends (install_uvicorn m python_path) st [(install_uvicorn_cmd python_path, o)]
  /\ (starts o = true -> (install_uvicorn m python_path st).1 = inl tt)
  /\ (starts o = false -> exists e, (install_uvicorn m python_path st).1 = inr e).
Proof.
  unfold appends, install_uvicorn, except_called, run, print_opt, print,
    mbind, R_bind, mret, R_ret.
  destruct (m (ran st) (install_uvicorn_cmd python_path)) as [[rc out err]|msg]; cbn.
  - destruct (rc =? 0)%Z; cbn; [destruct (nonempty err); cbn|];
      (split; [by split|]); (split; [done | discriminate]).
  - split; [by split|]. split; [discriminate | eauto].
Qed.

(** Lines 129-142 launch one command and return whether it exited
    with 0. *)
Lemma verify_install_launches m python_path st :
  let o := m (ran st) (verify_cmd python_path) in
  appends (verify_install m python_path) st [(verify_cmd python_path, o)]
  /\ (starts o = true -> (verify_install m python_path st).1 = inl (exits_zero o))
  /\ (starts o = false -> exists e, (verify_install m python_path st).1 = inr e).
Proof.
  unfold appends, verify_install, run, print, mbind, R_bind, mret, R_ret.
  destruct (m (ran st) (verify_cmd python_path)) as [[rc out err]|msg]; cbn.
  - destruct (rc =? 0)%Z; cbn; (split; [by split|]); (split; [done | discriminate]).
  - split; [by split|]. split; [discriminate | eauto].
Qed.

Lemma install_mcp_of_body m python_path st :
  (install_mcp m python_path st).1 = verdict (install_mcp_body m python_path st).1
  /\ ran (install_mcp m python_path st).2 = ran (install_mcp_body m python_path st).2
  /\ stdin (install_mcp m python_path st).2 = stdin (install_mcp_body m python_path st).2.
Proof.
  unfold install_mcp.
  destruct (install_mcp_body m python_path st) as [[success|[out err|msg]] st']; by cbn.
Qed.

(** What one [subprocess.run] does. *)
Lemma run_launches m cmd check capture st :
  let o := m (ran st) cmd in
  (run m cmd check capture st).2
  = State (ran st ++ [(cmd, o)]) (printed st) (stdin st)
  /\ match (run m cmd check capture st).1 with
     | inl c => o = Exited c /\ (check = true -> returncode c = 0%Z)
     | inr _ => if check then exits_zero o = false else starts o = false
     end.
Proof.
  unfold run. cbv zeta.
  destruct (m (ran st) cmd) as [[rc out err]|msg]; cbn [returncode stdout stderr].
  - destruct check; cbn [andb].
    + destruct (rc =? 0)%Z eqn:Erc; cbn [negb fst snd exits_zero returncode].
      * apply Z.eqb_eq in Erc. by repeat split.
      * by split.
    + cbn. by repeat split.
  - cbn. split; [done|]. by destruct check.
Qed.

Lemma install_packages_course m python_path st :
  exists success new,
    packages_course m python_path (ran st) success new
    /\ appends (install_packages m python_path) st new
    /\ verdict (install_packages m python_path st).1 = success.
Proof.
  unfold appends, install_packages. rewrite installer_bind.
  destruct (run_launches m (install_mcp_cmd python_path) true true st) as [Hst1 Hres].
  cbv zeta in Hst1, Hres.
  destruct (run m (install_mcp_cmd python_path) true true st) as [[c|e] st1];
    cbn [fst snd] in Hst1, Hres; subst st1.
  2: { exists false. eexists. split; [by apply mcp_failed|]. by cbn. }
  destruct Hres as [Emcp Hrc]. specialize (Hrc eq_refl).
  rewrite Emcp.
  rewrite installer_bind, print_keeps, installer_bind, print_keeps, installer_bind. cbn [ran printed stdin].
  set (h1 := ran st ++ [(install_mcp_cmd python_path, Exited c)]).
  set (st2 := State h1 _ (stdin st)).
  assert (Hblock : exists st3,
             (if nonempty (stderr c)
              then print "Errors/Warnings:";; print (stderr c) else mret tt) st2
             = (inl tt, st3) /\ ran st3 = h1 /\ stdin st3 = stdin st).
  { destruct (nonempty (stderr c)); eexists; (split; [reflexivity|]); by cbn. }
  destruct Hblock as (st3 & -> & Hran3 & Hin3). rewrite installer_bind.
  destruct (install_uvicorn_launches m python_path st3) as ([Hran4 Hin4] & Hok & Hbad).
  rewrite Hran3 in Hran4, Hok, Hbad.
  set (o_uv := m h1 (install_uvicorn_cmd python_path)) in *.
  destruct (starts o_uv) eqn:Euv.
  2: { destruct (Hbad eq_refl) as [e He].
       destruct (install_uvicorn m python_path st3) as [[[]|e'] st4]; [discriminate|].
       cbn [fst snd] in *. exists false. eexists. split.
       { eapply uvicorn_not_started with (o_uvicorn := o_uv); eauto. }
       split; [|reflexivity]. split; [|congruence].
       rewrite Hran4. subst h1. by rewrite <- app_assoc. }
  specialize (Hok eq_refl).
  destruct (install_uvicorn m python_path st3) as [[[]|e'] st4]; [|discriminate].
  cbn [fst snd] in Hran4, Hin4.
  destruct (verify_install_launches m python_path st4) as ([Hran5 Hin5] & Hv & Hvbad).
  rewrite Hran4 in Hran5, Hv, Hvbad.
  assert (Eh2 : h1 ++ [(install_uvicorn_cmd python_path, o_uv)]
                = ran st ++ [ (install_mcp_cmd python_path, Exited c)
                            ; (install_uvicorn_cmd python_path, o_uv) ]).
  { subst h1. by rewrite <- app_assoc. }
  rewrite Eh2 in Hran5, Hv, Hvbad.
  set (o_v := m (ran st ++ [(install_mcp_cmd python_path, Exited c);
                            (install_uvicorn_cmd python_path, o_uv)])
                (verify_cmd python_path)) in *.
  exists (exits_zero o_v). eexists. split.
  { eapply verification_ran with (o_uvicorn := o_uv) (o_verify := o_v); eauto. }
  split.
  - split; [|congruence].
    rewrite Hran5. by rewrite <- !app_assoc.
  - destruct (starts o_v) eqn:Ev.
    + by rewrite (Hv eq_refl).
    + destruct (Hvbad eq_refl) as [e ->]. cbn. by destruct o_v.
Qed.

(** The launches of one call of [install_mcp] and its value. *)
Lemma install_mcp_course m python_path st :
  let o := m (ran st) (pip_version_cmd python_path) in
  let o' := m (ran st ++ [(pip_version_cmd python_path, o)]) (ensurepip_cmd python_path) in
  let pre := (pip_version_cmd python_path, o)
               :: (if exits_nonzero o then [(ensurepip_cmd python_path, o')] else []) in
  if pip_ready o o' then
    exists success new,
      packages_course m python_path (ran st ++ pre) success new
      /\ appends (install_mcp m python_path) st (pre ++ new)
      /\ (install_mcp m python_path st).1 = success
  else
    appends (install_mcp m python_path) st pre
    /\ (install_mcp m python_path st).1 = false.
Proof.
  intros o o' pre.
  destruct (install_mcp_of_body m python_path st) as (Hval & Hran & Hin).
  unfold appends. rewrite Hval, Hran, Hin. clear Hval Hran Hin.
  unfold install_mcp_body. rewrite installer_bind, print_keeps, installer_bind.
  set (st0 := State (ran st) _ (stdin st)).
  destruct (ensure_pip_launches m python_path st0) as ([Hran1 Hin1] & Hret).
  cbn [ran stdin st0] in Hran1, Hin1, Hret. fold o o' pre in Hran1, Hret.
  destruct (ensure_pip m python_path st0) as [[[]|e] st1];
    cbn [fst snd returns] in Hran1, Hin1, Hret; rewrite <- Hret.
  - destruct (install_packages_course m python_path st1)
      as (success & new & Hcourse & [Hran2 Hin2] & Hverdict).
    exists success, new. rewrite Hran1 in Hcourse. split; [exact Hcourse|].
    split; [|exact Hverdict]. split; [|congruence].
    rewrite Hran2, Hran1. by rewrite <- app_assoc.
  - by cbn.
Qed.

(** The commands of one call of [install_mcp]: the check for pip, then
    some of the later commands, each at most once and in their order. *)
Lemma install_mcp_shape m python_path st :
  exists o rest,
    appends (install_mcp m python_path) st ((pip_version_cmd python_path, o) :: rest)
    /\ map fst rest `sublist_of` later_commands python_path.
Proof.
  pose proof (install_mcp_course m python_path st) as H. cbv zeta in H.
  set (o := m (ran st) (pip_version_cmd python_path)) in *.
  set (o' := m _ (ensurepip_cmd python_path)) in *.
  exists o.
  destruct (pip_ready o o').
  - destruct H as (success & new & Hcourse & Happ & _).
    eexists. split; [exact Happ|].
    unfold later_commands.
    destruct (exits_nonzero o); destruct Hcourse; cbn [app map fst];
      repeat (apply sublist_skip || apply sublist_cons || apply sublist_nil).
  - destruct H as [Happ _]. eexists. split; [exact Happ|].
    unfold later_commands.
    destruct (exits_nonzero o); cbn [app map fst];
      repeat (apply sublist_skip || apply sublist_cons || apply sublist_nil).
Qed.

Lemma filter_none {A} (P : A -> Prop) `{forall x, Decision (P x)} (l : list A) :
  Forall (fun x => ~ P x) l -> filter P l = [].
Proof. induction 1; [done|]. by rewrite filter_cons_False. Qed.

Lemma later_commands_are_no_pip_check python_path l :
  l `sublist_of` later_commands python_path ->
  filter (fun cmd => is_pip_check cmd = true) l = [].
Proof.
  intros Hsub. apply filter_none, Forall_forall. intros cmd Hin.
  pose proof (elem_of_sublist _ _ _ Hin Hsub) as Hin'.
  unfold later_commands in Hin'.
  repeat (apply elem_of_cons in Hin' as [->|Hin']); [by cbn..|].
  by apply elem_of_nil in Hin'.
Qed.

(** X6.  One call of [install_mcp] launches the check for pip of the given
    interpreter first, and after it only [ensurepip], the two installs
    and the verification with that interpreter, each at most once and
    in this order; it reads nothing from the standard input. *)
Theorem install_mcp_launches_only_its_own_commands :
  forall m python_path st,
    exists o rest,
      ran (install_mcp m python_path st).2
      = ran st ++ (pip_version_cmd python_path, o) :: rest
      /\ map fst rest `sublist_of` later_commands python_path
      /\ stdin (install_mcp m python_path st).2 = stdin st.
Proof.
  intros m python_path st.
  destruct (install_mcp_shape m python_path st) as (o & rest & [Hran Hin] & Hsub).
  by exists o, rest.
Qed.

(** X7.  When the install of the package [mcp[cli]] does not exit with 0,
    [install_mcp] returns False, and neither the install of uvicorn nor
    the verification is launched. *)
Theorem failed_package_install_stops_the_installation :
  forall m python_path st,
    (forall h, exits_zero (m h (install_mcp_cmd python_path)) = false) ->
    (install_mcp m python_path st).1 = false
    /\ exists new,
        ran (install_mcp m python_path st).2 = ran st ++ new
        /\ map fst new `sublist_of`
             [pip_version_cmd python_path; ensurepip_cmd python_path;
              install_mcp_cmd python_path].
Proof.
  intros m python_path st Hfails.
  pose proof (install_mcp_course m python_path st) as H. cbv zeta in H.
  set (o := m (ran st) (pip_version_cmd python_path)) in *.
  set (o' := m _ (ensurepip_cmd python_path)) in *.
  destruct (pip_ready o o').
  - destruct H as (success & new & Hcourse & [Hran _] & Hval).
    destruct Hcourse as [Hbad | c o_uv Emcp Hrc | c o_uv o_v Emcp Hrc].
    + split; [exact Hval|]. eexists. split; [exact Hran|].
      destruct (exits_nonzero o); cbn [app map fst];
        repeat (apply sublist_skip || apply sublist_cons || apply sublist_nil).
    + specialize (Hfails (ran st ++ (pip_version_cmd python_path, o)
                                 :: (if exits_nonzero o
                                     then [(ensurepip_cmd python_path, o')] else []))).
      rewrite Emcp in Hfails. cbn in Hfails. rewrite Hrc in Hfails. discriminate.
    + specialize (Hfails (ran st ++ (pip_version_cmd python_path, o)
                                 :: (if exits_nonzero o
                                     then [(ensurepip_cmd python_path, o')] else []))).
      rewrite Emcp in Hfails. cbn in Hfails. rewrite Hrc in Hfails. discriminate.
  - destruct H as [[Hran _] Hval]. split; [exact Hval|].
    eexists. split; [exact Hran|].
    destruct (exits_nonzero o); cbn [app map fst];
      repeat (apply sublist_skip || apply sublist_cons || apply sublist_nil).
Qed.

Lemma failed_package_install_example :
  (install_mcp offline "python.exe" (fresh_state [])).1 = false
  /\ exists new,
      ran (install_mcp offline "python.exe" (fresh_state [])).2
      = ran (fresh_state []) ++ new
      /\ map fst new `sublist_of`
           [pip_version_cmd "python.exe"; ensurepip_cmd "python.exe";
            install_mcp_cmd "python.exe"].
Proof.
  apply (failed_package_install_stops_the_installation offline "python.exe").
  intros h. reflexivity.
Defined.

(** X8.  When [install_mcp] returns True, the install of [mcp[cli]] exited
    with 0 and the last command launched is the verification, which
    exited with 0 as well. *)
Theorem reported_success_was_verified :
  forall m python_path st,
    (install_mcp m python_path st).1 = true ->
    exists front mcp_run o_uvicorn verify_run,
      ran (install_mcp m python_path st).2
      = ran st ++ front ++ [ (install_mcp_cmd python_path, Exited mcp_run)
                           ; (install_uvicorn_cmd python_path, o_uvicorn)
                           ; (verify_cmd python_path, Exited verify_run) ]
      /\ returncode mcp_run = 0%Z
      /\ returncode verify_run = 0%Z.
Proof.
  intros m python_path st Htrue.
  pose proof (install_mcp_course m python_path st) as H. cbv zeta in H.
  set (o := m (ran st) (pip_version_cmd python_path)) in *.
  set (o' := m _ (ensurepip_cmd python_path)) in *.
  destruct (pip_ready o o').
  2: { destruct H as [_ Hval]. congruence. }
  destruct H as (success & new & Hcourse & [Hran _] & Hval).
  rewrite Htrue in Hval.
  destruct Hcourse as [Hbad | c o_uv Emcp Hrc Euv Hstarts
                      | c o_uv o_v Emcp Hrc Euv Hstarts Ev]; [discriminate..|].
  destruct o_v as [verify_run|msg]; [|discriminate].
  cbn in Hval. symmetry in Hval. apply Z.eqb_eq in Hval.
  eexists _, c, o_uv, verify_run. split; [exact Hran|]. by split.
Qed.

Lemma reported_success_example :
  exists front mcp_run o_uvicorn verify_run,
    ran (install_mcp obliging "python.exe" (fresh_state [])).2
    = ran (fresh_state []) ++ front
        ++ [ (install_mcp_cmd "python.exe", Exited mcp_run)
           ; (install_uvicorn_cmd "python.exe", o_uvicorn)
           ; (verify_cmd "python.exe", Exited verify_run) ]
    /\ returncode mcp_run = 0%Z
    /\ returncode verify_run = 0%Z.
Proof.
  apply (reported_success_was_verified obliging "python.exe" (fresh_state [])).
  reflexivity.
Defined.

(** X9.  On a machine where a command behaves the same whenever it is
    launched, [install_mcp] returns True exactly when pip is there or
    [ensurepip] provides it, the install of [mcp[cli]] exits with 0,
    the install of uvicorn can be started, and the verification exits
    with 0: the exit status of the install of uvicorn does not count. *)
Theorem install_mcp_succeeds_exactly_when :
  forall f python_path st,
    (install_mcp (steady f) python_path st).1
    = pip_ready (f (pip_version_cmd python_path)) (f (ensurepip_cmd python_path))
      && exits_zero (f (install_mcp_cmd python_path))
      && starts (f (install_uvicorn_cmd python_path))
      && exits_zero (f (verify_cmd python_path)).
Proof.
  intros f python_path st.
  pose proof (install_mcp_course (steady f) python_path st) as H. cbv zeta in H.
  unfold steady in H at 1 2 3 4 5 6.
  destruct (pip_ready _ _); cbn [andb].
  2: { by destruct H as [_ ->]. }
  destruct H as (success & new & Hcourse & _ & ->).
  destruct Hcourse as [Hbad | c o_uv Emcp Hrc Euv Hstarts
                      | c o_uv o_v Emcp Hrc Euv Hstarts Ev]; unfold steady in *.
  - by rewrite Hbad.
  - rewrite Emcp, Euv, Hstarts. cbn. rewrite Hrc. reflexivity.
  - rewrite Emcp, Euv, Hstarts, Ev. cbn. rewrite Hrc. reflexivity.
Qed.

Lemma pip_checks_of_one_install python_path o rest more :
  map fst rest `sublist_of` later_commands python_path ->
  pip_checks (((pip_version_cmd python_path, o) :: rest) ++ more)
  = pip_version_cmd python_path :: pip_checks more.
Proof.
  intros Hsub. unfold pip_checks.
  rewrite map_app, filter_app. cbn [map fst].
  rewrite filter_cons_True by reflexivity.
  by rewrite (later_commands_are_no_pip_check _ _ Hsub).
Qed.

(** What the loop of [main] launches and counts. *)
Lemma install_all_course :
  forall m python_paths successful_installs failed_installs st,
    exists new,
      ran (install_all m python_paths successful_installs failed_installs st).2
      = ran st ++ new
      /\ pip_checks new = map pip_version_cmd python_paths
      /\ stdin (install_all m python_paths successful_installs failed_installs st).2
         = stdin st
      /\ ((install_all m python_paths successful_installs failed_installs st).1.1
          + (install_all m python_paths successful_installs failed_installs st).1.2
          = successful_installs + failed_installs + length python_paths)%nat.
Proof.
  intros m python_paths.
  induction python_paths as [|python_path paths IH]; intros s f st.
  - exists []. cbn. rewrite app_nil_r. repeat split; lia.
  - cbn [install_all].
    destruct (install_mcp_shape m python_path st) as (o & rest & [Hran Hin] & Hsub).
    destruct (install_mcp m python_path st) as [success st1]. cbn [fst snd] in Hran, Hin.
    unfold print.
    destruct success; cbv beta iota;
      match goal with
      | |- context [install_all m paths ?s' ?f' ?st'] =>
          destruct (IH s' f' st') as (new & Hran' & Hchecks & Hin' & Hsum)
      end;
      cbn [ran stdin] in Hran', Hin';
      (exists (((pip_version_cmd python_path, o) :: rest) ++ new));
      (split; [by rewrite Hran', Hran, <- app_assoc|]);
      (split; [by rewrite pip_checks_of_one_install, Hchecks|]);
      (split; [congruence|]); cbn [length]; lia.
Qed.

(** X10.  The loop of [main] over the interpreters attempts each of them
    exactly once and in the order of the list, whatever happens to the
    ones before it; every attempt is counted as a success or as a
    failure, so the two counters grow by the length of the list; the
    loop reads nothing from the standard input. *)
Theorem install_all_attempts_every_interpreter_once :
  forall m python_paths successful_installs failed_installs st,
    exists new,
      ran (install_all m python_paths successful_installs failed_installs st).2
      = ran st ++ new
      /\ pip_checks new = map pip_version_cmd python_paths
      /\ stdin (install_all m python_paths successful_installs failed_installs st).2
         = stdin st
      /\ ((install_all m python_paths successful_installs failed_installs st).1.1
          + (install_all m python_paths successful_installs failed_installs st).1.2
          = successful_installs + failed_installs + length python_paths)%nat.
Proof. exact install_all_course. Qed.

Lemma print_numbered_keeps python_paths :
  forall i st, exists st',
    print_numbered i python_paths st = (inl tt, st')
    /\ ran st' = ran st /\ stdin st' = stdin st.
Proof.
  induction python_paths as [|path rest IH]; intros i st.
  - by exists st.
  - cbn [print_numbered]. rewrite installer_bind, print_keeps.
    destruct (IH (S i) (State (ran st) (printed st ++ [pretty (i + 1)%nat +:+ ". " +:+ path])
                          (stdin st))) as (st' & -> & Hran & Hin).
    by exists st'.
Qed.

(** [main] up to the question whether to proceed. *)
Lemma main_install_asks env python_paths st :
  exists st1,
    ran st1 = ran st /\ stdin st1 = stdin st
    /\ main_install env python_paths st
       = (input "Proceed with installation for all installations? (y/n): "
            ≫= fun confirm =>
                 if negb (String.eqb (lower confirm) "y") then print "Installation cancelled."
                 else
                   counted ← (fun st =>
                                let '(successful, failed, st) :=
                                  install_all (the_machine env) python_paths 0 0 st in
                                (inl (successful, failed), st));
                   let '(successful_installs, failed_installs) := counted in
                   print (Poller.nl +:+ "=== Installation Summary ===");;
                   print ("Total Fusion 360 Python installations found: "
                            +:+ pretty (length python_paths));;
                   print ("Successful installations: " +:+ pretty successful_installs);;
                   print ("Failed installations: " +:+ pretty failed_installs);;
                   (if (0 <? successful_installs)%nat
                    then print (Poller.nl
                                  +:+ "You can now run the MCP Server Script in Fusion 360.")
                    else mret tt);;
                   (if (0 <? failed_installs)%nat
                    then
                      print (Poller.nl
                               +:+ "For failed installations, you may need to try manually:");;
                      print "  1. Run this script as administrator";;
                      print ("  2. Or install manually with: '[Python Path]' -m pip install "
                               +:+ Poller.dq +:+ "mcp[cli]" +:+ Poller.dq)
                    else mret tt);;
                   input (Poller.nl +:+ "Press Enter to exit...");; mret tt) st1.
Proof.
  unfold main_install. cbv zeta.
  rewrite installer_bind, print_keeps, installer_bind.
  match goal with
  | |- context [print_numbered 0 python_paths ?s] =>
      destruct (print_numbered_keeps python_paths 0 s) as (st' & -> & Hran & Hin)
  end.
  rewrite installer_bind, print_keeps, installer_bind, print_keeps.
  eexists. split; [|split; [|reflexivity]]; by cbn.
Qed.

Lemma main_install_cancelled env python_paths st :
  match stdin st with
  | line :: _ => lower line <> "y"
  | [] => True
  end ->
  ran (main_install env python_paths st).2 = ran st.
Proof.
  intros Hline.
  destruct (main_install_asks env python_paths st) as (st1 & Hran & Hin & ->).
  rewrite installer_bind. unfold input at 1. rewrite Hin.
  destruct (stdin st) as [|line rest]; [by cbn|].
  apply String.eqb_neq in Hline. rewrite Hline. by cbn.
Qed.

(** The tail of [main] after the loop launches nothing. *)
Lemma main_summary_keeps n successful_installs failed_installs st :
  ran ((print (Poller.nl +:+ "=== Installation Summary ===");;
        print ("Total Fusion 360 Python installations found: " +:+ n);;
        print ("Successful installations: " +:+ pretty successful_installs);;
        print ("Failed installations: " +:+ pretty failed_installs);;
        (if (0 <? successful_installs)%nat
         then print (Poller.nl +:+ "You can now run the MCP Server Script in Fusion 360.")
         else mret tt);;
        (if (0 <? failed_installs)%nat
         then
           print (Poller.nl +:+ "For failed installations, you may need to try manually:");;
           print "  1. Run this script as administrator";;
           print ("  2. Or install manually with: '[Python Path]' -m pip install "
                    +:+ Poller.dq +:+ "mcp[cli]" +:+ Poller.dq)
         else mret tt);;
        input (Poller.nl +:+ "Press Enter to exit...");; mret tt) st).2
  = ran st.
Proof.
  do 4 rewrite installer_bind, print_keeps. rewrite installer_bind.
  destruct (0 <? successful_installs)%nat; [rewrite print_keeps|cbn [mret R_ret]];
    rewrite installer_bind;
    (destruct (0 <? failed_installs)%nat;
     [do 2 rewrite installer_bind, print_keeps; rewrite print_keeps|cbn [mret R_ret]]);
    rewrite installer_bind; unfold input; cbn [stdin ran];
    by destruct (stdin st).
Qed.

Lemma main_install_confirmed env python_paths st line rest :
  stdin st = line :: rest ->
  lower line = "y" ->
  exists new,
    ran (main_install env python_paths st).2 = ran st ++ new
    /\ pip_checks new = map pip_version_cmd python_paths.
Proof.
  intros Hstdin Hy.
  destruct (main_install_asks env python_paths st) as (st1 & Hran & Hin & ->).
  rewrite installer_bind. unfold input at 1. rewrite Hin, Hstdin, Hy.
  cbn [String.eqb Ascii.eqb Bool.eqb negb]. cbv beta iota.
  rewrite installer_bind.
  match goal with
  | |- context [install_all ?m python_paths 0 0 ?s] =>
      destruct (install_all_course m python_paths 0 0 s)
        as (new & Hran' & Hchecks & _);
      destruct (install_all m python_paths 0 0 s) as [[successful failed] st2]
  end.
  cbn [fst snd ran] in Hran'. cbv beta iota.
  exists new. split; [|exact Hchecks].
  rewrite main_summary_keeps. by rewrite Hran', Hran.
Qed.

(** [main] up to the look at the interpreters found. *)
Lemma main_searches env st :
  exists st2,
    ran st2 = ran st /\ stdin st2 = stdin st
    /\ main env st
       = match found_paths env with
         | [] =>
             print "No Fusion 360 Python installations found automatically.";;
             custom_path ← input (Poller.nl
                                    +:+ "Enter the full path to Fusion 360's python.exe (or press Enter to exit): ");
             if nonempty custom_path && path_exists env custom_path
             then main_install env [custom_path]
             else
               (if nonempty custom_path
                then print ("Path does not exist: " +:+ custom_path)
                else mret tt);;
               print (Poller.nl +:+ "Exiting without installation.")
         | python_paths => main_install env python_paths
         end st2.
Proof.
  unfold main.
  do 2 rewrite installer_bind, print_keeps. rewrite installer_bind.
  destruct (is_admin env); cbn [negb].
  - cbn [mret R_ret]. rewrite installer_bind, print_keeps.
    eexists. split; [|split; [|reflexivity]]; by cbn.
  - rewrite installer_bind, print_keeps, print_keeps, installer_bind, print_keeps.
    eexists. split; [|split; [|reflexivity]]; by cbn.
Qed.

(** X11.  [main] launches no process unless a line it reads says yes: when
    no line of the standard input is [y] or [Y], whatever interpreters
    were found and whatever path is typed, nothing is launched. *)
Theorem main_launches_nothing_unless_confirmed :
  forall env st,
    Forall (fun line => lower line <> "y") (stdin st) ->
    ran (main env st).2 = ran st.
Proof.
  intros env st Hlines.
  destruct (main_searches env st) as (st2 & Hran2 & Hin2 & ->).
  rewrite <- Hran2. rewrite <- Hin2 in Hlines. clear Hran2 Hin2.
  destruct (found_paths env) as [|python_path python_paths].
  2: { apply main_install_cancelled. by destruct Hlines. }
  rewrite installer_bind, print_keeps, installer_bind. unfold input at 1. cbn [stdin ran printed].
  destruct Hlines as [|custom_path rest Hline Hrest]; [by cbn|].
  destruct (nonempty custom_path && path_exists env custom_path).
  - rewrite main_install_cancelled; [by cbn|]. cbn [stdin]. by destruct Hrest.
  - rewrite installer_bind. destruct (nonempty custom_path); by cbn.
Qed.

Lemma main_declined_example :
  ran (main (Surroundings obliging false ["python.exe"] (fun _ => true))
            (fresh_state ["n"])).2
  = ran (fresh_state ["n"]).
Proof.
  apply main_launches_nothing_unless_confirmed.
  repeat constructor. cbn. discriminate.
Defined.

(** X12.  When interpreters were found and the answer to the question is [y]
    or [Y], [main] attempts every one of them exactly once, in the
    order in which they were found. *)
Theorem main_confirmed_attempts_every_interpreter :
  forall env st line rest,
    found_paths env <> [] ->
    stdin st = line :: rest ->
    lower line = "y" ->
    exists new,
      ran (main env st).2 = ran st ++ new
      /\ pip_checks new = map pip_version_cmd (found_paths env).
Proof.
  intros env st line rest Hfound Hstdin Hy.
  destruct (main_searches env st) as (st2 & Hran2 & Hin2 & ->).
  rewrite <- Hran2. rewrite <- Hin2 in Hstdin. clear Hran2 Hin2.
  destruct (found_paths env) as [|python_path python_paths]; [done|].
  by apply (main_install_confirmed env (python_path :: python_paths) st2 line rest).
Qed.

Lemma main_confirmed_example :
  exists new,
    ran (main (Surroundings offline true ["a\python.exe"; "b\python.exe"] (fun _ => true))
              (fresh_state ["Y"])).2
    = ran (fresh_state ["Y"]) ++ new
    /\ pip_checks new
       = map pip_version_cmd
             (found_paths
                (Surroundings offline true ["a\python.exe"; "b\python.exe"] (fun _ => true))).
Proof.
  apply (main_confirmed_attempts_every_interpreter
           (Surroundings offline true ["a\python.exe"; "b\python.exe"] (fun _ => true))
           (fresh_state ["Y"]) "Y" []).
  - discriminate.
  - reflexivity.
  - reflexivity.
Defined.

(** X13.  When no interpreter was found and the path typed is empty or does
    not exist, [main] ends normally after that one line: it launches
    nothing and reads no further line, whatever the input holds. *)
Theorem main_without_interpreter_exits :
  forall env st custom_path rest,
    found_paths env = [] ->
    stdin st = custom_path :: rest ->
    nonempty custom_path && path_exists env custom_path = false ->
    (main env st).1 = inl tt
    /\ ran (main env st).2 = ran st
    /\ stdin (main env st).2 = rest.
Proof.
  intros env st custom_path rest Hfound Hstdin Hpath.
  destruct (main_searches env st) as (st2 & Hran2 & Hin2 & ->).
  rewrite <- Hran2. rewrite <- Hin2 in Hstdin. clear Hran2 Hin2.
  rewrite Hfound.
  rewrite !installer_bind, !print_keeps, !installer_bind. unfold input. cbn [stdin ran printed].
  rewrite Hstdin, Hpath. rewrite !installer_bind.
  destruct (nonempty custom_path); by cbn.
Qed.

Lemma main_without_interpreter_example :
  (main (Surroundings obliging false [] (fun _ => false)) (fresh_state ["C:\python.exe"; "y"])).1
  = inl tt
  /\ ran (main (Surroundings obliging false [] (fun _ => false))
               (fresh_state ["C:\python.exe"; "y"])).2
     = ran (fresh_state ["C:\python.exe"; "y"])
  /\ stdin (main (Surroundings obliging false [] (fun _ => false))
                 (fresh_state ["C:\python.exe"; "y"])).2
     = ["y"].
Proof.
  apply (main_without_interpreter_exits
           (Surroundings obliging false [] (fun _ => false))
           (fresh_state ["C:\python.exe"; "y"]) "C:\python.exe" ["y"]);
    reflexivity.
Defined.

End InstallerFacts.

(* ===================================================================== *)
(** ** Results: the command handlers *)
(* ===================================================================== *)

Module HandlerFacts.
Import PyStr Names Py Poller Protocol Effects NameFacts PollerFacts.

Section Handlers.
Context `{Platform H}.
Variable workspace_comm_dir : string.
Implicit Types (w : world H) (evs : list event).

(** What [create_message_box_command] returns, with the events it
    leaves in the log. *)
Lemma create_message_box_command_course message w :
  let defined := ui_define_message_command message (host w) in
  let executed := ui_execute_message_command defined.2 in
  exists evs,
    (create_message_box_command workspace_comm_dir message w).1
    = Ret (returned defined.1 && returned executed.1)
    /\ log (create_message_box_command workspace_comm_dir message w).2 = log w ++ evs
    /\ Host "commandDefinitions.addButtonDefinition"
            [JStr ("MCPMessageBox_" +:+ pretty (time_millis (host w))); message] ∈ evs
    /\ (Host "cmdDef.execute" [] ∈ evs <-> returned defined.1 = true).
Proof.
  cbv zeta.
  unfold create_message_box_command, try_catch, mbind, M_bind, bind,
    ctime, now_millis, append_file, emit, host_try, mret, M_ret, ret.
  cbn [fst snd host log files].
  destruct (ui_define_message_command message (host w)) as [[[]|e1] h1];
    cbn [fst snd host log files returned andb].
  - destruct (ui_execute_message_command h1) as [[[]|e2] h2];
      cbn [fst snd host log files returned andb];
      rewrite <- !app_assoc; cbn [app];
      (eexists; split; [reflexivity|]; split; [reflexivity|]);
      (split; [set_solver|]);
      (split; [done|]); intros _; set_solver.
  - rewrite <- !app_assoc; cbn [app].
    eexists; split; [reflexivity|]; split; [reflexivity|].
    split; [set_solver|].
    split; [|done]. intros Hin.
    repeat (apply elem_of_cons in Hin as [Hin|Hin]; [discriminate|]).
    by apply elem_of_nil in Hin.
Qed.

(** X14.  [create_message_box_command] never raises: it returns True exactly
    when the host both defined the command and executed it, and False
    otherwise.  The host is always asked to define a command for the
    message, under an id made of the clock in milliseconds; the command
    is executed exactly when its definition returned. *)
Theorem create_message_box_command_never_raises :
  forall message w,
    let defined := ui_define_message_command message (host w) in
    let executed := ui_execute_message_command defined.2 in
    exists evs,
      (create_message_box_command workspace_comm_dir message w).1
      = Ret (returned defined.1 && returned executed.1)
      /\ log (create_message_box_command workspace_comm_dir message w).2 = log w ++ evs
      /\ Host "commandDefinitions.addButtonDefinition"
              [JStr ("MCPMessageBox_" +:+ pretty (time_millis (host w))); message] ∈ evs
      /\ (Host "cmdDef.execute" [] ∈ evs <-> returned defined.1 = true).
Proof. exact create_message_box_command_course. Qed.

(** X16.  A command that reads its params fails with an AttributeError when
    the params are not an object, before anything is done: nothing is
    printed or logged and the host is not called. *)
Theorem non_object_params_fail_before_anything_is_done :
  forall command params w,
    command ∈ commands_with_params ->
    (forall fields, params <> JObj fields) ->
    handle_command workspace_comm_dir (JStr command) params w
    = (Raise (Exn AttributeError
                ("'" +:+ type_name params +:+ "' object has no attribute 'get'")), w).
Proof.
  intros command params w Hin Hparams. unfold commands_with_params in Hin.
  repeat (apply elem_of_cons in Hin as [->|Hin]);
    [| | | | |by apply elem_of_nil in Hin];
    (destruct params; [reflexivity..|by destruct (Hparams fields)]).
Qed.

(** X17.  [read_resource] reaches the host exactly for the URIs that
    [list_resources] answers with; for every other [uri] it returns an
    error value without calling the host. *)
Theorem read_resource_serves_exactly_the_listed_uris :
  forall fields w,
    let uri := dict_get fields "uri" (JStr "") in
    (uri ∈ listed_resources ->
     exists call,
       log (handle_read_resource (JObj fields) w).2 = log w ++ [Host call []])
    /\ (uri ∉ listed_resources ->
        handle_read_resource (JObj fields) w
        = (Ret (error_value ("Unknown resource URI: " +:+ py_str uri)), w)).
Proof.
  intros fields w uri. unfold handle_read_resource. cbn [py_get].
  rewrite run_bind, run_ret. fold uri.
  unfold listed_resources, list_resources_result, items_of.
  destruct uri as [| | |s| |]; cbn [is_str].
  1-3, 5-6: split; [intros Hin; exfalso;
                    repeat (apply elem_of_cons in Hin as [Hin|Hin]; [discriminate|]);
                    by apply elem_of_nil in Hin
                   | reflexivity].
  destruct (String.eqb_spec s "fusion://active-document-info") as [->|N1].
  { split; [intros _|intros Hout; exfalso; apply Hout; set_solver].
    eexists. unfold host_call. by destruct (host_active_document_info (host w)). }
  destruct (String.eqb_spec s "fusion://design-structure") as [->|N2].
  { split; [intros _|intros Hout; exfalso; apply Hout; set_solver].
    eexists. unfold host_call. by destruct (host_design_structure (host w)). }
  destruct (String.eqb_spec s "fusion://parameters") as [->|N3].
  { split; [intros _|intros Hout; exfalso; apply Hout; set_solver].
    eexists. unfold host_call. by destruct (host_parameters (host w)). }
  split; [|reflexivity]. intros Hin. exfalso.
  repeat (apply elem_of_cons in Hin as [Hin|Hin]; [congruence|]).
  by apply elem_of_nil in Hin.
Qed.

(** X18.  [get_prompt] builds its messages exactly for the names that
    [list_prompts] answers with, given that [args] is an object or is
    left out; for every other [name] it returns an error value.  In
    both cases nothing is logged and the host is not called. *)
Theorem get_prompt_serves_exactly_the_listed_prompts :
  forall fields w,
    let name := dict_get fields "name" (JStr "") in
    (name ∈ listed_prompts ->
     (exists args, dict_get fields "args" (JObj []) = JObj args) ->
     exists system user,
       handle_get_prompt (JObj fields) w = (Ret (prompt_messages system user), w))
    /\ (name ∉ listed_prompts ->
        handle_get_prompt (JObj fields) w
        = (Ret (error_value ("Unknown prompt: " +:+ py_str name)), w)).
Proof.
  intros fields w name. unfold handle_get_prompt. cbn [py_get].
  rewrite run_bind, run_ret. fold name. rewrite run_bind, run_ret.
  unfold listed_prompts, list_prompts_result, items_of, described.
  cbn [map dict_get String.eqb Ascii.eqb Bool.eqb].
  destruct name as [| | |s| |]; cbn [is_str].
  1-3, 5-6: split; [intros Hin; exfalso;
                    repeat (apply elem_of_cons in Hin as [Hin|Hin]; [discriminate|]);
                    by apply elem_of_nil in Hin
                   | reflexivity].
  destruct (String.eqb_spec s "create_sketch_prompt") as [->|N1].
  { split; [intros _ [args ->]|intros Hout; exfalso; apply Hout; set_solver].
    cbn [py_get]. rewrite run_bind, run_ret. eauto. }
  destruct (String.eqb_spec s "parameter_setup_prompt") as [->|N2].
  { split; [intros _ [args ->]|intros Hout; exfalso; apply Hout; set_solver].
    cbn [py_get]. rewrite run_bind, run_ret. eauto. }
  split; [|reflexivity]. intros Hin. exfalso.
  repeat (apply elem_of_cons in Hin as [Hin|Hin]; [congruence|]).
  by apply elem_of_nil in Hin.
Qed.

End Handlers.

Lemma non_object_params_example :
  handle_command Fixture.dir (JStr "create_new_sketch") (JArr [JStr "XY"])
                 Fixture.pending_tools
  = (Raise (Exn AttributeError
              ("'" +:+ type_name (JArr [JStr "XY"]) +:+ "' object has no attribute 'get'")),
     Fixture.pending_tools).
Proof.
  apply (non_object_params_fail_before_anything_is_done
           Fixture.dir "create_new_sketch" (JArr [JStr "XY"]) Fixture.pending_tools).
  - apply list_elem_of_further, list_elem_of_here.
  - discriminate.
Defined.

End HandlerFacts.

(* ===================================================================== *)
(** ** Results: what the poller touches *)
(* ===================================================================== *)

Module FrameFacts.
Import PyStr Names Py Poller Protocol Effects NameFacts PollerFacts HandlerFacts.

Section Within.
Context `{Platform H}.
Variable P : path -> bool.
Implicit Types (w : world H) (evs : list event) (fs : gmap path string).

Lemma within_silent {A} (m : M H A) :
  (forall w, (m w).2 = w) -> within P m.
Proof.
  intros Hm w. exists []. rewrite Hm. split; [apply journal_refl | constructor].
Qed.

Lemma within_ret {A} (a : A) : within P (mret a : M H A).
Proof. by apply within_silent. Qed.

Lemma within_raise {A} (e : exn) : within P (raise e : M H A).
Proof. by apply within_silent. Qed.

Lemma within_lift {A} (o : outcome A) : within P (lift o : M H A).
Proof. by apply within_silent. Qed.

Lemma within_ctime : within P (ctime (H:=H)).
Proof. by apply within_silent. Qed.

Lemma within_now : within P (now (H:=H)).
Proof. by apply within_silent. Qed.

Lemma within_path_exists p : within P (path_exists (H:=H) p).
Proof. by apply within_silent. Qed.

Lemma within_os_listdir dir : within P (os_listdir (H:=H) dir).
Proof. by apply within_silent. Qed.

Lemma within_read_file p : within P (read_file (H:=H) p).
Proof.
  apply within_silent. intros w. unfold read_file. by destruct (files w !! p).
Qed.

Lemma within_bind {A B} (m : M H A) (k : A -> M H B) :
  within P m -> (forall a, within P (k a)) -> within P (m ≫= k).
Proof.
  intros Hm Hk w. destruct (Hm w) as (evs1 & J1 & Q1).
  unfold mbind, M_bind, bind. destruct (m w) as [[a|e] w1]; simpl in *.
  - destruct (Hk a w1) as (evs2 & J2 & Q2).
    exists (evs1 ++ evs2). split; [by eapply journal_trans | by apply Forall_app].
  - by exists evs1.
Qed.

Lemma within_try_catch {A} (m : M H A) (handler : exn -> M H A) :
  within P m -> (forall e, within P (handler e)) -> within P (try_catch m handler).
Proof.
  intros Hm Hh w. destruct (Hm w) as (evs1 & J1 & Q1).
  unfold try_catch. destruct (m w) as [[a|e] w1]; simpl in *.
  - by exists evs1.
  - destruct (Hh e w1) as (evs2 & J2 & Q2).
    exists (evs1 ++ evs2). split; [by eapply journal_trans | by apply Forall_app].
Qed.

Lemma within_try_catch_json {A} (m : M H A) (handler : exn -> M H A) :
  within P m -> (forall e, within P (handler e)) -> within P (try_catch_json m handler).
Proof.
  intros Hm Hh w. destruct (Hm w) as (evs1 & J1 & Q1).
  unfold try_catch_json. destruct (m w) as [[a|[[] msg]] w1]; simpl in *;
    try by exists evs1.
  destruct (Hh (Exn JSONDecodeError msg) w1) as (evs2 & J2 & Q2).
  exists (evs1 ++ evs2). split; [by eapply journal_trans | by apply Forall_app].
Qed.

Lemma within_emit ev : touching P ev -> within P (emit (H:=H) ev).
Proof.
  intros Hev w. exists [ev]. split; [apply journal_emit | by constructor].
Qed.

Lemma within_print text : within P (print (H:=H) text).
Proof. by apply within_emit. Qed.

Lemma within_print_exc e : within P (print_exc (H:=H) e).
Proof. by apply within_emit. Qed.

Lemma within_append p text : P p = true -> within P (append_file (H:=H) p text).
Proof. intros Hp. by apply within_emit. Qed.

Lemma within_dump p doc : P p = true -> within P (dump_file (H:=H) p doc).
Proof. intros Hp. by apply within_emit. Qed.

Lemma within_write p text : P p = true -> within P (emit (H:=H) (Write p text)).
Proof. intros Hp. by apply within_emit. Qed.

Lemma within_rename src dst :
  P src = true -> P dst = true -> within P (rename (H:=H) src dst).
Proof.
  intros Hsrc Hdst w. unfold rename. destruct (files w !! src).
  - exists [Rename src dst]. split; [apply journal_emit|].
    by repeat constructor.
  - exists []. split; [apply journal_refl | constructor].
Qed.

Lemma quiet_touching ev :
  (forall p, is_log_name p.2 = true -> P p = true) ->
  quiet ev -> touching P ev.
Proof. intros Hlogs. destruct ev; simpl; try done. apply Hlogs. Qed.

Lemma within_quietly {A} (m : M H A) :
  (forall p, is_log_name p.2 = true -> P p = true) ->
  quietly m -> within P m.
Proof.
  intros Hlogs Hm w. destruct (Hm w) as (evs & J & Q). exists evs. split; [done|].
  eapply Forall_impl; [exact Q|]. intros ev. by apply quiet_touching.
Qed.

Lemma within_for_each {A} (xs : list A) (body : A -> M H unit) :
  (forall x, within P (body x)) -> within P (for_each xs body).
Proof.
  intros Hbody. induction xs as [|x xs IH]; cbn [for_each].
  - apply within_ret.
  - apply within_bind; [apply Hbody | intros _; apply IH].
Qed.

(** Such events leave every file alone that does not satisfy [P]. *)
Lemma touching_frame fs ev p :
  touching P ev -> P p = false -> apply_event fs ev !! p = fs !! p.
Proof.
  intros Hev Hp.
  assert (Hne : forall q : path, P q = true -> q <> p) by (intros q Hq ->; congruence).
  destruct ev as [| |q doc|q text|q text|src dst|]; simpl in *; try done.
  - by rewrite lookup_insert_ne by by apply Hne.
  - by rewrite lookup_insert_ne by by apply Hne.
  - by rewrite lookup_insert_ne by by apply Hne.
  - destruct Hev as [Hsrc Hdst]. destruct (fs !! src); [|done].
    rewrite lookup_insert_ne by by apply Hne.
    by rewrite lookup_delete_ne by by apply Hne.
Qed.

Lemma within_frame {A} (m : M H A) w p :
  within P m -> P p = false -> files (m w).2 !! p = files w !! p.
Proof.
  intros Hm Hp. destruct (Hm w) as (evs & [_ ->] & Hevs).
  generalize (files w). induction Hevs as [|ev evs Hev _ IH]; intros fs; [done|].
  simpl. rewrite IH. by apply touching_frame.
Qed.

Lemma within_preserves {A} (m : M H A) p body :
  within P m -> P p = false -> preserves p body m.
Proof. intros Hm Hp w Hw. by rewrite within_frame. Qed.

End Within.

Section Preserves.
Context `{Platform H}.
Variables (p : path) (body : string).

Lemma preserves_bind {A B} (m : M H A) (k : A -> M H B) :
  preserves p body m -> (forall a, preserves p body (k a)) -> preserves p body (m ≫= k).
Proof.
  intros Hm Hk w Hw. specialize (Hm w Hw).
  unfold mbind, M_bind, bind. destruct (m w) as [[a|e] w1]; [by apply Hk | done].
Qed.

Lemma preserves_try_catch {A} (m : M H A) (handler : exn -> M H A) :
  preserves p body m -> (forall e, preserves p body (handler e)) ->
  preserves p body (try_catch m handler).
Proof.
  intros Hm Hh w Hw. specialize (Hm w Hw).
  unfold try_catch. destruct (m w) as [[a|e] w1]; [done | by apply Hh].
Qed.

Lemma preserves_for_each {A} (xs : list A) (f : A -> M H unit) :
  (forall x, preserves p body (f x)) -> preserves p body (for_each xs f).
Proof.
  intros Hf. induction xs as [|x xs IH]; cbn [for_each]; [by intros w|].
  apply preserves_bind; [apply Hf | intros _; apply IH].
Qed.

End Preserves.

Lemma log_is_poller_file p : is_log_name p.2 = true -> poller_file p = true.
Proof. unfold poller_file, is_poller_name. by intros ->. Qed.

Lemma command_is_poller_file dir file :
  is_command_file file = true -> poller_file (dir, file) = true.
Proof. unfold poller_file, is_poller_name. simpl. intros ->. by rewrite orb_true_r. Qed.

Lemma response_is_poller_file dir id : poller_file (dir, response_name id) = true.
Proof. by destruct id. Qed.

Lemma archive_is_signal_file dir rest :
  signal_file (dir, "processed_message_" +:+ rest) = true.
Proof. by destruct rest. Qed.

(** Break a computation into its steps, down to the primitives and to
    what is known already; the conditions on the files are left. *)
Ltac within_steps :=
  repeat first
    [ match goal with Hm : _ |- within _ _ => apply Hm end
    | apply within_ret | apply within_raise | apply within_lift
    | apply within_print | apply within_print_exc
    | apply within_ctime | apply within_now
    | apply within_path_exists | apply within_read_file | apply within_os_listdir
    | apply within_append
    | apply within_dump
    | apply within_rename
    | apply within_write
    | apply within_bind; [|intros ?]
    | apply within_try_catch_json; [|intros ?]
    | apply within_try_catch; [|intros ?]
    | match goal with |- within _ (if ?b then _ else _) => destruct b end ].

Section Poller.
Context `{Platform H}.
Variable workspace_comm_dir : string.
Implicit Types (w : world H) (evs : list event) (fs : gmap path string).

Lemma create_message_box_command_within P message :
  (forall p, is_log_name p.2 = true -> P p = true) ->
  within P (create_message_box_command workspace_comm_dir message).
Proof. intros HP. by apply within_quietly, create_message_box_command_quiet. Qed.

Lemma compute_result_within P command_file command_id :
  (forall p, is_log_name p.2 = true -> P p = true) ->
  within P (compute_result workspace_comm_dir command_file command_id).
Proof. intros HP. by apply within_quietly, compute_result_quiet. Qed.

Lemma log_is_signal_file p : is_log_name p.2 = true -> signal_file p = true.
Proof. unfold signal_file. by intros ->. Qed.

Lemma poll_signal_within dir :
  within signal_file (poll_signal workspace_comm_dir dir).
Proof.
  unfold poll_signal.
  pose proof (fun message =>
                create_message_box_command_within signal_file message log_is_signal_file).
  within_steps; first [reflexivity | apply archive_is_signal_file].
Qed.

Lemma log_is_visit_file dir file id p :
  is_log_name p.2 = true -> visit_file dir file id p = true.
Proof. unfold visit_file. by intros ->. Qed.

Lemma visit_within dir file id :
  extract_command_id file = Some id ->
  within (visit_file dir file id) (visit workspace_comm_dir dir file).
Proof.
  intros Hid. unfold visit. rewrite Hid.
  destruct (is_command_file file); [|apply within_ret].
  unfold dispatch.
  pose proof (fun command_file command_id =>
                compute_result_within (visit_file dir file id) command_file command_id
                                      (log_is_visit_file dir file id)).
  within_steps; unfold visit_file;
    repeat (apply orb_true_iff; first [right; by apply bool_decide_eq_true_2 | left]).
Qed.

Lemma visit_within_poller dir file :
  within poller_file (visit workspace_comm_dir dir file).
Proof.
  unfold visit.
  destruct (is_command_file file) eqn:Hfile; [|apply within_ret].
  destruct (extract_command_id file) as [id|]; [|within_steps].
  unfold dispatch.
  pose proof (fun command_file command_id =>
                compute_result_within poller_file command_file command_id
                                      log_is_poller_file).
  within_steps;
    first [reflexivity | apply response_is_poller_file | by apply command_is_poller_file].
Qed.

Lemma scan_within_poller dir listing :
  within poller_file (scan workspace_comm_dir dir listing).
Proof. apply within_for_each. intros file. apply visit_within_poller. Qed.

Lemma poll_dir_within dir :
  within poller_file (poll_dir workspace_comm_dir dir).
Proof.
  unfold poll_dir, poll_signal.
  pose proof (fun message =>
                create_message_box_command_within poller_file message log_is_poller_file).
  pose proof scan_within_poller.
  within_steps; reflexivity.
Qed.

Lemma monitor_loop_within dirs flags :
  within poller_file (monitor_loop workspace_comm_dir dirs flags).
Proof.
  induction flags as [|running later IH]; cbn [monitor_loop]; [apply within_ret|].
  destruct running; [|apply within_ret].
  apply within_bind; [|intros _; apply IH].
  apply within_for_each, poll_dir_within.
Qed.

Lemma file_monitor_thread_within dirs flags :
  within poller_file (file_monitor_thread workspace_comm_dir dirs flags).
Proof.
  unfold file_monitor_thread.
  pose proof monitor_loop_within.
  within_steps; reflexivity.
Qed.

(** X20.  The poller thread works on its own files only: whatever the
    directories hold and however long it runs, a file whose name is
    none of the poller's (a debug log, a command file, a response, a
    tombstone or archive, the signal file and its log, [error.txt],
    [file_monitor_status.txt]) is neither written, appended to, renamed
    nor replaced. *)
Theorem poller_leaves_other_files_alone :
  forall comm_dirs flags w dir name,
    is_poller_name name = false ->
    files (file_monitor_thread workspace_comm_dir comm_dirs flags w).2 !! (dir, name)
    = files w !! (dir, name).
Proof.
  intros comm_dirs flags w dir name Hname.
  apply (within_frame poller_file); [apply file_monitor_thread_within | exact Hname].
Qed.

Section Responses.
Variables (dir0 id0 body : string).

Lemma visit_preserves_response dir file :
  preserves (dir0, response_name id0) body (visit workspace_comm_dir dir file).
Proof.
  intros w Hw.
  destruct (is_command_file file) eqn:Hfile.
  2: { unfold visit. by rewrite Hfile. }
  destruct (extract_command_id file) as [id|] eqn:Hid.
  2: { rewrite (within_frame (fun _ => false)); [done| |done].
       unfold visit. rewrite Hfile, Hid. within_steps. }
  destruct (files w !! (dir, processed_name id)) as [done_before|] eqn:Hp.
  { rewrite (visit_marked _ dir file id w Hfile Hid); [done | left; by rewrite Hp]. }
  destruct (files w !! (dir, response_name id)) as [answered|] eqn:Hr.
  { rewrite (visit_marked _ dir file id w Hfile Hid); [done | right; by rewrite Hr]. }
  rewrite (within_frame (visit_file dir file id)); [done | by apply visit_within |].
  unfold visit_file. cbn [snd].
  rewrite response_name_not_log.
  rewrite !bool_decide_eq_false_2; [done| | |].
  - intros E. apply pair_equal_spec in E as [_ E].
    by destruct (response_not_processed id0 id).
  - intros E. rewrite E in Hw. congruence.
  - intros E. apply pair_equal_spec in E as [_ E]. symmetry in E.
    by destruct (command_file_not_response file id0 Hfile).
Qed.

Lemma poll_dir_preserves_response dir :
  preserves (dir0, response_name id0) body (poll_dir workspace_comm_dir dir).
Proof.
  unfold poll_dir. apply preserves_try_catch.
  - apply preserves_bind.
    + apply (within_preserves signal_file); [apply poll_signal_within | by destruct id0].
    + intros _. apply preserves_bind; [by intros w|].
      intros listing. apply preserves_for_each, visit_preserves_response.
  - intros e. apply (within_preserves status_file); [|by destruct id0].
    within_steps; reflexivity.
Qed.

Lemma monitor_loop_preserves_response dirs flags :
  preserves (dir0, response_name id0) body (monitor_loop workspace_comm_dir dirs flags).
Proof.
  induction flags as [|running later IH]; cbn [monitor_loop]; [by intros w|].
  destruct running; [|by intros w].
  apply preserves_bind; [|intros _; apply IH].
  apply preserves_for_each, poll_dir_preserves_response.
Qed.

End Responses.

(** X22.  A response, once written, stays as it is: however many passes the
    poller thread makes and whatever command files come in, it never
    rewrites, renames or removes a response file that it finds. *)
Theorem responses_are_never_overwritten :
  forall comm_dirs flags w dir id body,
    files w !! (dir, response_name id) = Some body ->
    files (file_monitor_thread workspace_comm_dir comm_dirs flags w).2
      !! (dir, response_name id)
    = Some body.
Proof.
  intros comm_dirs flags w dir id body.
  revert w. change (preserves (dir, response_name id) body
                      (file_monitor_thread workspace_comm_dir comm_dirs flags)).
  unfold file_monitor_thread. apply preserves_try_catch.
  - apply preserves_bind.
    { apply (within_preserves status_file); [within_steps | by destruct id]. }
    intros _. apply preserves_bind; [by intros w|].
    intros t. apply preserves_bind.
    { apply (within_preserves status_file); [within_steps; reflexivity | by destruct id]. }
    intros _. apply monitor_loop_preserves_response.
  - intros e. apply (within_preserves status_file); [|by destruct id].
    within_steps; reflexivity.
Qed.

End Poller.

Lemma poller_leaves_other_files_alone_example :
  files (file_monitor_thread Fixture.dir [Fixture.dir] [true; true; false]
           (Fixture.world_with [ ((Fixture.dir, "command_7.json"), "tools")
                               ; ((Fixture.dir, "notes.txt"), "keep") ])).2
    !! (Fixture.dir, "notes.txt")
  = files (Fixture.world_with [ ((Fixture.dir, "command_7.json"), "tools")
                              ; ((Fixture.dir, "notes.txt"), "keep") ])
      !! (Fixture.dir, "notes.txt").
Proof.
  apply (poller_leaves_other_files_alone Fixture.dir [Fixture.dir] [true; true; false]).
  reflexivity.
Defined.

Lemma responses_are_never_overwritten_example :
  files (file_monitor_thread Fixture.dir [Fixture.dir] [true; false]
           (Fixture.world_with [ ((Fixture.dir, "command_7.json"), "tools")
                               ; ((Fixture.dir, "response_7.json"), "earlier") ])).2
    !! (Fixture.dir, response_name "7")
  = Some "earlier".
Proof.
  apply (responses_are_never_overwritten Fixture.dir [Fixture.dir] [true; false]).
  reflexivity.
Defined.

End FrameFacts.

(* ===================================================================== *)
(** ** Results: the body of the server thread *)
(* ===================================================================== *)

Module ServerFacts.
Import Py Resolver Lifecycle Server.

Lemma on_error_course c message done :
  (on_error c message done).1 <> ReturnsTrue
  /\ forall t, In (Start t) (on_error c message done).2 -> In (Start t) done.
Proof.
  unfold on_error.
  assert (Hsay : forall t extra,
             In (Start t) (done ++ [Say ("Error in MCP server: " +:+ message)] ++ extra) ->
             (forall a, In a extra -> a <> Start t) -> In (Start t) done).
  { intros t extra Hin Hextra. apply in_app_or in Hin as [Hin|Hin]; [done|].
    destruct Hin as [Hin|Hin]; [discriminate|]. by destruct (Hextra _ Hin). }
  destruct (get_workspace_paths (os c)) as [[workspace_path workspace_comm_dir]|x].
  2: { split; [discriminate|]. intros t Hin.
       apply (Hsay t []); [by rewrite app_nil_r | by intros other []]. }
  destruct (os_path_exists c workspace_path).
  2: { split; [discriminate|]. intros t Hin.
       apply (Hsay t []); [by rewrite app_nil_r | by intros other []]. }
  destruct (makedirs (os c) workspace_comm_dir).
  - split; [discriminate|]. intros t Hin. cbn [snd] in Hin.
    apply (Hsay t [WriteFile "mcp_server_error.txt"]); [by rewrite app_assoc|].
    intros other [<-|[]]. discriminate.
  - split; [discriminate|]. intros t Hin.
    apply (Hsay t []); [by rewrite app_nil_r | by intros other []].
Qed.

Lemma ready_files_raise c workspace_path workspace_comm_dir :
  ready_files c workspace_path workspace_comm_dir
  = inl "unsupported operand type(s) for /: 'str' and 'str'".
Proof. reflexivity. Qed.

(** X23.  [run_mcp_server] never serves: whatever the installation, the
    function does not return True, and it starts neither the uvicorn
    thread nor the poller thread.  When nothing fails before, the list
    of ready files of line 452 does: the communication directory is a
    [str], which has no [/]. *)
Theorem run_mcp_server_never_serves :
  forall c,
    (run_mcp_server c).1 <> ReturnsTrue
    /\ ~ In (Start UvicornThread) (run_mcp_server c).2
    /\ ~ In (Start FileMonitorThread) (run_mcp_server c).2.
Proof.
  intros c.
  assert (Hfail : forall message,
             (on_error c message []).1 <> ReturnsTrue
             /\ ~ In (Start UvicornThread) (on_error c message []).2
             /\ ~ In (Start FileMonitorThread) (on_error c message []).2).
  { intros message. destruct (on_error_course c message []) as [Hres Hstart].
    split; [exact Hres|]. split; intros Hin; by apply Hstart in Hin. }
  unfold run_mcp_server.
  destruct (imports c); [apply Hfail|].
  destruct (get_workspace_paths (os c)) as [[workspace_path workspace_comm_dir]|x];
    [|apply Hfail].
  destruct (setup c); [apply Hfail|].
  rewrite ready_files_raise. apply Hfail.
Qed.

(** X24.  On an installation where the imports, the resolver and the set-up
    of the tools all succeed, [run_mcp_server] ends in its handler with
    the TypeError of line 452: it prints the error, writes
    [mcp_server_error.txt] and returns False. *)
Theorem run_mcp_server_fails_on_the_ready_files :
  forall c workspace_path workspace_comm_dir,
    imports c = None ->
    setup c = None ->
    get_workspace_paths (os c) = Ret (workspace_path, workspace_comm_dir) ->
    os_path_exists c workspace_path = true ->
    run_mcp_server c
    = (ReturnsFalse,
       [ Say ("Error in MCP server: "
                +:+ "unsupported operand type(s) for /: 'str' and 'str'")
       ; WriteFile "mcp_server_error.txt" ]).
Proof.
  intros c workspace_path workspace_comm_dir Himports Hsetup Hpaths Hexists.
  unfold run_mcp_server. rewrite Himports, Hpaths, Hsetup, ready_files_raise.
  unfold on_error. rewrite Hpaths, Hexists.
  assert (Hmk : makedirs (os c) workspace_comm_dir = Ret tt).
  { unfold get_workspace_paths, makedirs in *.
    destruct (makedirs_ok (os c) (Resolver.join (choose_workspace (os c)) "mcp_comm")) eqn:E1.
    - injection Hpaths as <- <-. by rewrite E1.
    - destruct (makedirs_ok (os c) (Resolver.join (addon_path (os c)) "mcp_comm")) eqn:E2;
        [|discriminate].
      injection Hpaths as <- <-. by rewrite E2. }
  by rewrite Hmk.
Qed.

Lemma run_mcp_server_healthy_example :
  run_mcp_server healthy
  = (ReturnsFalse,
     [ Say ("Error in MCP server: "
              +:+ "unsupported operand type(s) for /: 'str' and 'str'")
     ; WriteFile "mcp_server_error.txt" ]).
Proof.
  apply (run_mcp_server_fails_on_the_ready_files
           healthy "/addins/MCPserve/.." "/addins/MCPserve/../mcp_comm");
    reflexivity.
Defined.

End ServerFacts.

(* ===================================================================== *)
(** ** Results: the whole of [start_server] *)
(* ===================================================================== *)

Module StartupFacts.
Import Py Lifecycle Startup LifecycleFacts.

Lemma server_thread_func_is_quiet (ending : run_result) (g : namespace) :
  Forall (fun a => starts_or_waits a = false) (server_thread_func ending g).2.
Proof. destruct ending; cbn; repeat constructor. Qed.

Lemma thread_exit_is_quiet t ending p :
  exists acts, trace (thread_exit t ending p) = trace p ++ acts /\ Forall (fun a => starts_or_waits a = false) acts.
Proof.
  destruct t; simpl; try (exists []; split; [symmetry; apply app_nil_r | constructor]).
  pose proof (server_thread_func_is_quiet ending (globals p)) as Hq.
  destruct (server_thread_func ending (globals p)) as [[g l] acts].
  exists acts. split; [reflexivity | exact Hq].
Qed.

Lemma age_thread_is_quiet ms t p :
  exists acts, trace (age_thread ms t p) = trace p ++ acts /\ Forall (fun a => starts_or_waits a = false) acts.
Proof.
  unfold age_thread.
  destruct (threads p t) as [|[todo|] ending|];
    try (exists []; split; [symmetry; apply app_nil_r | constructor]).
  destruct (todo <=? ms)%nat; simpl;
    [apply thread_exit_is_quiet | exists []; split; [symmetry; apply app_nil_r | constructor]].
Qed.

(** While time passes, no thread is started and none is waited for. *)
Lemma advance_is_quiet ms p :
  exists acts, trace (advance ms p) = trace p ++ acts /\ Forall (fun a => starts_or_waits a = false) acts.
Proof.
  unfold advance; simpl.
  destruct (age_thread_is_quiet ms ServerThread p) as (a1 & E1 & J1).
  destruct (age_thread_is_quiet ms UvicornThread (age_thread ms ServerThread p))
    as (a2 & E2 & J2).
  destruct (age_thread_is_quiet ms FileMonitorThread
              (age_thread ms UvicornThread (age_thread ms ServerThread p)))
    as (a3 & E3 & J3).
  exists (a1 ++ a2 ++ a3). split.
  - rewrite E3, E2, E1. by rewrite <- !app_assoc.
  - by repeat apply Forall_app_2.
Qed.

(** The test of line 864, on a module whose server runs. *)
Lemma running_check p q :
  globals p = globals q -> threads p = threads q ->
  truthy (globals q !! "server_running") = true ->
  truthy (globals q !! "server_thread") = true ->
  server_thread_alive q = true ->
  truthy (globals p !! "server_running")
  && truthy (globals p !! "server_thread")
  && server_thread_alive p = true.
Proof.
  intros Hg Ht Hflag Hthread Halive.
  unfold server_thread_alive in *. rewrite Hg, Ht, Hflag, Hthread. exact Halive.
Qed.

(** The log file of the start changes no name of the module and no
    thread, and takes no time. *)
Lemma write_start_log_course s p :
  let r := write_start_log s p in
  globals r.2 = globals p /\ threads r.2 = threads p /\ clock r.2 = clock p
  /\ (r.2 = p \/ (r.1 = Ret tt /\ r.2 = act (WriteFile "mcp_server_log.txt") p)).
Proof.
  cbv zeta. unfold write_start_log.
  destruct (Resolver.get_workspace_paths (os s)) as [[workspace comm]|e]; [|by auto].
  destruct (os_path_exists s workspace); [|by auto].
  destruct (Resolver.makedirs (os s) comm) as [[]|e]; [|by auto].
  destruct (can_write s _); cbn; auto 10.
Qed.

(** Nor does the look for the packages, which only prints. *)
Lemma check_mcp_installed_course s p :
  let r := check_mcp_installed s p in
  globals r.2 = globals p /\ threads r.2 = threads p /\ clock r.2 = clock p
  /\ exists acts, trace r.2 = trace p ++ acts /\ Forall (fun a => starts_or_waits a = false) acts.
Proof.
  cbv zeta. unfold check_mcp_installed, try_import.
  destruct (import_mcp s), (import_uvicorn s); cbn;
    (split; [reflexivity|]); (split; [reflexivity|]); (split; [reflexivity|]);
    rewrite <- ?app_assoc;
    first [ by (exists []; rewrite app_nil_r; split; [|constructor])
          | eexists; split; [reflexivity|]; by repeat constructor ].
Qed.

(** On a module whose server runs, [start_server] comes to the test of
    line 864 or ends before it; it does not come to the lines after
    it. *)
Lemma start_server_when_running s spawned q :
  truthy (globals q !! "server_running") = true ->
  truthy (globals q !! "server_thread") = true ->
  server_thread_alive q = true ->
  start_server s spawned q =
    match write_start_log s (act (Say "Starting MCP server...") q) with
    | (Raise e, p) => (Raise e, p)
    | (Ret _, p) =>
        match check_mcp_installed s p with
        | (Raise e, p) => (Raise e, p)
        | (Ret false, p) =>
            (Ret false,
             advance (dismissed_after s)
               (act (MessageBox
                       ("Required packages are not installed. Please install them with:"
                          +:+ Poller.nl +:+ "pip install " +:+ Poller.dq +:+ "mcp[cli]"
                          +:+ Poller.dq +:+ " uvicorn"))
                  (act (Say "Required packages not installed. Cannot start server.") p)))
        | (Ret true, p) => (Ret true, act (Say "MCP server is already running") p)
        end
    end.
Proof.
  intros Hflag Hthread Halive. unfold start_server.
  set (p0 := act (Say "Starting MCP server...") q).
  destruct (write_start_log_course s p0) as (Hg1 & Ht1 & _).
  destruct (write_start_log s p0) as [[[]|e] p1]; cbn [fst snd] in Hg1, Ht1; [|reflexivity].
  destruct (check_mcp_installed_course s p1) as (Hg2 & Ht2 & _).
  destruct (check_mcp_installed s p1) as [[[|]|e] p2]; cbn [fst snd] in Hg2, Ht2;
    [|reflexivity..].
  rewrite (running_check p2 q); [reflexivity| |by rewrite Ht2, Ht1|done..].
  by rewrite Hg2, Hg1.
Qed.

(** X2.  Starting a server that runs.  A [start_server] that finds the flag
    set and the server thread alive starts no second thread and waits
    for nothing, however it ends, and it changes no name of the module.
    But it does more than print: it resolves the workspace again, writes
    the log [mcp_server_log.txt] anew where the workspace path exists,
    and looks for the two packages, before it comes to the test of the
    flag.  Where all of that goes well, it returns True, after the lines
    of the packages and the line that the server is already running,
    with the threads and the clock as they were.  Where the workspace
    cannot be resolved or the log cannot be opened, it raises after its
    first line. *)
Theorem start_server_on_a_running_server_starts_no_thread s spawned q :
  truthy (globals q !! "server_running") = true ->
  truthy (globals q !! "server_thread") = true ->
  server_thread_alive q = true ->
  let second := start_server s spawned q in
  globals second.2 = globals q
  /\ (exists acts,
        trace second.2 = trace q ++ Say "Starting MCP server..." :: acts
        /\ Forall (fun a => starts_or_waits a = false) acts)
  /\ (forall workspace comm mcp_file uvicorn_file,
        Resolver.get_workspace_paths (os s) = Ret (workspace, comm) ->
        (os_path_exists s workspace = true ->
         can_write s (Resolver.join comm "mcp_server_log.txt") = true) ->
        import_mcp s = Found mcp_file ->
        import_uvicorn s = Found uvicorn_file ->
        second.1 = Ret true
        /\ threads second.2 = threads q
        /\ clock second.2 = clock q
        /\ trace second.2 =
             trace q ++ [Say "Starting MCP server..."]
                     ++ (if os_path_exists s workspace
                         then [WriteFile "mcp_server_log.txt"] else [])
                     ++ [ Say ("Found MCP package at: " +:+ mcp_file)
                        ; Say ("Found uvicorn package at: " +:+ uvicorn_file)
                        ; Say "MCP server is already running" ])
  /\ (forall e,
        Resolver.get_workspace_paths (os s) = Raise e ->
        second = (Raise e, act (Say "Starting MCP server...") q))
  /\ (forall workspace comm,
        Resolver.get_workspace_paths (os s) = Ret (workspace, comm) ->
        os_path_exists s workspace = true ->
        can_write s (Resolver.join comm "mcp_server_log.txt") = false ->
        second = (Raise (Exn OSError
                           ("[Errno 13] Permission denied: '"
                              +:+ Resolver.join comm "mcp_server_log.txt" +:+ "'")),
                  act (Say "Starting MCP server...") q)).
Proof.
  intros Hflag Hthread Halive second. subst second.
  rewrite (start_server_when_running s spawned q Hflag Hthread Halive).
  set (p0 := act (Say "Starting MCP server...") q).
  assert (Hmakedirs : forall workspace comm,
            Resolver.get_workspace_paths (os s) = Ret (workspace, comm) ->
            Resolver.makedirs (os s) comm = Ret tt).
  { intros workspace comm Hres.
    unfold Resolver.get_workspace_paths, Resolver.makedirs in *.
    destruct (Resolver.makedirs_ok (os s)
                (Resolver.join (Resolver.choose_workspace (os s)) "mcp_comm")) eqn:E1.
    - injection Hres as <- <-. by rewrite E1.
    - destruct (Resolver.makedirs_ok (os s)
                  (Resolver.join (Resolver.addon_path (os s)) "mcp_comm")) eqn:E2;
        [|discriminate].
      injection Hres as <- <-. by rewrite E2. }
  split; [|split; [|split; [|split]]].
  - destruct (write_start_log_course s p0) as (Hg1 & _).
    destruct (write_start_log s p0) as [[[]|e] p1]; cbn [fst snd] in Hg1; [|exact Hg1].
    destruct (check_mcp_installed_course s p1) as (Hg2 & _).
    destruct (check_mcp_installed s p1) as [[[|]|e] p2]; cbn [fst snd] in Hg2; cbn [snd].
    + cbn [act globals]. by rewrite Hg2, Hg1.
    + rewrite advance_globals. cbn [act globals]. by rewrite Hg2, Hg1.
    + by rewrite Hg2, Hg1.
  - assert (Hlog : exists acts1,
              trace (write_start_log s p0).2 = trace q ++ Say "Starting MCP server..." :: acts1
              /\ Forall (fun a => starts_or_waits a = false) acts1).
    { destruct (write_start_log_course s p0) as (_ & _ & _ & [->|[_ ->]]).
      - exists []. split; [reflexivity | constructor].
      - exists [WriteFile "mcp_server_log.txt"].
        split; [subst p0; cbn [act trace]; by rewrite <- app_assoc | by repeat constructor]. }
    destruct Hlog as (acts1 & Htr1 & Hq1).
    destruct (write_start_log s p0) as [[[]|e] p1]; cbn [fst snd] in Htr1; cbn [snd];
      [|by exists acts1].
    destruct (check_mcp_installed_course s p1) as (_ & _ & _ & acts2 & Htr2 & Hq2).
    destruct (check_mcp_installed s p1) as [[[|]|e] p2]; cbn [fst snd] in Htr2; cbn [snd].
    + exists (acts1 ++ acts2 ++ [Say "MCP server is already running"]).
      cbn [act trace]. rewrite Htr2, Htr1.
      split; [by rewrite <- !app_assoc|].
      repeat apply Forall_app_2; try done. by repeat constructor.
    + match goal with
      | |- context [advance ?ms ?p] =>
          destruct (advance_is_quiet ms p) as (acts3 & -> & Hq3)
      end.
      cbn [act trace]. rewrite Htr2, Htr1.
      eexists (acts1 ++ acts2 ++ [_; _] ++ acts3).
      split; [by rewrite <- !app_assoc|].
      repeat apply Forall_app_2; try done. by repeat constructor.
    + exists (acts1 ++ acts2). rewrite Htr2, Htr1.
      split; [by rewrite <- !app_assoc|]. by apply Forall_app_2.
  - intros workspace comm mcp_file uvicorn_file Hres Hwrite Hmcp Huvicorn.
    unfold write_start_log. rewrite Hres, (Hmakedirs _ _ Hres).
    unfold check_mcp_installed, try_import. rewrite Hmcp, Huvicorn.
    destruct (os_path_exists s workspace).
    + rewrite (Hwrite eq_refl). subst p0. cbn [fst snd act threads clock trace].
      repeat split. by rewrite <- !app_assoc.
    + subst p0. cbn [fst snd act threads clock trace].
      repeat split. by rewrite <- !app_assoc.
  - intros e Hres. unfold write_start_log. by rewrite Hres.
  - intros workspace comm Hres Hexists Hwrite.
    unfold write_start_log. by rewrite Hres, Hexists, (Hmakedirs _ _ Hres), Hwrite.
Qed.

(** After a start whose thread outlives the grace period, a second start
    in the same place: the log is written again, the packages are looked
    for again, and no second thread is started. *)
Lemma start_server_twice_at_plain_site :
  let first := start_server plain_site (Running None ReturnsTrue) fresh_process in
  let second := start_server plain_site (Running None ReturnsTrue) first.2 in
  first.1 = Ret true
  /\ second.1 = Ret true
  /\ globals second.2 = globals first.2
  /\ threads second.2 = threads first.2
  /\ clock second.2 = clock first.2
  /\ trace second.2 =
       trace first.2 ++ [ Say "Starting MCP server..."
                        ; WriteFile "mcp_server_log.txt"
                        ; Say "Found MCP package at: /lib/mcp/__init__.py"
                        ; Say "Found uvicorn package at: /lib/uvicorn/__init__.py"
                        ; Say "MCP server is already running" ].
Proof.
  cbv zeta.
  destruct (start_server_on_a_running_server_starts_no_thread
              plain_site (Running None ReturnsTrue)
              (start_server plain_site (Running None ReturnsTrue) fresh_process).2
              eq_refl eq_refl eq_refl)
    as (Hglobals & _ & Hfine & _).
  destruct (Hfine _ _ _ _ eq_refl (fun _ => eq_refl) eq_refl eq_refl)
    as (Hret & Hthreads & Hclock & Htrace).
  split; [reflexivity|]. split; [exact Hret|]. split; [exact Hglobals|].
  split; [exact Hthreads|]. split; [exact Hclock|]. exact Htrace.
Defined.

End StartupFacts.

(* ===================================================================== *)
(** ** Results: the poller on a file system with limits *)
(* ===================================================================== *)

Module StrictFacts.
Import PyStr Names Py Poller Protocol Strict NameFacts PollerFacts.

Section Primitives.
Context `{Platform H}.
Variable L : limits.
Implicit Types (w : world H) (evs : list event) (p : path).

Lemma run_create_ok p w :
  name_error L p = None -> create L p w = (Ret tt, w).
Proof. intros Hp. unfold create. by rewrite Hp. Qed.

Lemma run_create_fail p msg w :
  name_error L p = Some msg -> create L p w = (Raise (Exn OSError msg), w).
Proof. intros Hp. unfold create. by rewrite Hp. Qed.

Lemma run_dump_ok p doc w :
  name_error L p = None ->
  Strict.dump_file L p doc w = (Ret tt, (emit (Dump p doc) w).2).
Proof. intros Hp. unfold Strict.dump_file. by rewrite run_bind, run_create_ok. Qed.

Lemma run_dump_fail p doc msg w :
  name_error L p = Some msg ->
  Strict.dump_file L p doc w = (Raise (Exn OSError msg), w).
Proof.
  intros Hp. unfold Strict.dump_file. by rewrite run_bind, (run_create_fail p msg).
Qed.

Lemma run_rename_ok src dst w :
  is_Some (files w !! src) ->
  rename_error L src dst = None ->
  files w !! dst = None ->
  Strict.rename L src dst w = (Ret tt, (emit (Rename src dst) w).2).
Proof.
  intros [body Hsrc] Hdst Hfree. unfold Strict.rename. rewrite Hsrc, Hdst, Hfree.
  rewrite bool_decide_eq_false_2; [done|]. by intros [? ?].
Qed.

Lemma run_rename_fail src dst msg w :
  is_Some (files w !! src) ->
  rename_error L src dst = Some msg ->
  Strict.rename L src dst w = (Raise (Exn OSError msg), w).
Proof. intros [body Hsrc] Hdst. unfold Strict.rename. by rewrite Hsrc, Hdst. Qed.

Lemma run_read_ok p body text w :
  files w !! p = Some body -> read_result L p body = inr text ->
  Strict.read_file L p w = (Ret text, w).
Proof. intros Hp Hd. unfold Strict.read_file. by rewrite Hp, Hd. Qed.

Lemma run_read_fail p body e w :
  files w !! p = Some body -> read_result L p body = inl e ->
  Strict.read_file L p w = (Raise e, w).
Proof. intros Hp Hd. unfold Strict.read_file. by rewrite Hp, Hd. Qed.


Lemma run_strict_append_ctime p (line : string -> string) values w :
  name_error L p = None ->
  first_error L values = None ->
  Strict.append_file L p (t ← ctime; write_text L p (line t) values) w
  = (Ret tt, (emit (Append p (line (time_ctime (host w)))) (emit (Append p "") w).2).2).
Proof.
  intros Hp Hvalues. unfold Strict.append_file, write_text.
  rewrite run_bind, (run_create_ok p w Hp). rewrite run_bind, run_emit.
  rewrite run_bind. unfold ctime. by rewrite Hvalues.
Qed.

Lemma run_strict_append_unnamed p (writes : M H unit) msg w :
  name_error L p = Some msg ->
  Strict.append_file L p writes w = (Raise (Exn OSError msg), w).
Proof.
  intros Hp. unfold Strict.append_file. by rewrite run_bind, (run_create_fail p msg w Hp).
Qed.

Lemma quietly_create p : quietly (create L p).
Proof.
  unfold create. destruct (name_error L p); [apply quietly_raise | apply quietly_ret].
Qed.

Lemma quietly_write_text dir name text values :
  is_log_name name = true -> quietly (write_text L (dir, name) text values).
Proof.
  intros Hn. unfold write_text.
  destruct (first_error L values); [apply quietly_raise | by apply quietly_emit].
Qed.

Lemma quietly_strict_append dir name (writes : M H unit) :
  is_log_name name = true -> quietly writes ->
  quietly (Strict.append_file L (dir, name) writes).
Proof.
  intros Hn Hw. unfold Strict.append_file.
  apply quietly_bind; [apply quietly_create | intros _].
  apply quietly_bind; [by apply quietly_emit | by intros _].
Qed.

Lemma quietly_strict_read_file p : quietly (Strict.read_file L p).
Proof.
  intros w. exists []. unfold Strict.read_file.
  destruct (files w !! p) as [body|]; [destruct (read_result L p body)|];
    (split; [apply journal_refl | constructor]).
Qed.

End Primitives.

(** Break a computation into its steps, down to the primitives. *)
Ltac strict_quiet_steps :=
  repeat first
    [ match goal with Hq : _ |- quietly _ => apply Hq end
    | apply quietly_create
    | apply quietly_write_text; reflexivity
    | apply quietly_strict_append; [reflexivity|]
    | apply quietly_strict_read_file
    | apply quietly_ret | apply quietly_raise | apply quietly_lift
    | apply quietly_print | apply quietly_ctime | apply quietly_now
    | apply quietly_now_millis
    | apply quietly_py_get | apply quietly_host_try | apply quietly_host_call
    | apply quietly_bind; [|intros ?]
    | apply quietly_try_catch; [|intros ?]
    | match goal with |- quietly (if ?b then _ else _) => destruct b end ].

Section Handlers.
Context `{Platform H}.
Variable L : limits.
Variable workspace_comm_dir : string.
Implicit Types (w : world H) (evs : list event).

Lemma strict_create_message_box_command_quiet message :
  quietly (Strict.create_message_box_command L workspace_comm_dir message).
Proof. unfold Strict.create_message_box_command. strict_quiet_steps. Qed.

Lemma strict_handle_message_box_quiet params :
  quietly (Strict.handle_message_box L workspace_comm_dir params).
Proof.
  unfold Strict.handle_message_box.
  pose proof strict_create_message_box_command_quiet.
  strict_quiet_steps.
Qed.

Lemma strict_handle_command_quiet command params :
  quietly (Strict.handle_command L workspace_comm_dir command params).
Proof.
  unfold Strict.handle_command.
  pose proof strict_handle_message_box_quiet.
  pose proof (handle_read_resource_quiet (H:=H)).
  pose proof (handle_get_prompt_quiet (H:=H)).
  strict_quiet_steps.
Qed.

Lemma load_command_quiet command_file : quietly (load_command L command_file).
Proof. unfold load_command. strict_quiet_steps. Qed.

Lemma strict_compute_result_quiet command_file command_id :
  quietly (Strict.compute_result L workspace_comm_dir command_file command_id).
Proof.
  unfold Strict.compute_result.
  pose proof load_command_quiet. pose proof strict_handle_command_quiet.
  strict_quiet_steps.
Qed.

(** A result can only come from a file that was there to be read. *)
Lemma strict_compute_result_reads command_file command_id w result :
  (Strict.compute_result L workspace_comm_dir command_file command_id w).1 = Ret result ->
  is_Some (files w !! command_file).
Proof.
  unfold Strict.compute_result, load_command, mbind, M_bind, bind, Strict.read_file.
  destruct (files w !! command_file); [eauto | discriminate].
Qed.

End Handlers.

Section Visit.
Context `{Platform H}.
Variable L : limits.
Variable workspace_comm_dir : string.
Implicit Types (w : world H) (evs : list event).

(** A request that is marked is skipped, and nothing happens at all. *)
Lemma strict_visit_marked dir file id w :
  is_command_file file = true ->
  extract_command_id file = Some id ->
  marked (files w) dir id ->
  Strict.visit L workspace_comm_dir dir file w = (Ret tt, w).
Proof.
  intros Hfile Hid Hmarked. unfold Strict.visit. rewrite Hfile, Hid.
  unfold try_catch, mbind, M_bind, bind, path_exists.
  destruct Hmarked as [Hp|Hr].
  - by rewrite (bool_decide_eq_true_2 _ Hp).
  - rewrite (bool_decide_eq_true_2 _ Hr). by rewrite orb_true_r.
Qed.

(** The handler of line 789 at work on the exception [e]. *)
Lemma run_outer_handler dir file id e w :
  let note := Print ("Error processing command file " +:+ path_str (dir, file)
                       +:+ ": " +:+ exn_str e) in
  let w2 := (emit (Traceback e) (emit note w).2).2 in
  (print ("Error processing command file " +:+ path_str (dir, file)
            +:+ ": " +:+ exn_str e);;
   print_exc e;;
   try_catch
     (Strict.dump_file L (dir, response_name id) (JObj [("error", JStr (exn_str e))]))
     (fun _ => mret tt)) w
  = (Ret tt,
     match name_error L (dir, response_name id) with
     | None => (emit (Dump (dir, response_name id)
                           (JObj [("error", JStr (exn_str e))])) w2).2
     | Some _ => w2
     end).
Proof.
  cbv zeta. rewrite run_bind, run_print, run_bind, run_print_exc. unfold try_catch.
  destruct (name_error L (dir, response_name id)) as [msg|] eqn:Hresp.
  - by rewrite (run_dump_fail L _ _ msg _ Hresp).
  - by rewrite run_dump_ok.
Qed.

(** A request that is not marked is handled: events that touch no
    protocol file, then the ending; and the visit returns. *)
Lemma strict_visit_unmarked dir file id w :
  is_command_file file = true ->
  extract_command_id file = Some id ->
  ~ marked (files w) dir id ->
  let w0 := (emit (Print ("Processing command file: " +:+ path_str (dir, file))) w).2 in
  let response_file := (dir, response_name id) in
  let processed_file := (dir, processed_name id) in
  exists quiet_evs close w',
    Strict.visit L workspace_comm_dir dir file w = (Ret tt, w')
    /\ journal w w' (quiet_evs ++ close)
    /\ Forall quiet quiet_evs
    /\ ending dir file id close
    /\ (name_error L response_file = None -> close <> [])
    /\ (is_Some (name_error L response_file) -> close = [])
    /\ (forall result w1,
          Strict.compute_result L workspace_comm_dir (dir, file) id w0 = (Ret result, w1) ->
          name_error L response_file = None ->
          match rename_error L (dir, file) processed_file with
          | None =>
              close = [ Dump response_file (JObj [("result", result)])
                      ; Rename (dir, file) processed_file ]
          | Some msg =>
              close = [ Dump response_file (JObj [("result", result)])
                      ; Print ("Error processing command file " +:+ path_str (dir, file)
                                 +:+ ": " +:+ msg)
                      ; Traceback (Exn OSError msg)
                      ; Dump response_file (JObj [("error", JStr msg)]) ]
          end)
    /\ (forall e w1,
          Strict.compute_result L workspace_comm_dir (dir, file) id w0 = (Raise e, w1) ->
          name_error L response_file = None ->
          close = [ Dump response_file
                         (JObj [("error", JStr (error_prefix e +:+ exn_str e))]) ]).
Proof.
  intros Hfile Hid Hfree w0 response_file processed_file.
  subst response_file processed_file.
  unfold Strict.visit. rewrite Hfile, Hid.
  assert (Hp : ~ is_Some (files w !! (dir, processed_name id)))
    by (intros ?; apply Hfree; by left).
  assert (Hr : ~ is_Some (files w !! (dir, response_name id)))
    by (intros ?; apply Hfree; by right).
  assert (Hcr : (dir, file) <> (dir, response_name id)).
  { apply path_ne. by apply command_file_not_response. }
  assert (Hrp : (dir, response_name id) <> (dir, processed_name id)).
  { apply path_ne, response_not_processed. }
  unfold try_catch at 1.
  rewrite run_bind, (run_path_exists_false _ _ Hp).
  rewrite run_bind, (run_path_exists_false _ _ Hr). cbn [orb].
  rewrite run_bind, run_print. fold w0.
  pose (start := Print ("Processing command file: " +:+ path_str (dir, file))).
  assert (J0 : journal w w0 [start]) by apply journal_emit.
  unfold try_catch_json, Strict.dispatch. rewrite run_bind.
  destruct (strict_compute_result_quiet L workspace_comm_dir (dir, file) id w0)
    as (evs & J1 & Q1).
  pose proof (strict_compute_result_reads L workspace_comm_dir (dir, file) id w0) as Hread.
  destruct (Strict.compute_result L workspace_comm_dir (dir, file) id w0) as [[result|e] w1];
    cbn [fst snd] in J1, Hread.
  - (* a result *)
    specialize (Hread result eq_refl).
    assert (Hquiet_part : journal w w1 (start :: evs)).
    { change (start :: evs) with ([start] ++ evs). by eapply journal_trans. }
    destruct (name_error L (dir, response_name id)) as [msg|] eqn:Hresp.
    + (* the response cannot be created *)
      rewrite run_bind, (run_dump_fail L _ _ msg _ Hresp). cbv beta iota.
      rewrite (run_outer_handler dir file id (Exn OSError msg) w1).
      rewrite Hresp.
      set (note := Print _). set (tb := Traceback _).
      exists (start :: evs ++ [note; tb]), []. eexists. split; [reflexivity|].
      rewrite app_nil_r. split.
      { change (start :: evs ++ [note; tb]) with ((start :: evs) ++ ([note] ++ [tb])).
        eapply journal_trans; [exact Hquiet_part|].
        eapply journal_trans; apply journal_emit. }
      split.
      { constructor; [done|]. apply Forall_app. split; [done | by repeat constructor]. }
      split; [constructor|]. split; [done|]. split; [done|].
      split; [intros ? ? _ ?; discriminate | intros ? ? ?; discriminate].
    + (* the response is written *)
      rewrite run_bind, (run_dump_ok L _ _ _ Hresp).
      set (answer := Dump _ _). set (w2 := (emit answer w1).2).
      assert (Hfiles1 : forall p, is_log_name p.2 = false ->
                                  files w1 !! p = files w !! p).
      { intros [d n] Hn. destruct J1 as [_ ->].
        by rewrite (quiet_events_frame _ _ d n Q1 Hn). }
      assert (Hthere : is_Some (files w2 !! (dir, file))).
      { subst w2 answer. cbn [files emit snd apply_event].
        rewrite lookup_insert_ne by done.
        destruct J1 as [_ ->]. by apply quiet_events_keep_files. }
      assert (Hfree2 : files w2 !! (dir, processed_name id) = None).
      { subst w2 answer. cbn [files emit snd apply_event].
        rewrite lookup_insert_ne by done.
        rewrite Hfiles1 by apply processed_name_not_log.
        by apply eq_None_not_Some. }
      destruct (rename_error L (dir, file) (dir, processed_name id)) as [msg|] eqn:Hproc.
      * (* the rename fails: the handler writes an error over the result *)
        rewrite (run_rename_fail L _ _ msg _ Hthere Hproc). cbv beta iota.
        rewrite (run_outer_handler dir file id (Exn OSError msg) w2).
        rewrite Hresp. cbn [exn_str].
        set (note := Print _). set (tb := Traceback _). set (over := Dump _ _).
        exists (start :: evs), [answer; note; tb; over]. eexists.
        split; [reflexivity|]. split.
        { eapply journal_trans; [exact Hquiet_part|].
          change [answer; note; tb; over] with ([answer] ++ [note] ++ [tb] ++ [over]).
          repeat (eapply journal_trans; [apply journal_emit|]). apply journal_emit. }
        split; [by constructor|].
        split; [apply (ending_unclaimed dir file id result (Exn OSError msg))|].
        split; [done|]. split; [by intros [? ?]|].
        split; [|intros ? ? ?; discriminate].
        by intros result' w1' [= <- <-] _.
      * (* the rename goes through *)
        rewrite (run_rename_ok L _ _ _ Hthere Hproc Hfree2).
        set (claim := Rename _ _).
        exists (start :: evs), [answer; claim]. eexists. split; [reflexivity|]. split.
        { eapply journal_trans; [exact Hquiet_part|].
          change [answer; claim] with ([answer] ++ [claim]).
          eapply journal_trans; apply journal_emit. }
        split; [by constructor|]. split; [constructor|].
        split; [done|]. split; [by intros [? ?]|].
        split; [|intros ? ? ?; discriminate].
        by intros result' w1' [= <- <-] _.
  - (* an exception *)
    assert (Hquiet_part : journal w w1 (start :: evs)).
    { change (start :: evs) with ([start] ++ evs). by eapply journal_trans. }
    destruct e as [kind msg]. destruct kind.
    1: { (* json.JSONDecodeError: the handler of the inner try *)
      cbv beta iota. cbn [exn_str error_prefix exn_kind].
      rewrite run_bind, run_print. set (note := Print _).
      destruct (name_error L (dir, response_name id)) as [m|] eqn:Hresp.
      - rewrite (run_dump_fail L _ _ m _ Hresp).
        rewrite (run_outer_handler dir file id (Exn OSError m) _).
        rewrite Hresp.
        set (note2 := Print _). set (tb := Traceback _).
        exists (start :: evs ++ [note; note2; tb]), []. eexists. split; [reflexivity|].
        rewrite app_nil_r. split.
        { change (start :: evs ++ [note; note2; tb])
            with ((start :: evs) ++ ([note] ++ [note2] ++ [tb])).
          eapply journal_trans; [exact Hquiet_part|].
          repeat (eapply journal_trans; [apply journal_emit|]). apply journal_emit. }
        split.
        { constructor; [done|]. apply Forall_app. split; [done | by repeat constructor]. }
        split; [constructor|]. split; [done|]. split; [done|].
        split; [intros ? ? ?; discriminate | intros ? ? _ ?; discriminate].
      - rewrite (run_dump_ok L _ _ _ Hresp).
        exists (start :: evs ++ [note]). eexists. eexists. split; [reflexivity|]. split.
        { change (start :: evs ++ [note]) with ((start :: evs) ++ [note]).
          rewrite <- app_assoc.
          eapply journal_trans; [exact Hquiet_part|].
          eapply journal_trans; apply journal_emit. }
        split.
        { constructor; [done|]. apply Forall_app. split; [done | by repeat constructor]. }
        split; [constructor|]. split; [done|]. split; [by intros [? ?]|].
        split; [intros ? ? ?; discriminate|].
        by intros e' w1' [= <- <-] _. }
    (* any other exception: the handler of the outer try *)
    all: cbv beta iota;
      rewrite (run_outer_handler dir file id _ w1);
      cbn [exn_str error_prefix exn_kind];
      set (note := Print _); set (tb := Traceback _);
      (destruct (name_error L (dir, response_name id)) as [m|] eqn:Hresp;
       [ exists (start :: evs ++ [note; tb]), []; eexists; split; [reflexivity|];
         rewrite app_nil_r; split;
         [ change (start :: evs ++ [note; tb]) with ((start :: evs) ++ ([note] ++ [tb]));
           eapply journal_trans; [exact Hquiet_part|];
           eapply journal_trans; apply journal_emit
         | split; [constructor; [done|]; apply Forall_app; split; [done | by repeat constructor]|];
           split; [constructor|]; split; [done|]; split; [done|];
           split; [intros ? ? ?; discriminate | intros ? ? _ ?; discriminate] ]
       | exists (start :: evs ++ [note; tb]); eexists; eexists; split; [reflexivity|];
         split;
         [ change (start :: evs ++ [note; tb]) with ((start :: evs) ++ ([note] ++ [tb]));
           rewrite <- !app_assoc;
           eapply journal_trans; [exact Hquiet_part|];
           eapply journal_trans; [apply journal_emit|];
           eapply journal_trans; apply journal_emit
         | split; [constructor; [done|]; apply Forall_app; split; [done | by repeat constructor]|];
           split; [constructor|]; split; [done|]; split; [by intros [? ?]|];
           split; [intros ? ? ?; discriminate|];
           by intros e' w1' [= <- <-] _ ] ]).
Qed.

(** The shape of every visit: it returns; it makes events that touch
    no protocol file and then either nothing more, or the ending of the
    request. *)
Lemma strict_visit_shape dir file w :
  exists quiet_evs close w',
    Strict.visit L workspace_comm_dir dir file w = (Ret tt, w')
    /\ journal w w' (quiet_evs ++ close)
    /\ Forall quiet quiet_evs
    /\ (close = []
        \/ exists id, is_command_file file = true
                      /\ extract_command_id file = Some id
                      /\ ending dir file id close).
Proof.
  destruct (is_command_file file) eqn:Hfile.
  2: { exists [], [], w. unfold Strict.visit. rewrite Hfile.
       split; [reflexivity|]. split; [apply journal_refl|]. split; [constructor | by left]. }
  destruct (extract_command_id file) as [id|] eqn:Hid.
  2: { unfold Strict.visit. rewrite Hfile, Hid.
       rewrite run_bind, run_print, run_print_exc.
       eexists [_; _], [], _. split; [reflexivity|]. split.
       { change [?a; ?b] with ([a] ++ [b]). rewrite app_nil_r.
         eapply journal_trans; apply journal_emit. }
       split; [by repeat constructor | by left]. }
  destruct (files w !! (dir, processed_name id)) as [done_before|] eqn:Hp.
  { exists [], [], w. rewrite (strict_visit_marked dir file id w Hfile Hid);
      [|left; by rewrite Hp].
    split; [reflexivity|]. split; [apply journal_refl|]. split; [constructor | by left]. }
  destruct (files w !! (dir, response_name id)) as [answered|] eqn:Hr.
  { exists [], [], w. rewrite (strict_visit_marked dir file id w Hfile Hid);
      [|right; by rewrite Hr].
    split; [reflexivity|]. split; [apply journal_refl|]. split; [constructor | by left]. }
  destruct (strict_visit_unmarked dir file id w Hfile Hid)
    as (quiet_evs & close & w' & Hrun & HJ & HQ & Hend & _).
  { intros [[? E]|[? E]]; congruence. }
  exists quiet_evs, close, w'. split; [exact Hrun|]. split; [exact HJ|].
  split; [exact HQ|]. right. by exists id.
Qed.

(** Every visit returns. *)
Lemma strict_visit_returns dir file w :
  (Strict.visit L workspace_comm_dir dir file w).1 = Ret tt.
Proof. destruct (strict_visit_shape dir file w) as (? & ? & ? & -> & _). reflexivity. Qed.

(** An ending that writes something leaves a response. *)
Lemma ending_answers (fs : gmap path string) dir file id close :
  is_command_file file = true ->
  ending dir file id close ->
  close <> [] ->
  is_Some (replay fs close !! (dir, response_name id)).
Proof.
  intros Hfile Hend Hsome. destruct Hend as [|result|result e|text]; simpl; [done| | |].
  - destruct (<[(dir, response_name id):=_]> fs !! (dir, file)) as [body|].
    + rewrite lookup_insert_ne
        by (apply path_ne; intros E; by destruct (response_not_processed id id)).
      rewrite lookup_delete_ne
        by (apply path_ne; by apply command_file_not_response).
      rewrite lookup_insert_eq. eauto.
    + rewrite lookup_insert_eq. eauto.
  - rewrite lookup_insert_eq. eauto.
  - rewrite lookup_insert_eq. eauto.
Qed.

(** An ending removes no file but the command file. *)
Lemma ending_keeps_files (fs : gmap path string) dir file id close name dir' :
  is_command_file file = true ->
  ending dir file id close ->
  is_command_file name = false ->
  is_Some (fs !! (dir', name)) -> is_Some (replay fs close !! (dir', name)).
Proof.
  intros Hfile Hend Hname Hthere. destruct Hend as [|result|result e|text]; simpl.
  - exact Hthere.
  - destruct (<[(dir, response_name id):=_]> fs !! (dir, file)) as [body|].
    + apply insert_keeps_file. rewrite lookup_delete_ne by (apply path_ne; congruence).
      by apply insert_keeps_file.
    + by apply insert_keeps_file.
  - by do 2 apply insert_keeps_file.
  - by apply insert_keeps_file.
Qed.

(** A visit marks its request whenever the response can be created. *)
Lemma strict_visit_marks dir file id w :
  is_command_file file = true ->
  extract_command_id file = Some id ->
  name_error L (dir, response_name id) = None ->
  marked (files (Strict.visit L workspace_comm_dir dir file w).2) dir id.
Proof.
  intros Hfile Hid Hresp.
  destruct (files w !! (dir, processed_name id)) as [done_before|] eqn:Hp.
  { rewrite (strict_visit_marked dir file id w Hfile Hid); [|left; by rewrite Hp].
    left. simpl. by rewrite Hp. }
  destruct (files w !! (dir, response_name id)) as [answered|] eqn:Hr.
  { rewrite (strict_visit_marked dir file id w Hfile Hid); [|right; by rewrite Hr].
    right. simpl. by rewrite Hr. }
  destruct (strict_visit_unmarked dir file id w Hfile Hid)
    as (quiet_evs & close & w' & -> & [_ Hfiles] & _ & Hend & Hsome & _).
  { intros [[? E]|[? E]]; congruence. }
  right. cbn [snd]. rewrite Hfiles, replay_app.
  apply (ending_answers _ dir file id); [done..|]. by apply Hsome.
Qed.

(** When the response cannot be created, a visit leaves every file as
    it is but the debug logs: no response, no tombstone, and the
    command file where it was. *)
Lemma strict_visit_unanswerable dir file id w dir' name :
  is_command_file file = true ->
  extract_command_id file = Some id ->
  is_Some (name_error L (dir, response_name id)) ->
  is_log_name name = false ->
  files (Strict.visit L workspace_comm_dir dir file w).2 !! (dir', name)
  = files w !! (dir', name).
Proof.
  intros Hfile Hid Hresp Hname.
  destruct (files w !! (dir, processed_name id)) as [done_before|] eqn:Hp.
  { rewrite (strict_visit_marked dir file id w Hfile Hid); [done | left; by rewrite Hp]. }
  destruct (files w !! (dir, response_name id)) as [answered|] eqn:Hr.
  { rewrite (strict_visit_marked dir file id w Hfile Hid); [done | right; by rewrite Hr]. }
  destruct (strict_visit_unmarked dir file id w Hfile Hid)
    as (quiet_evs & close & w' & -> & [_ Hfiles] & Hquiet & _ & _ & Hnone & _).
  { intros [[? E]|[? E]]; congruence. }
  cbn [snd]. rewrite Hfiles, (Hnone Hresp), app_nil_r.
  by apply quiet_events_frame.
Qed.

(** Marks stay: no visit removes a response or a tombstone. *)
Lemma strict_visit_keeps_marked dir id dir' file' w :
  marked (files w) dir id ->
  marked (files (Strict.visit L workspace_comm_dir dir' file' w).2) dir id.
Proof.
  intros Hmarked.
  destruct (strict_visit_shape dir' file' w)
    as (quiet_evs & close & w' & -> & [_ Hfiles] & Hquiet & Hclose).
  cbn [snd]. rewrite Hfiles, replay_app.
  assert (Hkeep : forall name,
             is_command_file name = false ->
             is_Some (files w !! (dir, name)) ->
             is_Some (replay (replay (files w) quiet_evs) close !! (dir, name))).
  { intros name Hname Hthere.
    pose proof (quiet_events_keep_files _ _ _ Hquiet Hthere) as Hthere'.
    destruct Hclose as [->|(id' & Hfile' & _ & Hclose)]; [exact Hthere'|].
    by eapply ending_keeps_files. }
  destruct Hmarked as [Hp|Hr]; [left | right]; by apply Hkeep.
Qed.

Lemma strict_scan_cons dir file rest w :
  Strict.scan L workspace_comm_dir dir (file :: rest) w
  = Strict.scan L workspace_comm_dir dir rest
                (Strict.visit L workspace_comm_dir dir file w).2.
Proof.
  unfold Strict.scan. cbn [for_each]. rewrite run_bind.
  destruct (strict_visit_shape dir file w) as (? & ? & w' & -> & _). reflexivity.
Qed.

Lemma strict_scan_keeps_marked dir id listing w :
  marked (files w) dir id ->
  marked (files (Strict.scan L workspace_comm_dir dir listing w).2) dir id.
Proof.
  revert w. induction listing as [|file rest IH]; intros w Hmarked; [exact Hmarked|].
  rewrite strict_scan_cons. by apply IH, strict_visit_keeps_marked.
Qed.






End Visit.

Section Claims.
Context `{Platform H}.
Variable L : limits.
Variable workspace_comm_dir : string.
Implicit Types (w : world H) (evs : list event).

(** Where the response file cannot be created, a visit leaves the id
    unmarked and the command file in its place. *)
Lemma strict_visit_stays_unmarked dir file id w :
  is_command_file file = true ->
  extract_command_id file = Some id ->
  is_Some (name_error L (dir, response_name id)) ->
  ~ marked (files w) dir id ->
  let w1 := (Strict.visit L workspace_comm_dir dir file w).2 in
  Strict.visit L workspace_comm_dir dir file w = (Ret tt, w1)
  /\ ~ marked (files w1) dir id
  /\ files w1 !! (dir, file) = files w !! (dir, file).
Proof.
  intros Hfile Hid Hresp Hfree w1. subst w1. split.
  { pose proof (strict_visit_returns L workspace_comm_dir dir file w) as Hret.
    by destruct (Strict.visit L workspace_comm_dir dir file w) as [[[]|?] ?]. }
  unfold marked.
  rewrite !(strict_visit_unanswerable L workspace_comm_dir dir file id w)
    by first [done | apply processed_name_not_log | apply response_name_not_log].
  split; [exact Hfree|].
  apply (strict_visit_unanswerable L workspace_comm_dir dir file id w); [done..|].
  destruct (is_log_name file) eqn:Hlog; [|done].
  destruct (log_name_cases file Hlog) as [->| ->]; discriminate.
Qed.

(** C2, amended.  The id under which a request is checked and marked is
    the one the poller cuts out of the file name.  A request whose id
    has a tombstone or a response in the directory is skipped before
    anything else is done: the visit returns and leaves the world as it
    was.  Where the response file can be created, every visit leaves the
    id marked, also through the visits of any other files, so that a
    file that comes back under that id is skipped.  Where the response
    file cannot be created, the visit leaves the id unmarked and the
    command file in its place: the request is handled again. *)
Theorem dispatch_is_at_most_once_for_the_extracted_id dir file file' id w :
  is_command_file file = true ->
  extract_command_id file = Some id ->
  is_command_file file' = true ->
  extract_command_id file' = Some id ->
  (marked (files w) dir id -> Strict.visit L workspace_comm_dir dir file w = (Ret tt, w))
  /\ (name_error L (dir, response_name id) = None ->
      let w1 := (Strict.visit L workspace_comm_dir dir file w).2 in
      marked (files w1) dir id
      /\ Strict.visit L workspace_comm_dir dir file' w1 = (Ret tt, w1)
      /\ forall others,
           let w2 := (Strict.scan L workspace_comm_dir dir others w1).2 in
           Strict.visit L workspace_comm_dir dir file' w2 = (Ret tt, w2))
  /\ (is_Some (name_error L (dir, response_name id)) ->
      ~ marked (files w) dir id ->
      let w1 := (Strict.visit L workspace_comm_dir dir file w).2 in
      ~ marked (files w1) dir id
      /\ files w1 !! (dir, file) = files w !! (dir, file)).
Proof.
  intros Hfile Hid Hfile' Hid'. split; [|split].
  - by apply strict_visit_marked.
  - intros Hresp w1.
    pose proof (strict_visit_marks L workspace_comm_dir dir file id w Hfile Hid Hresp)
      as Hmarked.
    split; [exact Hmarked|].
    split; [by apply (strict_visit_marked L workspace_comm_dir dir file' id)|].
    intros others w2. apply (strict_visit_marked L workspace_comm_dir dir file' id); [done..|].
    by apply strict_scan_keeps_marked.
  - intros Hresp Hfree.
    by destruct (strict_visit_stays_unmarked dir file id w Hfile Hid Hresp Hfree)
      as (_ & ? & ?).
Qed.

(** [json.load] changes nothing, and what it gives depends on the
    files only. *)
Lemma load_command_after_print p text w :
  load_command L p (emit (Print text) w).2
  = ((load_command L p w).1, (emit (Print text) w).2).
Proof.
  unfold load_command. rewrite !run_bind. unfold Strict.read_file.
  cbn [files emit snd apply_event].
  destruct (files w !! p) as [body|]; [|reflexivity].
  destruct (read_result L p body) as [failure|decoded]; [reflexivity|].
  unfold lift. by destruct (json_loads decoded).
Qed.

(** A request whose handling raises before it has done anything is
    answered with the error, where the response can be created. *)
Lemma strict_visit_failed dir file id e w :
  is_command_file file = true ->
  extract_command_id file = Some id ->
  ~ marked (files w) dir id ->
  let start := Print ("Processing command file: " +:+ path_str (dir, file)) in
  Strict.compute_result L workspace_comm_dir (dir, file) id (emit start w).2
  = (Raise e, (emit start w).2) ->
  name_error L (dir, response_name id) = None ->
  let answer := JObj [("error", JStr (error_prefix e +:+ exn_str e))] in
  let notes :=
    match exn_kind e with
    | JSONDecodeError =>
        [ Print ("Error parsing JSON in " +:+ path_str (dir, file)
                   +:+ ": " +:+ exn_str e) ]
    | _ =>
        [ Print ("Error processing command file " +:+ path_str (dir, file)
                   +:+ ": " +:+ exn_str e)
        ; Traceback e ]
    end in
  exists w1,
    Strict.visit L workspace_comm_dir dir file w = (Ret tt, w1)
    /\ log w1 = log w ++ start :: notes ++ [Dump (dir, response_name id) answer]
    /\ host w1 = host w
    /\ files w1 = <[(dir, response_name id) := json_dumps answer]> (files w).
Proof.
  intros Hfile Hid Hfree start Hfails Hresp answer notes.
  assert (Hp : ~ is_Some (files w !! (dir, processed_name id)))
    by (intros ?; apply Hfree; by left).
  assert (Hr : ~ is_Some (files w !! (dir, response_name id)))
    by (intros ?; apply Hfree; by right).
  subst answer notes.
  unfold Strict.visit. rewrite Hfile, Hid. unfold try_catch at 1.
  rewrite run_bind, (run_path_exists_false _ _ Hp).
  rewrite run_bind, (run_path_exists_false _ _ Hr). cbn [orb].
  rewrite run_bind, run_print. fold start.
  unfold try_catch_json, Strict.dispatch. rewrite run_bind, Hfails.
  destruct e as [kind msg]. destruct kind; cbv beta iota;
    cbn [exn_kind error_prefix].
  1: { cbn [exn_str]. rewrite run_bind, run_print, (run_dump_ok L _ _ _ Hresp).
       eexists. split; [reflexivity|].
       cbn [log files host emit snd apply_event].
       split; [by rewrite <- !app_assoc|]. by split. }
  all: rewrite (run_outer_handler L dir file id _ _), Hresp;
    eexists; (split; [reflexivity|]);
    cbn [log files host emit snd apply_event exn_str];
    (split; [by rewrite <- !app_assoc|]); by split.
Qed.

(** C3, amended.  A command file whose body is not valid JSON, be it
    that the bytes do not decode or that the text does not parse, gets
    a response whose [error] field carries the message of the failure,
    where the response file can be created.  The file itself stays under
    its name: it is not renamed, and no tombstone appears.  It is the
    response that makes the next pass skip it; where the response file
    cannot be created, nothing marks the request and it is tried
    again. *)
Theorem unparsable_body_is_answered_not_renamed dir file id body e w :
  is_command_file file = true ->
  extract_command_id file = Some id ->
  ~ marked (files w) dir id ->
  files w !! (dir, file) = Some body ->
  (load_command L (dir, file) w).1 = Raise e ->
  let w1 := (Strict.visit L workspace_comm_dir dir file w).2 in
  (name_error L (dir, response_name id) = None ->
   let answer := JObj [("error", JStr (error_prefix e +:+ exn_str e))] in
   exists notes,
     Strict.visit L workspace_comm_dir dir file w = (Ret tt, w1)
     /\ log w1 = log w ++ notes ++ [Dump (dir, response_name id) answer]
     /\ Forall quiet notes
     /\ host w1 = host w
     /\ files w1 = <[(dir, response_name id) := json_dumps answer]> (files w)
     /\ files w1 !! (dir, file) = Some body
     /\ files w1 !! (dir, processed_name id) = None
     /\ Strict.visit L workspace_comm_dir dir file w1 = (Ret tt, w1))
  /\ (is_Some (name_error L (dir, response_name id)) ->
      Strict.visit L workspace_comm_dir dir file w = (Ret tt, w1)
      /\ ~ marked (files w1) dir id
      /\ files w1 !! (dir, file) = Some body).
Proof.
  intros Hfile Hid Hfree Hbody Hload w1. split.
  - intros Hresp answer.
    set (start := Print ("Processing command file: " +:+ path_str (dir, file))).
    assert (Hfails : Strict.compute_result L workspace_comm_dir (dir, file) id
                       (emit start w).2 = (Raise e, (emit start w).2)).
    { unfold Strict.compute_result. rewrite run_bind.
      unfold start. rewrite load_command_after_print, Hload. reflexivity. }
    destruct (strict_visit_failed dir file id e w Hfile Hid Hfree Hfails Hresp)
      as (w' & Hrun & Hlog & Hhost & Hfiles).
    subst w1. rewrite Hrun. cbn [snd].
    eexists (start :: _). split; [reflexivity|]. split; [exact Hlog|].
    split.
    { constructor; [done|]. destruct (exn_kind e); by repeat constructor. }
    split; [exact Hhost|]. split; [exact Hfiles|]. rewrite Hfiles.
    split.
    { rewrite lookup_insert_ne; [done|].
      apply path_ne. intros E. symmetry in E.
      by destruct (command_file_not_response file id Hfile). }
    split.
    { rewrite lookup_insert_ne
        by (apply path_ne; intros E; by destruct (response_not_processed id id)).
      apply eq_None_not_Some. intros ?. apply Hfree. by left. }
    apply (strict_visit_marked L workspace_comm_dir dir file id); [done..|].
    right. rewrite Hfiles, lookup_insert_eq. eauto.
  - intros Hresp.
    destruct (strict_visit_stays_unmarked dir file id w Hfile Hid Hresp Hfree)
      as (Hrun & Hunmarked & Hkept).
    split; [exact Hrun|]. split; [exact Hunmarked|]. subst w1. by rewrite Hkept.
Qed.



(** What [compute_result] does with a document that is not an
    object. *)
Lemma strict_compute_result_non_object dir file id body text doc w :
  files w !! (dir, file) = Some body ->
  read_result L (dir, file) body = inr text ->
  json_loads text = Ret doc ->
  (forall fields, doc <> JObj fields) ->
  Strict.compute_result L workspace_comm_dir (dir, file) id w
  = (Raise (Exn AttributeError
              ("'" +:+ type_name doc +:+ "' object has no attribute 'get'")), w).
Proof.
  intros Hfile Hdecode Hloads Hdoc. unfold Strict.compute_result, load_command.
  rewrite run_bind, run_bind, (run_read_ok L _ body text) by done.
  unfold lift. rewrite Hloads. rewrite run_bind.
  destruct doc; [reflexivity..|by destruct (Hdoc fields)].
Qed.

(** X19.  A command file whose body is valid JSON but not an object (a list,
    a string, a number, null) fails with an AttributeError before
    anything is done with it: the host is not called, the file is not
    renamed and no tombstone appears.  Where the response file can be
    created, the request is answered with an [error] response that
    carries the AttributeError, and the response makes the next pass
    skip the file; where it cannot be created, the error is printed
    only, no file changes, and the request stays unmarked. *)
Theorem non_object_document_fails_with_an_attribute_error :
  forall dir file id body text doc w,
    is_command_file file = true ->
    extract_command_id file = Some id ->
    ~ marked (files w) dir id ->
    files w !! (dir, file) = Some body ->
    read_result L (dir, file) body = inr text ->
    json_loads text = Ret doc ->
    (forall fields, doc <> JObj fields) ->
    let e := Exn AttributeError
               ("'" +:+ type_name doc +:+ "' object has no attribute 'get'") in
    let answer := JObj [("error", JStr (exn_str e))] in
    let printed :=
      [ Print ("Processing command file: " +:+ path_str (dir, file))
      ; Print ("Error processing command file " +:+ path_str (dir, file)
                 +:+ ": " +:+ exn_str e)
      ; Traceback e ] in
    exists w1,
      Strict.visit L workspace_comm_dir dir file w = (Ret tt, w1)
      /\ host w1 = host w
      /\ files w1 !! (dir, file) = Some body
      /\ files w1 !! (dir, processed_name id) = None
      /\ (name_error L (dir, response_name id) = None ->
          log w1 = log w ++ printed ++ [Dump (dir, response_name id) answer]
          /\ files w1 !! (dir, response_name id) = Some (json_dumps answer)
          /\ Strict.visit L workspace_comm_dir dir file w1 = (Ret tt, w1))
      /\ (is_Some (name_error L (dir, response_name id)) ->
          log w1 = log w ++ printed
          /\ files w1 = files w
          /\ ~ marked (files w1) dir id).
Proof.
  intros dir file id body text doc w Hfile Hid Hfree Hbody Hdecode Hloads Hdoc
    e answer printed.
  assert (Hp : ~ is_Some (files w !! (dir, processed_name id)))
    by (intros ?; apply Hfree; by left).
  assert (Hr : ~ is_Some (files w !! (dir, response_name id)))
    by (intros ?; apply Hfree; by right).
  assert (Hcr : (dir, response_name id) <> (dir, file)).
  { apply path_ne. intros E. symmetry in E.
    by destruct (command_file_not_response file id Hfile). }
  assert (Hrp : (dir, response_name id) <> (dir, processed_name id)).
  { apply path_ne, response_not_processed. }
  assert (Hrun : Strict.visit L workspace_comm_dir dir file w
                 = (Ret tt,
                    let w2 := (emit (Traceback e)
                                 (emit (Print ("Error processing command file "
                                                 +:+ path_str (dir, file)
                                                 +:+ ": " +:+ exn_str e))
                                    (emit (Print ("Processing command file: "
                                                    +:+ path_str (dir, file))) w).2).2).2 in
                    match name_error L (dir, response_name id) with
                    | None => (emit (Dump (dir, response_name id) answer) w2).2
                    | Some _ => w2
                    end)).
  { unfold Strict.visit. rewrite Hfile, Hid. unfold try_catch at 1.
    rewrite run_bind, (run_path_exists_false _ _ Hp).
    rewrite run_bind, (run_path_exists_false _ _ Hr). cbn [orb].
    rewrite run_bind, run_print.
    unfold try_catch_json, Strict.dispatch. rewrite run_bind.
    erewrite strict_compute_result_non_object;
      [|exact Hbody|exact Hdecode|exact Hloads|exact Hdoc].
    cbv beta iota. cbn [exn_kind]. fold e.
    by rewrite (run_outer_handler L dir file id e _). }
  eexists. split; [exact Hrun|].
  cbv zeta.
  destruct (name_error L (dir, response_name id)) as [msg|] eqn:Hresp;
    cbn [log files host emit snd apply_event].
  - split; [reflexivity|]. split; [exact Hbody|].
    split; [by apply eq_None_not_Some|].
    split; [discriminate|]. intros _.
    split; [by rewrite <- !app_assoc|]. by split.
  - split; [reflexivity|].
    split; [by rewrite lookup_insert_ne|].
    split; [rewrite lookup_insert_ne by done; by apply eq_None_not_Some|].
    split; [|by intros [? [=]]]. intros _.
    split; [by rewrite <- !app_assoc|].
    split; [apply lookup_insert_eq|].
    apply (strict_visit_marked L workspace_comm_dir dir file id); [done..|].
    right. cbn [files]. rewrite lookup_insert_eq. eauto.
Qed.

(** What [create_message_box_command] does: it returns, it writes to
    its own log only, and it asks the host to define a command for the
    message exactly when the first lines of its log could be written. *)
Lemma strict_create_message_box_command_course message w :
  let command_log : path := (workspace_comm_dir, "message_command_debug.txt") in
  exists shown evs w',
    Strict.create_message_box_command L workspace_comm_dir message w = (Ret shown, w')
    /\ log w' = log w ++ evs
    /\ (forall p, p <> command_log -> files w' !! p = files w !! p)
    /\ (name_error L command_log = None ->
        encode_error L (py_str message) = None ->
        Host "commandDefinitions.addButtonDefinition"
             [JStr ("MCPMessageBox_" +:+ pretty (time_millis (host w))); message] ∈ evs)
    /\ (name_error L command_log <> None \/ encode_error L (py_str message) <> None ->
        host w' = host w /\ shown = false).
Proof.
  cbv zeta.
  unfold Strict.create_message_box_command, try_catch, Strict.append_file,
    Strict.create, Strict.write_text, first_error, mbind, M_bind, bind,
    ctime, now_millis, emit, host_try, mret, M_ret, ret, raise.
  cbn [fst snd host log files].
  destruct (name_error L (workspace_comm_dir, "message_command_debug.txt"))
    as [msg|] eqn:Hname; cbn [fst snd host log files].
  { exists false, [], w. rewrite app_nil_r. by repeat split. }
  destruct (encode_error L (py_str message)) as [msg|] eqn:Hencode;
    cbn [fst snd host log files].
  2: destruct (ui_define_message_command message (host w)) as [[[]|e1] h1];
    cbn [fst snd host log files].
  2: destruct (ui_execute_message_command h1) as [[[]|e2] h2];
    cbn [fst snd host log files].
  all: repeat match goal with
       | |- context [encode_error L ?s] =>
           destruct (encode_error L s); cbn [fst snd host log files]
       end.
  all: do 3 eexists; (split; [reflexivity|]);
    cbn [log files host apply_event];
    (split; [rewrite <- ?app_assoc; reflexivity|]);
    (split; [intros p Hp; by rewrite ?lookup_insert_ne by done|]);
    (split; [intros; first [congruence | set_solver]
            |intros [?|?]; first [congruence | done]]).
Qed.

(** X15.  A [message_box] command whose params are an object is answered
    with [Message processed successfully] whatever the host did with
    the message, also when it could not be shown, provided the first
    line of the handler's log is written: the log
    [command_message_debug.txt] can be opened and takes the message.
    That write stands outside every [try] of the handler: where the log
    cannot be opened, or does not take the message, the command raises
    the error of the write and the host is not asked. *)
Theorem message_box_reports_success_once_its_log_is_written :
  forall fields w,
    let message := dict_get fields "message" (JStr "") in
    let handler_log : path := (workspace_comm_dir, "command_message_debug.txt") in
    let run := Strict.handle_command L workspace_comm_dir
                 (JStr "message_box") (JObj fields) w in
    (name_error L handler_log = None ->
     encode_error L (py_str message) = None ->
     run.1 = Ret (JStr "Message processed successfully"))
    /\ (forall msg,
          name_error L handler_log = Some msg ->
          run = (Raise (Exn OSError msg), w))
    /\ (forall msg,
          name_error L handler_log = None ->
          encode_error L (py_str message) = Some msg ->
          run.1 = Raise (Exn UnicodeEncodeError msg)
          /\ host run.2 = host w
          /\ log run.2 = log w ++ [Append handler_log ""]).
Proof.
  intros fields w message handler_log run. subst run.
  change (Strict.handle_command L workspace_comm_dir (JStr "message_box") (JObj fields))
    with (Strict.handle_message_box L workspace_comm_dir (JObj fields)).
  unfold Strict.handle_message_box. cbn [py_get].
  rewrite run_bind, run_ret. fold message handler_log.
  rewrite run_bind.
  split; [|split].
  - intros Hname Hencode.
    rewrite (run_strict_append_ctime L handler_log _ _ w Hname)
      by (cbn [first_error]; by rewrite Hencode).
    rewrite run_bind. unfold try_catch. rewrite run_bind.
    match goal with
    | |- context [Strict.create_message_box_command L workspace_comm_dir ?m ?w0] =>
        destruct (strict_create_message_box_command_course m w0)
          as (shown & evs & w' & -> & _)
    end.
    by rewrite (run_strict_append_ctime L handler_log _ _ w' Hname).
  - intros msg Hname.
    by rewrite (run_strict_append_unnamed L handler_log _ msg w Hname).
  - intros msg Hname Hencode.
    unfold Strict.append_file, write_text.
    rewrite run_bind, (run_create_ok L handler_log w Hname).
    rewrite run_bind, run_emit. rewrite run_bind. unfold ctime.
    cbn [first_error]. rewrite Hencode. by cbn.
Qed.




End Claims.

End StrictFacts.

(* ===================================================================== *)
(** ** The poller and its files, on examples *)
(* ===================================================================== *)

Module StrictExamples.
Import Names Py Poller Protocol Fixture Effects Strict NameFacts PollerFacts StrictFacts.

(** A directory that holds one file marks no id. *)
Lemma single_file_not_marked name text id :
  name <> processed_name id -> name <> response_name id ->
  ~ marked (files (world_with [((dir, name), text)])) dir id.
Proof.
  intros Hp Hr.
  unfold marked, world_with. cbn [files list_to_map foldr uncurry fst snd].
  rewrite !lookup_insert_ne by (by apply path_ne).
  rewrite !lookup_empty. intros [[? E]|[? E]]; discriminate.
Qed.

(** A request is handled, and the same id coming back in another file is
    skipped. *)
Lemma dispatch_is_at_most_once_example :
  let w := pending_tools in
  (marked (files w) dir "7" -> Strict.visit roomy dir dir "command_7.json" w = (Ret tt, w))
  /\ (name_error roomy (dir, response_name "7") = None ->
      let w1 := (Strict.visit roomy dir dir "command_7.json" w).2 in
      marked (files w1) dir "7"
      /\ Strict.visit roomy dir dir "command_7_again.json" w1 = (Ret tt, w1)
      /\ forall others,
           let w2 := (Strict.scan roomy dir dir others w1).2 in
           Strict.visit roomy dir dir "command_7_again.json" w2 = (Ret tt, w2))
  /\ (is_Some (name_error roomy (dir, response_name "7")) ->
      ~ marked (files w) dir "7" ->
      let w1 := (Strict.visit roomy dir dir "command_7.json" w).2 in
      ~ marked (files w1) dir "7"
      /\ files w1 !! (dir, "command_7.json") = files w !! (dir, "command_7.json")).
Proof.
  apply (dispatch_is_at_most_once_for_the_extracted_id
           roomy dir dir "command_7.json" "command_7_again.json" "7");
    reflexivity.
Defined.

(** The file [command_a_b.json] comes back while its response
    [response_a_b.json] and its tombstone [processed_command_a_b.json]
    are in the directory.  It is not skipped: the id that is checked is
    [a], the request is handled, a response is written under the id [a]
    and the file is renamed to the tombstone of [a]. *)
Lemma answered_request_is_handled_under_a_shorter_id :
  let w := answered_a_b in
  let w1 := (Strict.visit roomy dir dir (command_name "a_b") w).2 in
  is_Some (files w !! (dir, response_name "a_b"))
  /\ is_Some (files w !! (dir, processed_name "a_b"))
  /\ extract_command_id (command_name "a_b") = Some "a"
  /\ response_documents (log w1) = [JObj [("result", list_tools_result)]]
  /\ files w1 !! (dir, response_name "a") = Some "result"
  /\ files w1 !! (dir, processed_name "a") = Some "tools"
  /\ files w1 !! (dir, command_name "a_b") = None.
Proof. vm_compute. repeat split; eauto. Qed.

(** Where names have at most twenty characters, the response of the id
    [1234567] cannot be created: a visit marks nothing, and the next
    visit handles the request again. *)
Lemma unanswerable_request_is_handled_on_every_pass :
  let L := names_up_to 20 in
  let file := command_name "1234567" in
  let w1 := (Strict.visit L dir dir file pending_long).2 in
  let w2 := (Strict.visit L dir dir file w1).2 in
  let handled (w : world unit) :=
    length (List.filter
              (fun ev => match ev with
                         | Print text =>
                             String.eqb text ("Processing command 1234567: list_tools"
                                                +:+ " with params dict")
                         | _ => false
                         end) (log w)) in
  files w2 !! (dir, response_name "1234567") = None
  /\ files w2 !! (dir, processed_name "1234567") = None
  /\ files w2 !! (dir, file) = Some "tools"
  /\ handled w1 = 1
  /\ handled w2 = 2.
Proof. vm_compute. repeat split. Qed.

(** The malformed file is answered, and it is still there under its own
    name afterwards, with no tombstone beside it. *)
Lemma unparsable_file_is_not_renamed :
  let w1 := (Strict.visit roomy dir dir "command_7.json" pending_broken).2 in
  files w1 !! (dir, processed_name "7") = None
  /\ files w1 !! (dir, "command_7.json") = Some "broken"
  /\ files w1 !! (dir, response_name "7") = Some "error".
Proof. vm_compute. repeat split. Qed.

(** The same request, followed through: the error response, no rename,
    and a second visit that does nothing. *)
Lemma unparsable_body_example :
  let e := Exn JSONDecodeError "Expecting value: line 1 column 1 (char 0)" in
  let w1 := (Strict.visit roomy dir dir "command_7.json" pending_broken).2 in
  (name_error roomy (dir, response_name "7") = None ->
   let answer := JObj [("error", JStr (error_prefix e +:+ exn_str e))] in
   exists notes,
     Strict.visit roomy dir dir "command_7.json" pending_broken = (Ret tt, w1)
     /\ log w1 = log pending_broken ++ notes ++ [Dump (dir, response_name "7") answer]
     /\ Forall quiet notes
     /\ host w1 = host pending_broken
     /\ files w1 = <[(dir, response_name "7") := json_dumps answer]> (files pending_broken)
     /\ files w1 !! (dir, "command_7.json") = Some "broken"
     /\ files w1 !! (dir, processed_name "7") = None
     /\ Strict.visit roomy dir dir "command_7.json" w1 = (Ret tt, w1))
  /\ (is_Some (name_error roomy (dir, response_name "7")) ->
      Strict.visit roomy dir dir "command_7.json" pending_broken = (Ret tt, w1)
      /\ ~ marked (files w1) dir "7"
      /\ files w1 !! (dir, "command_7.json") = Some "broken").
Proof.
  apply (unparsable_body_is_answered_not_renamed
           roomy dir dir "command_7.json" "7" "broken"
           (Exn JSONDecodeError "Expecting value: line 1 column 1 (char 0)")
           pending_broken).
  - reflexivity.
  - reflexivity.
  - by apply single_file_not_marked.
  - reflexivity.
  - reflexivity.
Defined.

(** A body whose bytes do not decode is answered with the message of the
    decoder as it is: the error is not a JSONDecodeError, and the
    response comes from the outer handler. *)
Lemma undecodable_bytes_are_answered_by_the_outer_handler :
  let w1 := (Strict.visit picky dir dir "command_7.json" pending_bytes).2 in
  response_documents (log w1)
  = [JObj [("error",
            JStr "'utf-8' codec can't decode byte 0xff in position 0: invalid start byte")]]
  /\ files w1 !! (dir, "command_7.json") = Some "bytes"
  /\ files w1 !! (dir, processed_name "7") = None.
Proof. vm_compute. repeat split. Qed.



(** Where names have at most twenty characters, the tombstone of the id
    [7] cannot be created: the result is written, the rename fails, and
    the error of the rename is written over the result; the command
    file stays. *)
Lemma unknown_command_without_tombstone :
  let w1 := (Strict.visit (names_up_to 20) dir dir "command_7.json" pending_unknown).2 in
  response_documents (log w1)
  = [ JObj [("result", JStr "Unknown command: does_not_exist")]
    ; JObj [("error",
             JStr "[Errno 36] File name too long: 'mcp_comm/processed_command_7.json'")] ]
  /\ files w1 !! (dir, response_name "7") = Some "error"
  /\ files w1 !! (dir, processed_name "7") = None
  /\ files w1 !! (dir, "command_7.json") = Some "unknown".
Proof. vm_compute. repeat split. Qed.

(** A list for a document. *)
Lemma non_object_document_strict_example :
  let e := Exn AttributeError "'list' object has no attribute 'get'" in
  let answer := JObj [("error", JStr (exn_str e))] in
  let printed :=
    [ Print ("Processing command file: " +:+ path_str (dir, "command_7.json"))
    ; Print ("Error processing command file " +:+ path_str (dir, "command_7.json")
               +:+ ": " +:+ exn_str e)
    ; Traceback e ] in
  exists w1,
    Strict.visit roomy dir dir "command_7.json" pending_array = (Ret tt, w1)
    /\ host w1 = host pending_array
    /\ files w1 !! (dir, "command_7.json") = Some "array"
    /\ files w1 !! (dir, processed_name "7") = None
    /\ (name_error roomy (dir, response_name "7") = None ->
        log w1 = log pending_array ++ printed ++ [Dump (dir, response_name "7") answer]
        /\ files w1 !! (dir, response_name "7") = Some (json_dumps answer)
        /\ Strict.visit roomy dir dir "command_7.json" w1 = (Ret tt, w1))
    /\ (is_Some (name_error roomy (dir, response_name "7")) ->
        log w1 = log pending_array ++ printed
        /\ files w1 = files pending_array
        /\ ~ marked (files w1) dir "7").
Proof.
  apply (non_object_document_fails_with_an_attribute_error
           roomy dir dir "command_7.json" "7" "array" "array" (JArr []) pending_array).
  - reflexivity.
  - reflexivity.
  - by apply single_file_not_marked.
  - reflexivity.
  - reflexivity.
  - reflexivity.
  - discriminate.
Defined.

(** A message that the log does not take: the command raises, and the
    host is not asked. *)
Lemma message_box_with_a_snowman :
  let handler_log : path := (dir, "command_message_debug.txt") in
  let run := Strict.handle_command ascii_only dir (JStr "message_box")
               (JObj [("message", JStr snowman)]) pending_tools in
  run.1 = Raise (Exn UnicodeEncodeError
                   "'ascii' codec can't encode characters: ordinal not in range(128)")
  /\ host run.2 = host pending_tools
  /\ log run.2 = log pending_tools ++ [Append handler_log ""].
Proof.
  destruct (message_box_reports_success_once_its_log_is_written
              ascii_only dir [("message", JStr snowman)] pending_tools)
    as (_ & _ & Hraise).
  apply Hraise; reflexivity.
Defined.


(** The white space of [str.strip] is not the blank alone: the no-break
    space U+00A0 and the line separator U+2028 go as well. *)
Lemma strip_takes_unicode_white_space :
  Strict.strip (bytes [194; 160] +:+ "hello" +:+ bytes [226; 128; 168]) = "hello".
Proof. reflexivity. Qed.

(** Where the directory cannot be listed and [error.txt] cannot be
    created, the exception leaves the pass and the loop with it. *)
Lemma locked_directory_ends_the_loop :
  (Strict.monitor_loop locked dir [dir] [true; true] pending_unknown).1
  = Raise (Exn OSError "[Errno 13] Permission denied: 'mcp_comm/error.txt'").
Proof. vm_compute. reflexivity. Qed.

End StrictExamples.
